(** * prepare_data.py: a shallow embedding and its specification

    The script reads a reference table, assigns every record to one of
    [N_FOLDS] cross-validation folds, rebuilds the output directory tree and
    writes one processed waveform and one label per record and fold.

    Python values are modelled as follows.
    - Exceptions: the type [exn]; a computation that may raise has type
      [result A] and is sequenced with the [x ← e; k] notation.
    - numpy arrays: a shape and the row-major list of elements ([ndarray]).
    - Paths: the list of the components given to [os.path.join].
    - Python dicts: [gmap]s.
    - The file system the script writes to: a set of directories and a map
      from paths to file contents ([filesystem]).
    - What the script only reads (the CSV table, the MATLAB and WFDB files,
      the state of numpy's global generator): a [world]. *)

From stdpp Require Import base gmap sets list strings pretty.

Open Scope string_scope.
Open Scope list_scope.
Open Scope nat_scope.

(** ** Exceptions *)

Inductive exn : Type :=
  | KeyError (msg : string)
  | FileNotFoundError (msg : string)
  | FileExistsError (msg : string)
  | NotADirectoryError (msg : string)
  | IsADirectoryError (msg : string)
  | ValueError (msg : string)
  | TypeError (msg : string)
  | IndexError (msg : string)
  | LibraryError (msg : string).

Inductive result (A : Type) : Type :=
  | Ok (a : A)
  | Raise (e : exn).
Arguments Ok {A} a.
Arguments Raise {A} e.

#[global] Instance exn_eq_dec : EqDecision exn.
Proof. solve_decision. Defined.
#[global] Instance result_eq_dec `{EqDecision A} : EqDecision (result A).
Proof. solve_decision. Defined.

#[global] Instance result_ret : MRet result := λ A a, Ok a.
#[global] Instance result_bind : MBind result := λ A B f m,
  match m with
  | Ok a => f a
  | Raise e => Raise e
  end.

Definition is_ok {A} (m : result A) : bool :=
  match m with Ok _ => true | Raise _ => false end.

(** The value returned, or [d] when an exception was raised. *)
Definition value_or {A} (d : A) (m : result A) : A :=
  match m with Ok a => a | Raise _ => d end.

(** [d[k]] on a dict: a missing key raises [KeyError]. *)
Definition getitem `{Countable K} {V} (d : gmap K V) (k : K) (shown : string)
    : result V :=
  match d !! k with
  | Some v => Ok v
  | None => Raise (KeyError shown)
  end.

(** A [for] loop over a list whose body may raise and updates a state. *)
Fixpoint for_each {A S} (body : A → S → result S) (l : list A) (s : S)
    : result S :=
  match l with
  | [] => Ok s
  | x :: l' => s' ← body x s; for_each body l' s'
  end.

(** A list comprehension whose element expression may raise. *)
Fixpoint comprehension {A B} (f : A → result B) (l : list A)
    : result (list B) :=
  match l with
  | [] => Ok []
  | x :: l' => y ← f x; ys ← comprehension f l'; Ok (y :: ys)
  end.

(** A list comprehension with an [if] clause that may raise. *)
Fixpoint comprehension_if {A} (cond : A → result bool) (l : list A)
    : result (list A) :=
  match l with
  | [] => Ok []
  | x :: l' =>
      b ← cond x; ys ← comprehension_if cond l';
      Ok (if b : bool then x :: ys else ys)
  end.

(** [enumerate(l)], counting from [start]. *)
Fixpoint enumerate_from {A} (start : nat) (l : list A) : list (nat * A) :=
  match l with
  | [] => []
  | x :: l' => (start, x) :: enumerate_from (S start) l'
  end.
Definition enumerate {A} (l : list A) : list (nat * A) := enumerate_from 0 l.

(** ** Paths *)

Definition path : Type := list string.

(** [os.path.join(a, b, ...)]: the components, in order. *)
Definition os_path_join (components : list string) : path := components.

(** [p + suffix] on a joined path: the suffix lands on the last component. *)
Fixpoint path_add (p : path) (suffix : string) : path :=
  match p with
  | [] => [suffix]
  | [c] => [c +:+ suffix]
  | c :: p' => c :: path_add p' suffix
  end.

(** A path as it is printed inside a message, given the separator of the
    platform. *)
Fixpoint path_str (sep : string) (p : path) : string :=
  match p with
  | [] => ""
  | [c] => c
  | c :: p' => c +:+ sep +:+ path_str sep p'
  end.

(** ** numpy arrays *)

Record ndarray (A : Type) : Type := NdArray {
  shape : list nat;
  data : list A;
}.
Arguments NdArray {A} shape data.
Arguments shape {A} _.
Arguments data {A} _.

Definition ndim {A} (a : ndarray A) : nat := length (shape a).

(** [a.squeeze()]: every axis of length one is removed. *)
Definition squeeze {A} (a : ndarray A) : ndarray A :=
  NdArray (filter (λ d, d ≠ 1) (shape a)) (data a).

(** [a.astype(t)]: the elements are converted, the shape is kept. *)
Definition astype {A B} (cast : A → B) (a : ndarray A) : ndarray B :=
  NdArray (shape a) (cast <$> data a).

(** The two-dimensional signal that [wfdb.rdsamp] returns: [nrows] samples of
    [ncols] channels, row by row. *)
Record signal2d (A : Type) : Type := Signal2d {
  nrows : nat;
  ncols : nat;
  samples : list A;
}.
Arguments Signal2d {A} nrows ncols samples.
Arguments nrows {A} _.
Arguments ncols {A} _.
Arguments samples {A} _.

Fixpoint column0 {A} (n c : nat) (d : list A) : list A :=
  match n with
  | 0 => []
  | S n' =>
      match d with
      | [] => []
      | x :: _ => x :: column0 n' c (drop c d)
      end
  end.

(** [signal[:,0]]: the first channel; without any channel the index 0 is out
    of bounds. *)
Definition first_channel {A} (s : signal2d A) : result (ndarray A) :=
  if decide (ncols s = 0)
  then Raise (IndexError "index 0 is out of bounds for axis 1 with size 0")
  else Ok (NdArray [nrows s] (column0 (nrows s) (ncols s) (samples s))).

(** ** Configuration *)

Definition REF_CSV : string :=
  "C:\Users\Notebook\Downloads\training2017 (2)\training2017\REFERENCE-v3.csv".
Definition HEA_DIR : string :=
  "C:\Users\Notebook\Downloads\training2017 (2)\training2017\hea_files".
Definition MAT_DIR : string :=
  "C:\Users\Notebook\Downloads\training2017 (2)\training2017\mat_files".
Definition FOLDS_DIR : string := "folds".

Definition N_FOLDS : nat := 4.
Definition SEED : Z := 42.
Definition LABEL_MAP : gmap string nat := <["O" := 2]> (<["A" := 1]> (<["N" := 0]> ∅)).

(** ** What the script takes from its libraries and its platform *)

Class Externals : Type := {
  (** the element type of the arrays found in the input files *)
  sample : Type;
  (** single-precision floats, and what [astype(np.float32)] does to an
      element *)
  float32 : Type;
  to_float32 : sample → float32;
  (** [utils.signal_processing] and [utils.normalization_processing] *)
  signal_processing : ndarray float32 → ndarray float32;
  normalization_processing : ndarray float32 → ndarray float32;
  (** numpy's generator: its states, [RandomState(seed)] and what [shuffle]
      makes of a list of indices *)
  rng_state : Type;
  RandomState : Z → rng_state;
  rng_shuffle : rng_state → list nat → list nat;
  (** [os.sep], used when a path is printed *)
  os_sep : string;
}.

(** [shuffle] rearranges its argument. *)
Definition shuffle_permutes `{Externals} : Prop :=
  ∀ (g : rng_state) (l : list nat), rng_shuffle g l ≡ₚ l.

Section PrepareData.

Context `{!Externals}.

(** *** What the script reads *)

Record world : Type := World {
  (** [os.path.exists] on the locations of the input files *)
  path_exists : path → bool;
  (** [scipy.io.loadmat]: the variables of a MATLAB container *)
  loadmat : path → result (gmap string (ndarray sample));
  (** [wfdb.rdsamp]: the signal (the dict of fields is not used) *)
  rdsamp : path → result (signal2d sample);
  (** [pd.read_csv(path, header=None, names=['record','label'])]: the rows *)
  read_csv : string → result (list (string * string));
  (** the state of numpy's global generator *)
  global_rng : rng_state;
}.

(** *** Signal loader *)

Definition load_ecg (w : world) (rec : string) : result (ndarray float32) :=
  let mat_path := os_path_join [MAT_DIR; rec +:+ ".mat"] in
  let wfdb_path := os_path_join [HEA_DIR; rec] in
  let dat_path := path_add wfdb_path ".dat" in
  ecg ←
    (if path_exists w mat_path then
       m ← loadmat w mat_path;
       match m !! "val" with
       | Some v => Ok (squeeze v)
       | None =>
           match m !! "ecg" with
           | Some e => Ok (squeeze e)
           | None =>
               Raise (KeyError ("No ECG variable found in "
                                  +:+ path_str os_sep mat_path))
           end
       end
     else if path_exists w dat_path then
       signal ← rdsamp w wfdb_path;
       first_channel signal
     else
       Raise (FileNotFoundError
                ("Neither " +:+ path_str os_sep mat_path +:+ " nor "
                   +:+ path_str os_sep dat_path
                   +:+ " found for record " +:+ rec)));
  Ok (astype to_float32 ecg).

(** *** Reference table *)

(** A row of [ref] once the column [int_label] is there; a label missing
    from the dict given to [Series.map] becomes NaN, here [None]. *)
Record ref_row : Type := RefRow {
  record : string;
  label : string;
  int_label : option nat;
}.

(** [Series.isin(d)] on a dict tests against its keys. *)
Definition isin (d : gmap string nat) (l : string) : bool :=
  bool_decide (is_Some (d !! l)).

(** Lines 76-78 of [main]. *)
Definition load_reference (w : world) : result (list ref_row) :=
  rows ← read_csv w REF_CSV;
  let ref :=
    filter (λ row : string * string, isin LABEL_MAP row.2 = true) rows in
  Ok ((λ row : string * string, RefRow row.1 row.2 (LABEL_MAP !! row.2))
        <$> (ref : list (string * string))).

(** [int(series)]: the single element of a series of length one. *)
Definition series_int (s : list (option nat)) : result nat :=
  match s with
  | [Some n] => Ok n
  | [None] => Raise (ValueError "cannot convert float NaN to integer")
  | _ => Raise (TypeError "cannot convert the series to <class 'int'>")
  end.

(** [int(ref.loc[ref.record == rec, 'int_label'])]. *)
Definition lookup_label (ref : list ref_row) (rec : string) : result nat :=
  series_int (int_label <$> filter (λ row, record row = rec) ref).

(** *** scikit-learn's KFold *)

Record KFold : Type := MkKFold {
  n_splits : nat;
  shuffle : bool;
  random_state : option Z;
}.

(** [check_random_state]: an integer seeds a fresh generator, [None] is
    numpy's global one. *)
Definition check_random_state (w : world) (seed : option Z) : rng_state :=
  match seed with
  | Some s => RandomState s
  | None => global_rng w
  end.

(** [np.full(k, n // k)] with the first [n % k] entries incremented. *)
Definition fold_sizes (n k : nat) : list nat :=
  (λ i, n / k + (if decide (i < n mod k) then 1 else 0)) <$> seq 0 k.

(** The slices [indices[current : current + fold_size]], [current] moving
    to the end of each slice. *)
Fixpoint iter_slices (current : nat) (sizes : list nat) (indices : list nat)
    : list (list nat) :=
  match sizes with
  | [] => []
  | fold_size :: sizes' =>
      take fold_size (drop current indices)
        :: iter_slices (current + fold_size) sizes' indices
  end.

Definition iter_test_indices (w : world) (kf : KFold) (n_samples : nat)
    : list (list nat) :=
  let indices := seq 0 n_samples in
  let indices :=
    if shuffle kf
    then rng_shuffle (check_random_state w (random_state kf)) indices
    else indices in
  iter_slices 0 (fold_sizes n_samples (n_splits kf)) indices.

(** The boolean mask of length [n_samples] that is true at the test
    indices. *)
Definition iter_test_masks (w : world) (kf : KFold) (n_samples : nat)
    : list (list bool) :=
  (λ test_index, (λ j, bool_decide (j ∈ test_index)) <$> seq 0 n_samples)
    <$> iter_test_indices w kf n_samples.

(** [a[mask]] for a boolean mask. *)
Definition bool_index {A} (a : list A) (mask : list bool) : list A :=
  (filter (λ xb, xb.2 = true) (zip a mask)).*1.

(** [kf.split(X)] for [len(X) = n_samples]: the pairs of train and test
    indices. *)
Definition kfold_split (w : world) (kf : KFold) (n_samples : nat)
    : result (list (list nat * list nat)) :=
  if decide (n_samples < n_splits kf) then
    Raise (ValueError
             "Cannot have number of splits greater than the number of samples")
  else
    let indices := seq 0 n_samples in
    Ok ((λ test_mask,
           (bool_index indices (negb <$> test_mask),
            bool_index indices test_mask))
          <$> iter_test_masks w kf n_samples).

(** *** Fold assignment: steps 2 and 3 of [main] *)

(** [recs[test_idx]]: indexing an array with an array of indices. *)
Definition take_items (recs : list string) (idx : list nat)
    : result (list string) :=
  comprehension
    (λ j, match recs !! j with
          | Some r => Ok r
          | None => Raise (IndexError "index out of bounds")
          end) idx.

(** Lines 82-86. *)
Definition main_fold_map (w : world) (recs : list string)
    : result (gmap string nat) :=
  let kf := MkKFold N_FOLDS true (Some SEED) in
  splits ← kfold_split w kf (length recs);
  for_each
    (λ '(i, (_, test_idx)) fold_map,
       rs ← take_items recs test_idx;
       for_each (λ r fold_map, Ok (<[r := i]> fold_map)) rs fold_map)
    (enumerate splits) (∅ : gmap string nat).

(** [{i: [] for i in range(N_FOLDS)}]. *)
Definition empty_folds : gmap nat (list string) :=
  list_to_map ((λ i, (i, [])) <$> seq 0 N_FOLDS).

(** Lines 89 and 91-93. *)
Definition main_fold_records (fold_map : gmap string nat)
    (recs : list string) : result (gmap nat (list string)) :=
  for_each
    (λ r fold_records,
       fi ← getitem fold_map r r;
       l ← getitem fold_records fi (pretty fi);
       Ok (<[fi := l ++ [r]]> fold_records))
    recs empty_folds.

(** Lines 90 and 94-95. *)
Definition main_combined_records (fold_map : gmap string nat)
    (recs : list string) : result (gmap nat (list string)) :=
  for_each
    (λ i combined_records,
       l ← comprehension_if
             (λ r, fi ← getitem fold_map r r;
                   Ok (negb (bool_decide (fi = i)))) recs;
       Ok (<[i := l]> combined_records))
    (seq 0 N_FOLDS) empty_folds.

(** *** The output file system *)

Inductive content : Type :=
  | NpyArray (a : ndarray float32)   (** [np.save] of an array *)
  | NpyInt (n : nat)                 (** [np.save] of an integer *)
  | Blob (bytes : string).           (** any other file *)

Record filesystem : Type := FileSystem {
  dirs : gset path;
  files : gmap path content;
}.

Definition parent (p : path) : path := take (length p - 1) p.

Definition isdir (fs : filesystem) (p : path) : bool :=
  bool_decide (p ∈ dirs fs).
Definition isfile (fs : filesystem) (p : path) : bool :=
  bool_decide (is_Some (files fs !! p)).
(** [os.path.exists]; the empty path stands for the current directory. *)
Definition fs_exists (fs : filesystem) (p : path) : bool :=
  bool_decide (p = []) || isdir fs p || isfile fs p.

(** Every directory and file lies in a directory, and the current directory
    is not a file. *)
Definition fs_wf (fs : filesystem) : Prop :=
  set_Forall (λ p, isdir fs (parent p) = true ∨ parent p = []) (dirs fs)
  ∧ map_Forall (λ p _, isdir fs (parent p) = true ∨ parent p = [])
      (files fs)
  ∧ files fs !! [] = None.

(** [shutil.rmtree(root)]. *)
Definition rmtree (root : path) (fs : filesystem) : result filesystem :=
  if isdir fs root then
    Ok (FileSystem
          (filter (λ p, ¬ root `prefix_of` p) (dirs fs))
          (filter (λ pc, ¬ root `prefix_of` pc.1) (files fs)))
  else if isfile fs root then
    Raise (NotADirectoryError (path_str os_sep root))
  else
    Raise (FileNotFoundError (path_str os_sep root)).

(** [os.mkdir(name)]. *)
Definition mkdir (name : path) (fs : filesystem) : result filesystem :=
  if fs_exists fs name then
    Raise (FileExistsError (path_str os_sep name))
  else if isfile fs (parent name) then
    Raise (NotADirectoryError (path_str os_sep name))
  else if fs_exists fs (parent name) then
    Ok (FileSystem ({[name]} ∪ dirs fs) (files fs))
  else
    Raise (FileNotFoundError (path_str os_sep name)).

(** [os.makedirs(name, exist_ok=exist_ok)], by recursion on the reversed
    path: [tail] is the last component and [rhead] the reversed parent. *)
Fixpoint makedirs_rev (exist_ok : bool) (rname : list string)
    (fs : filesystem) : result filesystem :=
  match rname with
  | [] => Raise (FileNotFoundError "")
  | tail :: rhead =>
      let name := reverse rname in
      let head := reverse rhead in
      fs ← (if bool_decide (head ≠ []) && negb (fs_exists fs head) then
              match makedirs_rev exist_ok rhead fs with
              | Raise (FileExistsError _) => Ok fs
              | r => r
              end
            else Ok fs);
      match mkdir name fs with
      | Ok fs' => Ok fs'
      | Raise e =>
          if negb exist_ok || negb (isdir fs name) then Raise e else Ok fs
      end
  end.

Definition makedirs (name : path) (exist_ok : bool) (fs : filesystem)
    : result filesystem :=
  makedirs_rev exist_ok (reverse name) fs.

(** [np.save(file, value)] for a file name that ends in [.npy]. *)
Definition np_save (file : path) (value : content) (fs : filesystem)
    : result filesystem :=
  if isdir fs file then
    Raise (IsADirectoryError (path_str os_sep file))
  else if isdir fs (parent file) || bool_decide (parent file = []) then
    Ok (FileSystem (dirs fs) (<[file := value]> (files fs)))
  else
    Raise (FileNotFoundError (path_str os_sep file)).

(** The paths inside the output tree, and the file systems without one. *)
Definition under_folds (p : path) : Prop := [FOLDS_DIR] `prefix_of` p.

Definition no_tree (fs : filesystem) : Prop :=
  ∀ p, under_folds p → (p ∉ dirs fs) ∧ (files fs !! p = None).

(** The file system with more directories. *)
Definition add_dirs (ps : list path) (fs : filesystem) : filesystem :=
  FileSystem (dirs fs ∪ list_to_set ps) (files fs).

(** Step 0 of [main], lines 72-73. *)
Definition main_reset (fs : filesystem) : result filesystem :=
  if fs_exists fs [FOLDS_DIR] then rmtree [FOLDS_DIR] fs else Ok fs.

(** *** Directory builder *)

(** [f"fold{i}"]. *)
Definition single_name (i : nat) : string := "fold" +:+ pretty i.

(** ["fold" + "".join(str(j) for j in range(N_FOLDS) if j != i)]. *)
Definition combined_name (i : nat) : string :=
  "fold" +:+ String.concat "" (pretty <$> filter (λ j, j ≠ i) (seq 0 N_FOLDS)).

Definition make_dirs (fs : filesystem) : result filesystem :=
  let singles := single_name <$> seq 0 N_FOLDS in
  let combined := combined_name <$> seq 0 N_FOLDS in
  fs ← for_each
         (λ fd, for_each
                  (λ sub, makedirs (os_path_join [FOLDS_DIR; fd; sub]) true)
                  ["data"; "label"])
         (singles ++ combined) fs;
  for_each
    (λ fd, for_each
             (λ cls, for_each
                       (λ sub, makedirs
                                 (os_path_join [FOLDS_DIR; fd; cls; sub])
                                 true)
                       ["data"; "label"])
             ["AF"; "normal"; "other"])
    singles fs.

(** The directories that [make_dirs] asks for, in the order of its calls. *)
Definition make_dirs_paths : list path :=
  let singles := single_name <$> seq 0 N_FOLDS in
  let combined := combined_name <$> seq 0 N_FOLDS in
  ((singles ++ combined) ≫= λ fd,
     ["data"; "label"] ≫= λ sub, [[FOLDS_DIR; fd; sub]])
  ++ (singles ≫= λ fd,
        ["AF"; "normal"; "other"] ≫= λ cls,
          ["data"; "label"] ≫= λ sub, [[FOLDS_DIR; fd; cls; sub]]).

(** *** Writer and [main] *)

(** [{0:"normal",1:"AF",2:"other"}]. *)
Definition class_names : gmap nat string :=
  <[2 := "other"]> (<[1 := "AF"]> (<[0 := "normal"]> ∅)).

(** The processing pipeline of lines 106 and 122. *)
Definition process (raw : ndarray float32) : ndarray float32 :=
  normalization_processing (signal_processing raw).

(** The body of the loop over a test fold, lines 105-116. *)
Definition save_test_record (w : world) (ref : list ref_row) (sf : string)
    (item : nat * string) (fs : filesystem) : result filesystem :=
  let '(idx, rec) := item in
  raw ← load_ecg w rec;
  let proc := process raw in
  lbl ← lookup_label ref rec;
  let out := pretty idx +:+ ".npy" in
  fs ← np_save (os_path_join [FOLDS_DIR; sf; "data"; out]) (NpyArray proc) fs;
  fs ← np_save (os_path_join [FOLDS_DIR; sf; "label"; out]) (NpyInt lbl) fs;
  cls ← getitem class_names lbl (pretty lbl);
  fs ← np_save (os_path_join [FOLDS_DIR; sf; cls; "data"; out])
         (NpyArray proc) fs;
  np_save (os_path_join [FOLDS_DIR; sf; cls; "label"; out]) (NpyInt lbl) fs.

(** The body of the loop over a combined fold, lines 121-127. *)
Definition save_train_record (w : world) (ref : list ref_row) (cf : string)
    (item : nat * string) (fs : filesystem) : result filesystem :=
  let '(idx, rec) := item in
  raw ← load_ecg w rec;
  let proc := process raw in
  lbl ← lookup_label ref rec;
  let out := pretty idx +:+ ".npy" in
  fs ← np_save (os_path_join [FOLDS_DIR; cf; "data"; out]) (NpyArray proc) fs;
  np_save (os_path_join [FOLDS_DIR; cf; "label"; out]) (NpyInt lbl) fs.

(** The body of the loop over the folds, lines 102-127. *)
Definition save_fold (w : world) (ref : list ref_row)
    (fold_records combined_records : gmap nat (list string))
    (i : nat) (fs : filesystem) : result filesystem :=
  let sf := single_name i in
  test_recs ← getitem fold_records i (pretty i);
  fs ← for_each (save_test_record w ref sf) (enumerate test_recs) fs;
  let cf := combined_name i in
  train_recs ← getitem combined_records i (pretty i);
  for_each (save_train_record w ref cf) (enumerate train_recs) fs.

(** The record [rec] is stored under index [idx] of the test directory [sf]:
    its processed waveform and its label, and the same two values under the
    directory of its class. *)
Definition stored_test (w : world) (ref : list ref_row) (fs : filesystem)
    (sf : string) (idx : nat) (rec : string) : Prop :=
  ∃ raw lbl cls,
    load_ecg w rec = Ok raw ∧ lookup_label ref rec = Ok lbl
    ∧ class_names !! lbl = Some cls
    ∧ files fs !! [FOLDS_DIR; sf; "data"; pretty idx +:+ ".npy"]
      = Some (NpyArray (process raw))
    ∧ files fs !! [FOLDS_DIR; sf; "label"; pretty idx +:+ ".npy"]
      = Some (NpyInt lbl)
    ∧ files fs !! [FOLDS_DIR; sf; cls; "data"; pretty idx +:+ ".npy"]
      = Some (NpyArray (process raw))
    ∧ files fs !! [FOLDS_DIR; sf; cls; "label"; pretty idx +:+ ".npy"]
      = Some (NpyInt lbl).

(** The record [rec] is stored under index [idx] of the train directory
    [cf]. *)
Definition stored_train (w : world) (ref : list ref_row) (fs : filesystem)
    (cf : string) (idx : nat) (rec : string) : Prop :=
  ∃ raw lbl,
    load_ecg w rec = Ok raw ∧ lookup_label ref rec = Ok lbl
    ∧ files fs !! [FOLDS_DIR; cf; "data"; pretty idx +:+ ".npy"]
      = Some (NpyArray (process raw))
    ∧ files fs !! [FOLDS_DIR; cf; "label"; pretty idx +:+ ".npy"]
      = Some (NpyInt lbl).

(** A value that the writer saves for some record of the table. *)
Definition saved_by (w : world) (ref : list ref_row) (c : content) : Prop :=
  ∃ rec raw lbl,
    load_ecg w rec = Ok raw ∧ lookup_label ref rec = Ok lbl
    ∧ (c = NpyArray (process raw) ∨ c = NpyInt lbl).

(** What [main] computes before it writes: the filtered table, the records
    and the fold assignment. *)
Record plan : Type := Plan {
  plan_ref : list ref_row;
  plan_recs : list string;
  plan_fold_map : gmap string nat;
  plan_fold_records : gmap nat (list string);
  plan_combined_records : gmap nat (list string);
}.

(** Steps 1 to 3 of [main], lines 76-95. *)
Definition main_plan (w : world) : result plan :=
  ref ← load_reference w;
  let recs := record <$> ref in
  fold_map ← main_fold_map w recs;
  fold_records ← main_fold_records fold_map recs;
  combined_records ← main_combined_records fold_map recs;
  Ok (Plan ref recs fold_map fold_records combined_records).

(** [main]: the file system it leaves when it returns. *)
Definition main (w : world) (fs : filesystem) : result filesystem :=
  fs ← main_reset fs;
  p ← main_plan w;
  fs ← make_dirs fs;
  for_each
    (save_fold w (plan_ref p) (plan_fold_records p) (plan_combined_records p))
    (seq 0 N_FOLDS) fs.

End PrepareData.

(** * The output tree, as the specification words it *)

(** The path itself and the directories above it, from the top. *)
Fixpoint path_prefixes (p : path) : list path :=
  match p with
  | [] => []
  | c :: p' => [c] :: ((λ q, c :: q) <$> path_prefixes p')
  end.

(** The test directories [fold{i}] and the train directories named by the
    other three indices. *)
Definition spec_singles : list string := ["fold0"; "fold1"; "fold2"; "fold3"].
Definition spec_combined : list string :=
  ["fold123"; "fold023"; "fold013"; "fold012"].

(** The [data] and [label] directories of every fold, and of the three
    classes of every test fold. *)
Definition spec_dirs : list path :=
  ((spec_singles ++ spec_combined) ≫= λ fd,
     ["data"; "label"] ≫= λ sub, [["folds"; fd; sub]])
  ++ (spec_singles ≫= λ fd,
        ["AF"; "normal"; "other"] ≫= λ cls,
          ["data"; "label"] ≫= λ sub, [["folds"; fd; cls; sub]]).

(** All directories of the tree: the root, the fold directories, the class
    directories and [spec_dirs]. *)
Definition spec_tree : list path :=
  [["folds"]]
  ++ ((spec_singles ++ spec_combined) ≫= λ fd, [["folds"; fd]])
  ++ (spec_singles ≫= λ fd,
        ["AF"; "normal"; "other"] ≫= λ cls, [["folds"; fd; cls]])
  ++ spec_dirs.

(** * Concrete inputs

    Small instances on which the definitions above are run. *)

Module Example.

(** Samples are integers; the two transforms are chosen so that their order
    shows; [shuffle] reverses in an even state and changes nothing in an odd
    one. *)
Definition ext : Externals := {|
  sample := Z;
  float32 := Z;
  to_float32 := λ x, x;
  signal_processing := astype (Z.mul 2);
  normalization_processing := astype (Z.add 1);
  rng_state := Z;
  RandomState := λ seed, seed;
  rng_shuffle := λ g l, if Z.even g then reverse l else l;
  os_sep := "/";
|}.

Definition mat_of (name : string) (a : ndarray Z) : gmap string (ndarray Z) :=
  <[name := a]> ∅.

(** A world around one record ["A1"]: whether its MATLAB file and its WFDB
    data file exist, and what the two readers return. *)
Definition one_record (mat dat : bool)
    (m : gmap string (ndarray Z)) (s : signal2d Z) : world (H := ext) :=
  World (H := ext)
    (λ p, (mat && bool_decide (p = [MAT_DIR; "A1.mat"]))
          || (dat && bool_decide (p = [HEA_DIR; "A1.dat"])))
    (λ _, Ok m) (λ _, Ok s) (λ _, Ok []) 0%Z.

Definition row_vector : ndarray Z := NdArray [1; 3] [5; 6; 7]%Z.
Definition two_rows : ndarray Z := NdArray [2; 3] [1; 2; 3; 4; 5; 6]%Z.
Definition two_channels : signal2d Z := Signal2d 3 2 [1; 10; 2; 20; 3; 30]%Z.

(** A table of five rows, one of them with a label outside [LABEL_MAP]; the
    records [A1], [A2] and [A4] have a MATLAB file, [A5] a WFDB pair. *)
Definition rows : list (string * string) :=
  [("A1", "N"); ("A2", "A"); ("A3", "~"); ("A4", "O"); ("A5", "N")].

Definition study : world (H := ext) :=
  World (H := ext)
    (λ p, bool_decide (p ∈ [[MAT_DIR; "A1.mat"]; [MAT_DIR; "A2.mat"];
                            [MAT_DIR; "A4.mat"]; [HEA_DIR; "A5.dat"]]))
    (λ _, Ok (mat_of "val" row_vector))
    (λ _, Ok two_channels)
    (λ _, Ok rows) 0%Z.

(** The same table with the row of [A2] repeated. *)
Definition study_repeated : world (H := ext) :=
  World (H := ext) (path_exists study) (loadmat study) (rdsamp study)
    (λ _, Ok (rows ++ [("A2", "A")])) 0%Z.

(** The same table on another machine: no signal file, another state of the
    global generator. *)
Definition study_elsewhere : world (H := ext) :=
  World (H := ext) (λ _, false)
    (λ _, Raise (LibraryError "loadmat")) (λ _, Raise (LibraryError "rdsamp"))
    (λ _, Ok rows) 7%Z.

(** An output tree left by an earlier run. *)
Definition stale : filesystem (H := ext) :=
  FileSystem (H := ext)
    {[ ["folds"]; ["folds"; "old"] ]}
    {[ ["folds"; "old"; "0.npy"] := Blob "stale" ]}.

(** The tree that a run on [study] leaves in place of [stale]. *)
Definition rebuilt : filesystem (H := ext) := value_or stale (main study stale).

End Example.

Section Trees.

Context `{!Externals}.

(** Two file systems hold the same output tree: the same directories and
    the same files at the paths inside [folds]. *)
Definition same_tree (fs1 fs2 : filesystem) : Prop :=
  ∀ q, under_folds q →
       (q ∈ dirs fs1 ↔ q ∈ dirs fs2) ∧ files fs1 !! q = files fs2 !! q.

(** The files that lines 108-116 write for the record at position [idx] of
    a test fold, [cls] being the directory of its class, and those that
    lines 126-127 write for the record at position [idx] of a combined
    fold. *)
Definition test_files (sf cls : string) (idx : nat) : list path :=
  let out := pretty idx +:+ ".npy" in
  [[FOLDS_DIR; sf; "data"; out]; [FOLDS_DIR; sf; "label"; out];
   [FOLDS_DIR; sf; cls; "data"; out]; [FOLDS_DIR; sf; cls; "label"; out]].

Definition train_files (cf : string) (idx : nat) : list path :=
  let out := pretty idx +:+ ".npy" in
  [[FOLDS_DIR; cf; "data"; out]; [FOLDS_DIR; cf; "label"; out]].

(** The path [q] is a file of a record of one of the two lists of fold
    [i]. *)
Definition listed (ref : list ref_row)
    (fold_records combined_records : gmap nat (list string)) (i : nat)
    (q : path) : Prop :=
  ∃ idx rec,
    (∃ test lbl cls,
       fold_records !! i = Some test ∧ test !! idx = Some rec
       ∧ lookup_label ref rec = Ok lbl ∧ class_names !! lbl = Some cls
       ∧ q ∈ test_files (single_name i) cls idx)
    ∨ (∃ train,
         combined_records !! i = Some train ∧ train !! idx = Some rec
         ∧ q ∈ train_files (combined_name i) idx).

End Trees.

(** Further inputs: a table with too few usable rows, file systems with
    something in the way of the tree or with a part of it, and what a run
    computes and leaves on them. *)

Module Cases.


(** A regular file where the tree should be. *)
Definition blocked : filesystem (H := Example.ext) :=
  FileSystem (H := Example.ext) ∅ {[ ["folds"] := Blob "not a directory" ]}.

(** A part of the tree, with a file of the user inside. *)
Definition partial : filesystem (H := Example.ext) :=
  FileSystem (H := Example.ext)
    {[ ["folds"]; ["folds"; "fold0"] ]}
    {[ ["folds"; "fold0"; "notes.txt"] := Blob "keep" ]}.

(** No tree, and files of the user elsewhere. *)
Definition home : filesystem (H := Example.ext) :=
  FileSystem (H := Example.ext)
    {[ ["home"] ]} {[ ["home"; "notes.txt"] := Blob "keep" ]}.

Definition no_plan : plan := Plan [] [] ∅ ∅ ∅.

(** The plan of a run on [Example.study]. *)
Definition study_plan : plan := value_or no_plan (main_plan Example.study).

(** The tree that a run on [Example.study] leaves on [home]. *)
Definition rebuilt_home : filesystem (H := Example.ext) :=
  value_or home (main Example.study home).

(** A table of six usable rows, which four folds cannot share out
    evenly. *)
Definition wide : world (H := Example.ext) :=
  World (H := Example.ext) (path_exists Example.study)
    (loadmat Example.study) (rdsamp Example.study)
    (λ _, Ok [("B1", "N"); ("B2", "A"); ("B3", "O"); ("B4", "N");
              ("B5", "~"); ("B6", "A"); ("B7", "N")]) 0%Z.

Definition wide_plan : plan := value_or no_plan (main_plan wide).

End Cases.

(** * Properties *)

Section Results.

Lemma is_ok_value {A} (d : A) (m : result A) :
  is_ok m = true → m = Ok (value_or d m).
Proof. by destruct m. Qed.

End Results.

Section Strings.

Lemma string_app_nil (b : string) : "" +:+ b = b.
Proof. reflexivity. Qed.

Lemma string_app_cons (x : Ascii.ascii) (a b : string) :
  String x a +:+ b = String x (a +:+ b).
Proof. reflexivity. Qed.

Lemma string_app_assoc (a b c : string) : (a +:+ b) +:+ c = a +:+ (b +:+ c).
Proof.
  induction a as [|x a IH]; [done|].
  rewrite !string_app_cons. by f_equal.
Qed.

Lemma string_app_length (a b : string) :
  String.length (a +:+ b) = String.length a + String.length b.
Proof.
  induction a as [|x a IH]; [done|].
  rewrite string_app_cons. simpl. by f_equal.
Qed.

(** Appending the same suffix is injective. *)
Lemma string_app_inj_r (a b c : string) : a +:+ c = b +:+ c → a = b.
Proof.
  revert b. induction a as [|x a IH]; intros [|y b] Heq.
  - done.
  - apply (f_equal String.length) in Heq.
    rewrite string_app_nil, string_app_length in Heq. simpl in Heq. lia.
  - apply (f_equal String.length) in Heq.
    rewrite string_app_nil, string_app_length in Heq. simpl in Heq. lia.
  - rewrite !string_app_cons in Heq. injection Heq as -> Heq.
    f_equal. by apply IH.
Qed.

(** [f"{idx}.npy"] names different files for different indices. *)
Lemma npy_name_inj (i j : nat) :
  pretty i +:+ ".npy" = pretty j +:+ ".npy" → i = j.
Proof. intros Heq. apply string_app_inj_r in Heq. by apply (inj pretty). Qed.

End Strings.

Section Loader.

Context `{!Externals}.

Lemma column0_lookup {A} (n c : nat) (d : list A) (j : nat) :
  j < n → column0 n c d !! j = d !! (j * c).
Proof.
  revert d j. induction n as [|n IH]; intros d j Hj; [lia|].
  destruct d as [|x d]; simpl.
  - by rewrite !lookup_nil.
  - destruct j as [|j]; [done|]. simpl.
    rewrite IH by lia. rewrite lookup_drop. done.
Qed.

Lemma length_column0 {A} (n c : nat) (d : list A) :
  0 < c → length d = n * c → length (column0 n c d) = n.
Proof.
  intros Hc. revert d. induction n as [|n IH]; intros d Hd; [done|].
  destruct d as [|x d]; simpl in *; [lia|].
  f_equal. apply IH. rewrite length_drop. simpl. lia.
Qed.

(** C3. [load_ecg] resolves a record in strict order.  When the MATLAB file
    exists the variable [val] is taken, else [ecg], and with neither a
    [KeyError] naming the file is raised; when only the WFDB data file
    exists the first channel of the signal is taken; when neither file
    exists a [FileNotFoundError] is raised whose message ends with the
    record identifier. *)
Theorem load_ecg_resolution_order (w : world) (rec : string) :
  let mat_path := [MAT_DIR; rec +:+ ".mat"] in
  let wfdb_path := [HEA_DIR; rec] in
  let dat_path := [HEA_DIR; rec +:+ ".dat"] in
  (∀ m, path_exists w mat_path = true → loadmat w mat_path = Ok m →
     (∀ v, m !! "val" = Some v →
        load_ecg w rec = Ok (astype to_float32 (squeeze v)))
     ∧ (∀ e, m !! "val" = None → m !! "ecg" = Some e →
        load_ecg w rec = Ok (astype to_float32 (squeeze e)))
     ∧ (m !! "val" = None → m !! "ecg" = None →
        load_ecg w rec =
          Raise (KeyError ("No ECG variable found in "
                             +:+ path_str os_sep mat_path))))
  ∧ (∀ signal, path_exists w mat_path = false →
       path_exists w dat_path = true →
       rdsamp w wfdb_path = Ok signal → 0 < ncols signal →
       ∃ ecg, load_ecg w rec = Ok (astype to_float32 ecg)
              ∧ shape ecg = [nrows signal]
              ∧ ∀ j, j < nrows signal →
                  data ecg !! j = samples signal !! (j * ncols signal + 0))
  ∧ (path_exists w mat_path = false → path_exists w dat_path = false →
       ∃ msg, load_ecg w rec = Raise (FileNotFoundError (msg +:+ rec))).
Proof.
  intros mat_path wfdb_path dat_path.
  unfold load_ecg, os_path_join. cbn [path_add].
  subst mat_path wfdb_path dat_path.
  split; [|split].
  - intros m Hex Hm. rewrite Hex, Hm. cbn [mbind result_bind]. repeat split.
    + intros v Hv. rewrite Hv. reflexivity.
    + intros e Hv He. rewrite Hv, He. reflexivity.
    + intros Hv He. rewrite Hv, He. reflexivity.
  - intros signal Hm Hd Hs Hc. rewrite Hm, Hd, Hs.
    cbn [mbind result_bind]. unfold first_channel.
    destruct (decide (ncols signal = 0)) as [?|_]; [lia|].
    eexists. split; [reflexivity|]. split; [reflexivity|].
    intros j Hj. cbn [data]. rewrite Nat.add_0_r. by apply column0_lookup.
  - intros Hm Hd. rewrite Hm, Hd. cbn [mbind result_bind].
    eexists. rewrite <- !string_app_assoc. reflexivity.
Qed.

End Loader.

Lemma load_ecg_resolution_order_witness :
  load_ecg (H := Example.ext)
    (Example.one_record true true
       (Example.mat_of "val" Example.row_vector) Example.two_channels) "A1"
  = Ok (NdArray [3] [5; 6; 7]%Z)
  ∧ load_ecg (H := Example.ext)
      (Example.one_record true true
         (Example.mat_of "ecg" Example.row_vector) Example.two_channels) "A1"
    = Ok (NdArray [3] [5; 6; 7]%Z)
  ∧ (∃ msg, load_ecg (H := Example.ext)
              (Example.one_record true true ∅ Example.two_channels) "A1"
            = Raise (KeyError msg))
  ∧ (∃ ecg, load_ecg (H := Example.ext)
              (Example.one_record false true ∅ Example.two_channels) "A1"
            = Ok (astype (to_float32 (Externals := Example.ext)) ecg)
            ∧ shape ecg = [3]
            ∧ ∀ j, j < 3 →
                data ecg !! j = [1; 10; 2; 20; 3; 30]%Z !! (j * 2 + 0))
  ∧ (∃ msg, load_ecg (H := Example.ext)
              (Example.one_record false false ∅ Example.two_channels) "A1"
            = Raise (FileNotFoundError (msg +:+ "A1"))).
Proof.
  split; [|split; [|split; [|split]]].
  - destruct (load_ecg_resolution_order (H := Example.ext)
                (Example.one_record true true
                   (Example.mat_of "val" Example.row_vector)
                   Example.two_channels) "A1") as (Hmat & _ & _).
    destruct (Hmat _ eq_refl eq_refl) as (Hval & _ & _).
    exact (Hval _ eq_refl).
  - destruct (load_ecg_resolution_order (H := Example.ext)
                (Example.one_record true true
                   (Example.mat_of "ecg" Example.row_vector)
                   Example.two_channels) "A1") as (Hmat & _ & _).
    destruct (Hmat _ eq_refl eq_refl) as (_ & Hecg & _).
    exact (Hecg _ eq_refl eq_refl).
  - destruct (load_ecg_resolution_order (H := Example.ext)
                (Example.one_record true true ∅ Example.two_channels) "A1")
      as (Hmat & _ & _).
    destruct (Hmat _ eq_refl eq_refl) as (_ & _ & Hnone).
    eexists. exact (Hnone eq_refl eq_refl).
  - destruct (load_ecg_resolution_order (H := Example.ext)
                (Example.one_record false true ∅ Example.two_channels) "A1")
      as (_ & Hwfdb & _).
    exact (Hwfdb _ eq_refl eq_refl eq_refl (le_S _ _ (le_n _))).
  - destruct (load_ecg_resolution_order (H := Example.ext)
                (Example.one_record false false ∅ Example.two_channels) "A1")
      as (_ & _ & Hnone).
    exact (Hnone eq_refl eq_refl).
Defined.

Section LoaderShape.

Context `{!Externals}.

(** The array [load_ecg] returns for a MATLAB variable has one axis per axis
    of the variable whose length is not one. *)
Lemma load_ecg_val_ndim (w : world) (rec : string) m v :
  path_exists w [MAT_DIR; rec +:+ ".mat"] = true →
  loadmat w [MAT_DIR; rec +:+ ".mat"] = Ok m →
  m !! "val" = Some v →
  ∃ a, load_ecg w rec = Ok a
       ∧ ndim a = length (filter (λ d, d ≠ 1) (shape v)).
Proof.
  intros Hex Hm Hv. unfold load_ecg, os_path_join.
  rewrite Hex, Hm. cbn [mbind result_bind]. rewrite Hv.
  eexists. split; [reflexivity|]. reflexivity.
Qed.

(** On the WFDB path the array is one-dimensional. *)
Lemma load_ecg_wfdb_ndim (w : world) (rec : string) a :
  path_exists w [MAT_DIR; rec +:+ ".mat"] = false →
  load_ecg w rec = Ok a → ndim a = 1.
Proof.
  unfold load_ecg, os_path_join. intros ->.
  destruct (path_exists w _); [|discriminate].
  destruct (rdsamp w _) as [signal|]; [|discriminate].
  cbn [mbind result_bind]. unfold first_channel.
  destruct (decide _); [discriminate|].
  cbn [mbind result_bind]. intros [= <-]. reflexivity.
Qed.

End LoaderShape.

(** C4. The docstring of [load_ecg] promises a one-dimensional array.  A
    MATLAB variable [val] with two rows of three samples has no axis of
    length one, [squeeze] removes nothing, and the array that [load_ecg]
    returns is two-dimensional. *)
Theorem load_ecg_val_two_rows_not_1d :
  ∃ a, load_ecg (H := Example.ext)
         (Example.one_record true false
            (Example.mat_of "val" Example.two_rows) Example.two_channels) "A1"
       = Ok a
       ∧ shape a = [2; 3] ∧ ndim a ≠ 1.
Proof. eexists. split; [reflexivity|]. split; [reflexivity|]. cbv. lia. Qed.

Section Reference.

Context `{!Externals}.

Lemma label_map_lookup (l : string) :
  LABEL_MAP !! l =
    if decide (l = "O") then Some 2
    else if decide (l = "A") then Some 1
    else if decide (l = "N") then Some 0
    else None.
Proof.
  unfold LABEL_MAP.
  destruct (decide (l = "O")) as [->|HO]; [by rewrite lookup_insert_eq|].
  rewrite lookup_insert_ne by done.
  destruct (decide (l = "A")) as [->|HA]; [by rewrite lookup_insert_eq|].
  rewrite lookup_insert_ne by done.
  destruct (decide (l = "N")) as [->|HN]; [by rewrite lookup_insert_eq|].
  rewrite lookup_insert_ne by done. apply lookup_empty.
Qed.

Lemma isin_label_map (l : string) :
  isin LABEL_MAP l = true ↔ l ∈ ["N"; "A"; "O"].
Proof.
  unfold isin. rewrite bool_decide_eq_true, label_map_lookup.
  rewrite !elem_of_cons, elem_of_nil.
  destruct (decide (l = "O")) as [->|?]; [split; eauto 6|].
  destruct (decide (l = "A")) as [->|?]; [split; eauto 6|].
  destruct (decide (l = "N")) as [->|?]; [split; eauto 6|].
  rewrite is_Some_alt. intuition congruence.
Qed.

Lemma class_names_lookup (n : nat) :
  class_names !! n =
    match n with
    | 0 => Some "normal"
    | 1 => Some "AF"
    | 2 => Some "other"
    | _ => None
    end.
Proof.
  unfold class_names.
  destruct n as [|[|[|n]]]; try reflexivity.
  rewrite !lookup_insert_ne by lia. apply lookup_empty.
Qed.

(** The rows of the table [load_reference] returns. *)
Lemma load_reference_rows (w : world) (ref : list ref_row) :
  load_reference w = Ok ref →
  ∃ rows, read_csv w REF_CSV = Ok rows
    ∧ ref = (λ row : string * string,
               RefRow row.1 row.2 (LABEL_MAP !! row.2))
              <$> filter (λ row : string * string,
                            isin LABEL_MAP row.2 = true) rows.
Proof.
  unfold load_reference. destruct (read_csv w REF_CSV) as [rows|]; [|done].
  cbn [mbind result_bind]. intros [= <-]. by exists rows.
Qed.

Lemma load_reference_row (w : world) (ref : list ref_row) (r : ref_row) :
  load_reference w = Ok ref → r ∈ ref →
  label r ∈ ["N"; "A"; "O"] ∧ int_label r = LABEL_MAP !! label r.
Proof.
  intros (rows & _ & ->)%load_reference_rows Hr.
  apply list_elem_of_fmap in Hr as (row & -> & Hrow).
  apply list_elem_of_filter in Hrow as [Hin _].
  split; [by apply isin_label_map | done].
Qed.

(** A series converts to an integer exactly when it has one element, and
    that element is a number. *)
Lemma series_int_ok (s : list (option nat)) (n : nat) :
  series_int s = Ok n ↔ s = [Some n].
Proof.
  split; [|by intros ->].
  destruct s as [|[m|] [|? ?]]; simpl; try discriminate. by intros [= ->].
Qed.

Lemma lookup_label_ok (ref : list ref_row) (rec : string) (lbl : nat) :
  lookup_label ref rec = Ok lbl ↔
  ∃ r, filter (λ row, record row = rec) ref = [r] ∧ int_label r = Some lbl.
Proof.
  unfold lookup_label. rewrite series_int_ok. split.
  - intros Heq. destruct (filter _ ref) as [|r [|? ?]]; try discriminate.
    injection Heq as Heq. by exists r.
  - intros (r & -> & Hr). simpl. by rewrite Hr.
Qed.

(** If every record of the table selects exactly one row, no record
    identifier is repeated. *)
Lemma unique_rows_NoDup (ref : list ref_row) :
  (∀ rec, rec ∈ record <$> ref →
     length (filter (λ row, record row = rec) ref) = 1) →
  NoDup (record <$> ref).
Proof.
  induction ref as [|a ref IH]; intros Huniq; [constructor|].
  rewrite fmap_cons. constructor.
  - intros Hin. specialize (Huniq (record a)).
    rewrite fmap_cons, filter_cons_True in Huniq by done.
    specialize (Huniq ltac:(left)). simpl in Huniq.
    apply list_elem_of_fmap in Hin as (b & Hb & Hin).
    assert (b ∈ filter (λ row, record row = record a) ref) as Hbf.
    { apply list_elem_of_filter. by split. }
    destruct (filter _ ref); [by apply elem_of_nil in Hbf | simpl in Huniq; lia].
  - apply IH. intros rec Hrec. specialize (Huniq rec).
    rewrite fmap_cons in Huniq. specialize (Huniq ltac:(by right)).
    destruct (decide (record a = rec)) as [Heq|Hne].
    + rewrite filter_cons_True in Huniq by done. simpl in Huniq.
      apply list_elem_of_fmap in Hrec as (b & Hb & Hin).
      assert (b ∈ filter (λ row, record row = rec) ref) as Hbf.
      { apply list_elem_of_filter. by split. }
      destruct (filter _ ref); [by apply elem_of_nil in Hbf | simpl in Huniq; lia].
    + by rewrite filter_cons_False in Huniq by done.
Qed.

(** C7. The reference table keeps exactly the rows whose label is one of N,
    A and O, in their order, drops every other row without raising, and
    gives the kept rows the integers 0, 1 and 2. *)
Theorem load_reference_filters_and_maps (w : world)
    (rows : list (string * string)) :
  read_csv w REF_CSV = Ok rows →
  ∃ ref, load_reference w = Ok ref
    ∧ (λ r, (record r, label r)) <$> ref
        = filter (λ row : string * string, row.2 ∈ ["N"; "A"; "O"]) rows
    ∧ ∀ r, r ∈ ref →
        (label r = "N" ∧ int_label r = Some 0)
        ∨ (label r = "A" ∧ int_label r = Some 1)
        ∨ (label r = "O" ∧ int_label r = Some 2).
Proof.
  intros Hcsv.
  assert (load_reference w
          = Ok ((λ row : string * string,
                   RefRow row.1 row.2 (LABEL_MAP !! row.2))
                  <$> filter (λ row : string * string,
                                isin LABEL_MAP row.2 = true) rows)) as Href.
  { unfold load_reference. by rewrite Hcsv. }
  eexists. split; [exact Href|]. split.
  - rewrite <- list_fmap_compose.
    rewrite (list_filter_iff _ (λ row : string * string,
                                  row.2 ∈ ["N"; "A"; "O"]))
      by (intros row; apply isin_label_map).
    rewrite <- (list_fmap_id (filter _ rows)) at 2.
    apply list_fmap_ext. by intros _ [rec l] _.
  - intros r Hr.
    destruct (load_reference_row w _ r Href Hr) as [Hl Hi].
    rewrite Hi. rewrite !elem_of_cons, elem_of_nil in Hl.
    destruct Hl as [Hl|[Hl|[Hl|[]]]]; rewrite Hl; auto.
Qed.

(** C9. The class directory of a record follows from its label in the table:
    N, stored as 0, selects [normal]; A, stored as 1, selects [AF]; O, stored
    as 2, selects [other]; the lookup in the dict of class names does not
    raise for any label that the table returns. *)
Theorem class_directory_total (w : world) (ref : list ref_row)
    (rec : string) (lbl : nat) :
  load_reference w = Ok ref → lookup_label ref rec = Ok lbl →
  ∃ r cls, r ∈ ref ∧ record r = rec ∧ int_label r = Some lbl
    ∧ getitem class_names lbl (pretty lbl) = Ok cls
    ∧ ((label r = "N" ∧ lbl = 0 ∧ cls = "normal")
       ∨ (label r = "A" ∧ lbl = 1 ∧ cls = "AF")
       ∨ (label r = "O" ∧ lbl = 2 ∧ cls = "other")).
Proof.
  intros Href (r & Hf & Hi)%lookup_label_ok.
  assert (r ∈ filter (λ row, record row = rec) ref) as Hr
    by (rewrite Hf; apply list_elem_of_here).
  apply list_elem_of_filter in Hr as [Hrec Hr].
  destruct (load_reference_row w ref r Href Hr) as [Hl Hi'].
  rewrite Hi in Hi'. unfold getitem. rewrite class_names_lookup.
  rewrite !elem_of_cons, elem_of_nil in Hl.
  destruct Hl as [Hl|[Hl|[Hl|[]]]]; rewrite Hl in Hi'; vm_compute in Hi';
    injection Hi' as ->; exists r; eexists;
    (split; [done|]); (split; [done|]); (split; [done|]);
    (split; [reflexivity|]); auto.
Qed.

End Reference.

Lemma load_reference_filters_and_maps_witness :
  ∃ ref, load_reference Example.study = Ok ref
    ∧ (λ r, (record r, label r)) <$> ref
        = filter (λ row : string * string, row.2 ∈ ["N"; "A"; "O"])
            Example.rows
    ∧ ∀ r, r ∈ ref →
        (label r = "N" ∧ int_label r = Some 0)
        ∨ (label r = "A" ∧ int_label r = Some 1)
        ∨ (label r = "O" ∧ int_label r = Some 2).
Proof.
  exact (load_reference_filters_and_maps Example.study Example.rows eq_refl).
Defined.

Lemma class_directory_total_witness :
  ∃ r cls, r ∈ [RefRow "A1" "N" (Some 0); RefRow "A2" "A" (Some 1);
                RefRow "A4" "O" (Some 2); RefRow "A5" "N" (Some 0)]
    ∧ record r = "A4" ∧ int_label r = Some 2
    ∧ getitem class_names 2 (pretty 2) = Ok cls
    ∧ ((label r = "N" ∧ 2 = 0 ∧ cls = "normal")
       ∨ (label r = "A" ∧ 2 = 1 ∧ cls = "AF")
       ∨ (label r = "O" ∧ 2 = 2 ∧ cls = "other")).
Proof.
  exact (class_directory_total Example.study _ "A4" 2 eq_refl eq_refl).
Defined.


Section Loops.

Context {A S : Type}.

(** A property that every iteration preserves holds when the loop returns. *)
Lemma for_each_invariant (P : S → Prop) (body : A → S → result S)
    (l : list A) (s s' : S) :
  (∀ x s1 s2, x ∈ l → P s1 → body x s1 = Ok s2 → P s2) →
  P s → for_each body l s = Ok s' → P s'.
Proof.
  revert s. induction l as [|x l IH]; intros s Hbody Hs Hrun; simpl in Hrun.
  - by injection Hrun as <-.
  - destruct (body x s) as [s1|] eqn:Hx; [|done].
    cbn [mbind result_bind] in Hrun.
    apply (IH s1); [|by eapply Hbody; [left|..]|done].
    intros y s2 s3 Hy. apply Hbody. by right.
Qed.

(** A loop whose iterations return under an invariant returns. *)
Lemma for_each_total (P : S → Prop) (body : A → S → result S)
    (l : list A) (s : S) :
  (∀ x s1, x ∈ l → P s1 → ∃ s2, body x s1 = Ok s2 ∧ P s2) →
  P s → ∃ s', for_each body l s = Ok s' ∧ P s'.
Proof.
  revert s. induction l as [|x l IH]; intros s Hbody Hs; simpl.
  - by exists s.
  - destruct (Hbody x s) as (s1 & -> & Hs1); [by left|done|].
    cbn [mbind result_bind]. apply IH; [|done].
    intros y s2 Hy. apply Hbody. by right.
Qed.

(** When the loop returns, every iteration has returned, from a state that
    satisfies the invariant. *)
Lemma for_each_ok_elem (P : S → Prop) (body : A → S → result S)
    (l : list A) (s s' : S) (x : A) :
  (∀ y s1 s2, y ∈ l → P s1 → body y s1 = Ok s2 → P s2) →
  P s → for_each body l s = Ok s' → x ∈ l →
  ∃ s1 s2, P s1 ∧ body x s1 = Ok s2.
Proof.
  revert s. induction l as [|y l IH]; intros s Hbody Hs Hrun Hx;
    simpl in Hrun.
  - by apply elem_of_nil in Hx.
  - destruct (body y s) as [s1|] eqn:Hy; [|done].
    cbn [mbind result_bind] in Hrun.
    apply elem_of_cons in Hx as [->|Hx]; [by exists s, s1|].
    apply (IH s1); [|by eapply Hbody; [left|..]|done..].
    intros z s2 s3 Hz. apply Hbody. by right.
Qed.

Lemma for_each_app (body : A → S → result S) (l1 l2 : list A) (s : S) :
  for_each body (l1 ++ l2) s = s1 ← for_each body l1 s; for_each body l2 s1.
Proof.
  revert s. induction l1 as [|x l1 IH]; intros s; simpl; [done|].
  destruct (body x s) as [s1|]; cbn [mbind result_bind]; [apply IH|done].
Qed.

End Loops.

Section Comprehensions.

Context {A B : Type}.

Lemma comprehension_ok (f : A → result B) (l : list A) (ys : list B) :
  comprehension f l = Ok ys ↔ Forall2 (λ x y, f x = Ok y) l ys.
Proof.
  revert ys. induction l as [|x l IH]; intros ys; simpl.
  - split; [intros [= <-]; constructor | by intros ->%Forall2_nil_inv_l].
  - split.
    + destruct (f x) as [y|] eqn:Hx; [|done]. cbn [mbind result_bind].
      destruct (comprehension f l) as [ys'|]; [|done].
      cbn [mbind result_bind]. intros [= <-]. constructor; [done|].
      by apply IH.
    + intros (y & ys' & Hy & Hys & ->)%Forall2_cons_inv_l.
      rewrite Hy. cbn [mbind result_bind].
      apply IH in Hys. rewrite Hys. done.
Qed.

Lemma comprehension_if_ok (cond : A → result bool) (l : list A)
    (ys : list A) :
  comprehension_if cond l = Ok ys →
  (∀ x, x ∈ l → ∃ b, cond x = Ok b)
  ∧ ys = filter (λ x, cond x = Ok true) l.
Proof.
  revert ys. induction l as [|x l IH]; intros ys; simpl.
  - intros [= <-]. split; [by intros x ?%elem_of_nil | done].
  - destruct (cond x) as [b|] eqn:Hx; [|done]. cbn [mbind result_bind].
    destruct (comprehension_if cond l) as [ys'|]; [|done].
    cbn [mbind result_bind]. intros [= <-].
    destruct (IH ys' eq_refl) as [Hall ->]. split.
    + intros y [->|Hy]%elem_of_cons; [by exists b | by apply Hall].
    + destruct b.
      * by rewrite filter_cons_True.
      * by rewrite filter_cons_False by (rewrite Hx; discriminate).
Qed.

Lemma comprehension_if_total (cond : A → result bool) (l : list A) :
  (∀ x, x ∈ l → ∃ b, cond x = Ok b) →
  ∃ ys, comprehension_if cond l = Ok ys.
Proof.
  induction l as [|x l IH]; intros Hall; simpl; [by eexists|].
  destruct (Hall x) as [b ->]; [by left|]. cbn [mbind result_bind].
  destruct IH as [ys ->]; [intros y Hy; apply Hall; by right|].
  by eexists.
Qed.

End Comprehensions.

Section Enumerate.

Context {A : Type}.

Lemma enumerate_from_lookup (k : nat) (l : list A) (i : nat) (x : A) :
  (i, x) ∈ enumerate_from k l ↔ k ≤ i ∧ l !! (i - k) = Some x.
Proof.
  revert k. induction l as [|y l IH]; intros k; simpl.
  - rewrite elem_of_nil, lookup_nil. split; [done | by intros [_ ?]].
  - rewrite elem_of_cons, IH. split.
    + intros [[= -> ->]|[Hk Hl]].
      * by rewrite Nat.sub_diag.
      * split; [lia|]. by replace (i - k) with (S (i - S k)) by lia.
    + intros [Hk Hl]. destruct (decide (i = k)) as [->|Hne].
      * rewrite Nat.sub_diag in Hl. injection Hl as ->. by left.
      * right. split; [lia|].
        by replace (i - k) with (S (i - S k)) in Hl by lia.
Qed.

Lemma enumerate_lookup (l : list A) (i : nat) (x : A) :
  (i, x) ∈ enumerate l ↔ l !! i = Some x.
Proof.
  unfold enumerate. rewrite enumerate_from_lookup, Nat.sub_0_r.
  split; [by intros [_ ?] | intros ?; split; [lia|done]].
Qed.

Lemma enumerate_from_snoc (k : nat) (l : list A) (x : A) :
  enumerate_from k (l ++ [x])
  = enumerate_from k l ++ [(k + length l, x)].
Proof.
  revert k. induction l as [|y l IH]; intros k; simpl.
  - by rewrite Nat.add_0_r.
  - rewrite IH. by replace (k + S (length l)) with (S k + length l) by lia.
Qed.

End Enumerate.

Section KFoldSplit.

Context `{!Externals}.

Lemma sum_fold_sizes_from (q r s k : nat) :
  sum_list ((λ i, q + (if decide (i < r) then 1 else 0)) <$> seq s k)
  = k * q + (Nat.min (s + k) r - Nat.min s r).
Proof.
  revert s. induction k as [|k IH]; intros s; simpl.
  - lia.
  - rewrite IH. destruct (decide (s < r)); lia.
Qed.

Lemma fold_sizes_sum (n k : nat) : 0 < k → sum_list (fold_sizes n k) = n.
Proof.
  intros Hk. unfold fold_sizes. rewrite sum_fold_sizes_from.
  pose proof (Nat.mod_upper_bound n k ltac:(lia)).
  pose proof (Nat.div_mod_eq n k). lia.
Qed.

Lemma length_fold_sizes (n k : nat) : length (fold_sizes n k) = k.
Proof. unfold fold_sizes. by rewrite length_fmap, length_seq. Qed.

Lemma length_iter_slices (c : nat) (sizes indices : list nat) :
  length (iter_slices c sizes indices) = length sizes.
Proof.
  revert c. induction sizes as [|s sizes IH]; intros c; simpl; [done|].
  by rewrite IH.
Qed.

(** The slices, one after the other, are the indices from [current] on. *)
Lemma iter_slices_join (c : nat) (sizes indices : list nat) :
  mjoin (iter_slices c sizes indices)
  = take (sum_list sizes) (drop c indices).
Proof.
  revert c. induction sizes as [|s sizes IH]; intros c; simpl; [done|].
  rewrite IH, <- drop_drop. apply take_take_drop.
Qed.

Lemma bool_index_fmap {A} (a : list A) (f : A → bool) :
  bool_index a (f <$> a) = filter (λ x, f x = true) a.
Proof.
  unfold bool_index. induction a as [|x a IH]; [done|].
  rewrite fmap_cons. change (zip (x :: a) (f x :: (f <$> a)))
    with ((x, f x) :: zip a (f <$> a)).
  destruct (f x) eqn:Hx.
  - rewrite !filter_cons_True by done. rewrite fmap_cons. by rewrite IH.
  - rewrite filter_cons_False by (simpl; congruence).
    by rewrite filter_cons_False by congruence.
Qed.

(** The test indices of a split are the members of its slice, in increasing
    order. *)
Lemma kfold_split_tests (w : world) (kf : KFold) (n : nat) splits :
  kfold_split w kf n = Ok splits →
  splits.*2
  = (λ slice, filter (λ j, j ∈ slice) (seq 0 n)) <$> iter_test_indices w kf n.
Proof.
  unfold kfold_split. destruct (decide (n < n_splits kf)); [done|].
  intros [= <-]. unfold iter_test_masks.
  rewrite <- !list_fmap_compose. apply list_fmap_ext. intros _ slice _. simpl.
  rewrite bool_index_fmap. apply list_filter_iff. intros j.
  by rewrite bool_decide_eq_true.
Qed.

Lemma length_kfold_split (w : world) (kf : KFold) (n : nat) splits :
  kfold_split w kf n = Ok splits → length splits = n_splits kf.
Proof.
  unfold kfold_split. destruct (decide (n < n_splits kf)); [done|].
  intros [= <-]. unfold iter_test_masks, iter_test_indices.
  by rewrite !length_fmap, length_iter_slices, length_fold_sizes.
Qed.

Lemma kfold_split_total (w : world) (kf : KFold) (n : nat) :
  n_splits kf ≤ n → ∃ splits, kfold_split w kf n = Ok splits.
Proof.
  intros Hn. unfold kfold_split.
  destruct (decide (n < n_splits kf)); [lia|]. by eexists.
Qed.

(** Every test index is an index of a sample. *)
Lemma kfold_split_in_range (w : world) (kf : KFold) (n : nat) splits tr te j :
  kfold_split w kf n = Ok splits → (tr, te) ∈ splits → j ∈ te → j < n.
Proof.
  intros Hsplit Hin Hj.
  assert (te ∈ splits.*2) as Hte.
  { apply list_elem_of_fmap. by exists (tr, te). }
  rewrite (kfold_split_tests _ _ _ _ Hsplit) in Hte.
  apply list_elem_of_fmap in Hte as (slice & -> & _).
  apply list_elem_of_filter in Hj as [_ Hj].
  apply elem_of_seq in Hj. lia.
Qed.

(** Every sample is a test sample of some split. *)
Lemma kfold_split_cover (w : world) (kf : KFold) (n : nat) splits j :
  shuffle_permutes → 0 < n_splits kf →
  kfold_split w kf n = Ok splits → j < n →
  ∃ tr te, (tr, te) ∈ splits ∧ j ∈ te.
Proof.
  intros Hperm Hk Hsplit Hj.
  pose proof (kfold_split_tests _ _ _ _ Hsplit) as Htests.
  set (indices := if shuffle kf
                  then rng_shuffle (check_random_state w (random_state kf))
                         (seq 0 n)
                  else seq 0 n).
  assert (indices ≡ₚ seq 0 n) as Hind.
  { unfold indices. destruct (shuffle kf); [apply Hperm|done]. }
  assert (j ∈ mjoin (iter_test_indices w kf n)) as Hjoin.
  { unfold iter_test_indices. fold indices.
    rewrite iter_slices_join, fold_sizes_sum by done.
    rewrite drop_0, take_ge by (by rewrite Hind, length_seq).
    rewrite Hind. apply elem_of_seq. lia. }
  apply list_elem_of_join in Hjoin as (slice & Hjs & Hslice).
  assert (filter (λ j, j ∈ slice) (seq 0 n) ∈ splits.*2) as Hte.
  { rewrite Htests. apply list_elem_of_fmap. by exists slice. }
  apply list_elem_of_fmap in Hte as ([tr te] & Heq & Hin).
  exists tr, te. split; [done|]. simpl in Heq. rewrite <- Heq.
  apply list_elem_of_filter. split; [done|]. apply elem_of_seq. lia.
Qed.

End KFoldSplit.

Section Dicts.

Context `{Countable K} {V : Type}.

Lemma getitem_Some (d : gmap K V) (k : K) (shown : string) (v : V) :
  d !! k = Some v → getitem d k shown = Ok v.
Proof. unfold getitem. by intros ->. Qed.

Lemma getitem_ok (d : gmap K V) (k : K) (shown : string) (v : V) :
  getitem d k shown = Ok v → d !! k = Some v.
Proof. unfold getitem. destruct (d !! k); [by intros [= ->] | done]. Qed.

End Dicts.

Section FoldAssignment.

Context `{!Externals}.

Lemma filter_ext_in {A} (P Q : A → Prop) `{!∀ x, Decision (P x)}
    `{!∀ x, Decision (Q x)} (l : list A) :
  (∀ x, x ∈ l → P x ↔ Q x) → filter P l = filter Q l.
Proof.
  induction l as [|x l IH]; intros Hext; [done|].
  assert (filter P l = filter Q l) as Hl
    by (apply IH; intros y Hy; apply Hext; by right).
  destruct (decide (P x)) as [HP|HP].
  - rewrite !filter_cons_True; [by rewrite Hl|by apply Hext; [left|]|done].
  - rewrite !filter_cons_False; [done| |done].
    intros HQ. apply HP. by apply Hext; [left|].
Qed.

Lemma take_items_total (recs : list string) (idx : list nat) :
  (∀ j, j ∈ idx → j < length recs) →
  ∃ rs, take_items recs idx = Ok rs
        ∧ ∀ j r, j ∈ idx → recs !! j = Some r → r ∈ rs.
Proof.
  unfold take_items. induction idx as [|j idx IH]; intros Hidx; simpl.
  - exists []. split; [done|]. by intros j r ?%elem_of_nil.
  - destruct (lookup_lt_is_Some_2 recs j) as [r Hr]; [apply Hidx; by left|].
    rewrite Hr. cbn [mbind result_bind].
    destruct IH as (rs & -> & Hrs); [intros k Hk; apply Hidx; by right|].
    cbn [mbind result_bind]. exists (r :: rs). split; [done|].
    intros k r' [->|Hk]%elem_of_cons Hr'.
    + rewrite Hr in Hr'. injection Hr' as ->. by left.
    + right. by eapply Hrs.
Qed.

(** The inner loop of lines 85-86: the records of one test fold get the index
    of the fold, the others keep what they had. *)
Lemma assign_fold_lookup (i : nat) (rs : list string)
    (fold_map : gmap string nat) :
  ∃ fm, for_each (λ r fold_map, Ok (<[r := i]> fold_map)) rs fold_map = Ok fm
        ∧ ∀ r, fm !! r = if decide (r ∈ rs) then Some i else fold_map !! r.
Proof.
  revert fold_map. induction rs as [|r0 rs IH]; intros fold_map; simpl.
  - exists fold_map. split; [done|]. intros r.
    destruct (decide (r ∈ [])) as [?%elem_of_nil|]; done.
  - destruct (IH (<[r0 := i]> fold_map)) as (fm & -> & Hfm).
    exists fm. split; [done|]. intros r. rewrite Hfm.
    destruct (decide (r ∈ rs)) as [Hin|Hnin].
    + rewrite decide_True; [done | by right].
    + destruct (decide (r = r0)) as [->|Hne].
      * rewrite lookup_insert_eq. rewrite decide_True; [done | by left].
      * rewrite lookup_insert_ne by done.
        rewrite decide_False; [done|]. by intros [?|?]%elem_of_cons.
Qed.

(** The loop of lines 84-86 over the splits numbered from [k]. *)
Lemma fold_map_loop (recs : list string)
    (body : nat * (list nat * list nat) → gmap string nat
            → result (gmap string nat))
    (splits : list (list nat * list nat)) (k : nat)
    (fold_map : gmap string nat) :
  (∀ i tr te fm,
     body (i, (tr, te)) fm
     = rs ← take_items recs te;
       for_each (λ r fold_map, Ok (<[r := i]> fold_map)) rs fm) →
  (∀ tr te j, (tr, te) ∈ splits → j ∈ te → j < length recs) →
  ∃ fm, for_each body (enumerate_from k splits) fold_map = Ok fm
    ∧ (∀ r v, fm !! r = Some v →
         fold_map !! r = Some v ∨ k ≤ v < k + length splits)
    ∧ (∀ r, is_Some (fold_map !! r) → is_Some (fm !! r))
    ∧ (∀ tr te j r, (tr, te) ∈ splits → j ∈ te → recs !! j = Some r →
         is_Some (fm !! r)).
Proof.
  intros Hbody. revert k fold_map.
  induction splits as [|[tr0 te0] splits IH]; intros k fold_map Hrange; simpl.
  - exists fold_map. split; [done|]. split; [by left|]. split; [done|].
    by intros tr te j r ?%elem_of_nil.
  - rewrite Hbody.
    destruct (take_items_total recs te0) as (rs & -> & Hrs).
    { intros j Hj. eapply Hrange; [by left|done]. }
    cbn [mbind result_bind].
    destruct (assign_fold_lookup k rs fold_map) as (fm1 & -> & Hfm1).
    cbn [mbind result_bind].
    destruct (IH (S k) fm1) as (fm & -> & Hval & Hkeep & Hcover).
    { intros tr te j Hin. eapply Hrange. by right. }
    exists fm. split; [done|]. split; [|split].
    + intros r v Hv. destruct (Hval r v Hv) as [H1|H1]; [|lia].
      rewrite Hfm1 in H1. destruct (decide (r ∈ rs)).
      * injection H1 as <-. lia.
      * by left.
    + intros r Hr. apply Hkeep. rewrite Hfm1.
      destruct (decide (r ∈ rs)); [by eexists|done].
    + intros tr te j r [[= -> ->]|Hin]%elem_of_cons Hj Hr.
      * apply Hkeep. rewrite Hfm1. rewrite decide_True; [by eexists|].
        by eapply Hrs.
      * by eapply Hcover.
Qed.

(** Lines 82-86 return, and give every record a fold index below
    [N_FOLDS]. *)
Lemma main_fold_map_total (w : world) (recs : list string) :
  shuffle_permutes → N_FOLDS ≤ length recs →
  ∃ fm, main_fold_map w recs = Ok fm
        ∧ ∀ r, r ∈ recs → ∃ i, i < N_FOLDS ∧ fm !! r = Some i.
Proof.
  intros Hperm Hn. unfold main_fold_map.
  destruct (kfold_split_total w (MkKFold N_FOLDS true (Some SEED))
              (length recs) Hn) as [splits Hsplit].
  rewrite Hsplit. cbn [mbind result_bind]. unfold enumerate.
  edestruct (fold_map_loop recs) as (fm & -> & Hval & _ & Hcover).
  { intros i tr te fm. reflexivity. }
  { intros tr te j. by apply (kfold_split_in_range w _ _ _ _ _ _ Hsplit). }
  exists fm. split; [done|]. intros r Hr.
  apply list_elem_of_lookup in Hr as [j Hj].
  assert (0 < n_splits (MkKFold N_FOLDS true (Some SEED))) as Hpos
    by (simpl; unfold N_FOLDS; lia).
  destruct (kfold_split_cover w _ _ _ j Hperm Hpos
              Hsplit (lookup_lt_Some _ _ _ Hj)) as (tr & te & Hin & Hjte).
  destruct (Hcover tr te j r Hin Hjte Hj) as [v Hv].
  exists v. split; [|done].
  destruct (Hval r v Hv) as [Hempty|Hlt]; [by rewrite lookup_empty in Hempty|].
  rewrite (length_kfold_split _ _ _ _ Hsplit) in Hlt. simpl in Hlt. lia.
Qed.

Lemma empty_folds_lookup (i : nat) :
  empty_folds !! i = if decide (i < N_FOLDS) then Some [] else None.
Proof.
  unfold empty_folds, N_FOLDS. simpl.
  destruct i as [|[|[|[|i]]]]; try reflexivity.
  rewrite !lookup_insert_ne by lia. rewrite lookup_empty.
  by rewrite decide_False by lia.
Qed.

(** Lines 91-93: the loop appends every record to the list of its fold. *)
Lemma fold_records_loop (fold_map : gmap string nat) (recs : list string)
    (acc : gmap nat (list string)) :
  (∀ r, r ∈ recs → ∃ i, is_Some (acc !! i) ∧ fold_map !! r = Some i) →
  ∃ fr, for_each
          (λ r fold_records,
             fi ← getitem fold_map r r;
             l ← getitem fold_records fi (pretty fi);
             Ok (<[fi := l ++ [r]]> fold_records)) recs acc = Ok fr
        ∧ ∀ i, fr !! i
               = (λ l, l ++ filter (λ r, fold_map !! r = Some i) recs)
                   <$> acc !! i.
Proof.
  revert acc. induction recs as [|r recs IH]; intros acc Hkeys;
    cbn [for_each].
  - exists acc. split; [done|]. intros i.
    destruct (acc !! i); simpl; [by rewrite app_nil_r | done].
  - destruct (Hkeys r) as (fi & [l Hl] & Hfi); [by left|].
    rewrite (getitem_Some _ _ _ _ Hfi). cbn [mbind result_bind].
    rewrite (getitem_Some _ _ _ _ Hl). cbn [mbind result_bind].
    destruct (IH (<[fi := l ++ [r]]> acc)) as (fr & -> & Hfr).
    { intros r' Hr'. destruct (Hkeys r') as (i & Hi & Hr'i); [by right|].
      exists i. split; [|done]. by apply lookup_insert_is_Some'; right. }
    exists fr. split; [done|]. intros i. rewrite Hfr.
    destruct (decide (i = fi)) as [->|Hne].
    + rewrite lookup_insert_eq, Hl. simpl.
      rewrite filter_cons_True by done. by rewrite <- app_assoc.
    + rewrite lookup_insert_ne by done.
      by rewrite filter_cons_False by congruence.
Qed.

(** The test folds, as far as the fold map is defined on the records. *)
Lemma main_fold_records_total (fold_map : gmap string nat)
    (recs : list string) :
  (∀ r, r ∈ recs → ∃ i, i < N_FOLDS ∧ fold_map !! r = Some i) →
  ∃ fr, main_fold_records fold_map recs = Ok fr
        ∧ ∀ i, fr !! i
               = if decide (i < N_FOLDS)
                 then Some (filter (λ r, fold_map !! r = Some i) recs)
                 else None.
Proof.
  intros Hkeys. unfold main_fold_records.
  destruct (fold_records_loop fold_map recs empty_folds) as (fr & -> & Hfr).
  { intros r Hr. destruct (Hkeys r Hr) as (i & Hi & Hfi). exists i.
    split; [|done]. rewrite empty_folds_lookup, decide_True by done.
    by eexists. }
  exists fr. split; [done|]. intros i.
  rewrite Hfr, empty_folds_lookup. by destruct (decide (i < N_FOLDS)).
Qed.

(** Lines 91-93 return only if the fold map sends every record to an index
    below [N_FOLDS]. *)
Lemma main_fold_records_keys (fold_map : gmap string nat)
    (recs : list string) fr r :
  main_fold_records fold_map recs = Ok fr → r ∈ recs →
  ∃ i, i < N_FOLDS ∧ fold_map !! r = Some i.
Proof.
  unfold main_fold_records. intros Hrun Hr.
  eapply (for_each_ok_elem
            (λ acc : gmap nat (list string),
               ∀ i, is_Some (acc !! i) → i < N_FOLDS)) in Hrun
    as (s1 & s2 & Hs1 & Hbody); [| |  |exact Hr].
  - destruct (getitem fold_map r r) as [fi|] eqn:Hfi; [|done].
    cbn [mbind result_bind] in Hbody.
    destruct (getitem s1 fi (pretty fi)) as [l|] eqn:Hl; [|done].
    apply getitem_ok in Hfi, Hl. exists fi. split; [|done].
    apply Hs1. by eexists.
  - intros y s1 s2 _ Hs1 Hbody i Hi.
    destruct (getitem fold_map y y) as [fi|]; [|done].
    cbn [mbind result_bind] in Hbody.
    destruct (getitem s1 fi (pretty fi)) as [l|] eqn:Hl; [|done].
    apply getitem_ok in Hl. injection Hbody as <-.
    apply lookup_insert_is_Some in Hi as [<-|[_ Hi]]; apply Hs1; eauto.
  - intros i. rewrite empty_folds_lookup.
    destruct (decide (i < N_FOLDS)); [done | by intros [? ?]].
Qed.

(** The condition of the comprehension of line 95. *)
Lemma other_fold_cond (fold_map : gmap string nat) (i : nat) (r : string)
    (fi : nat) :
  fold_map !! r = Some fi →
  (fi' ← getitem fold_map r r; Ok (negb (bool_decide (fi' = i)))) = Ok true
  ↔ fold_map !! r ≠ Some i.
Proof.
  intros Hfi. rewrite (getitem_Some _ _ _ _ Hfi), Hfi.
  cbn [mbind result_bind]. destruct (decide (fi = i)) as [->|Hne].
  - rewrite bool_decide_eq_true_2 by done. simpl. split; [done|congruence].
  - rewrite bool_decide_eq_false_2 by done. simpl. split; [congruence|done].
Qed.

(** Lines 94-95 over a list of fold indices. *)
Lemma combined_records_loop (fold_map : gmap string nat)
    (recs : list string) (folds : list nat)
    (acc : gmap nat (list string)) :
  (∀ r, r ∈ recs → is_Some (fold_map !! r)) →
  ∃ cr, for_each
          (λ i combined_records,
             l ← comprehension_if
                   (λ r, fi ← getitem fold_map r r;
                         Ok (negb (bool_decide (fi = i)))) recs;
             Ok (<[i := l]> combined_records)) folds acc = Ok cr
        ∧ ∀ i, cr !! i
               = if decide (i ∈ folds)
                 then Some (filter (λ r, fold_map !! r ≠ Some i) recs)
                 else acc !! i.
Proof.
  intros Hkeys. revert acc.
  induction folds as [|i0 folds IH]; intros acc; cbn [for_each].
  - exists acc. split; [done|]. intros i.
    destruct (decide (i ∈ [])) as [?%elem_of_nil|]; done.
  - destruct (comprehension_if_total
                (λ r, fi ← getitem fold_map r r;
                      Ok (negb (bool_decide (fi = i0)))) recs) as [l Hl].
    { intros r Hr. destruct (Hkeys r Hr) as [fi Hfi].
      rewrite (getitem_Some _ _ _ _ Hfi). by eexists. }
    rewrite Hl. cbn [mbind result_bind].
    apply comprehension_if_ok in Hl as [_ ->].
    match goal with
    | |- context [for_each _ folds ?acc1] =>
        destruct (IH acc1) as (cr & -> & Hcr)
    end.
    exists cr. split; [done|]. intros i. rewrite Hcr.
    destruct (decide (i ∈ folds)) as [Hin|Hnin].
    + rewrite decide_True; [done | by right].
    + destruct (decide (i = i0)) as [->|Hne].
      * rewrite lookup_insert_eq. rewrite decide_True by (by left).
        f_equal. apply filter_ext_in. intros r Hr.
        destruct (Hkeys r Hr) as [fi Hfi]. by eapply other_fold_cond.
      * rewrite lookup_insert_ne by done.
        rewrite decide_False; [done|]. by intros [?|?]%elem_of_cons.
Qed.

(** The combined folds, as far as the fold map is defined on the records. *)
Lemma main_combined_records_total (fold_map : gmap string nat)
    (recs : list string) :
  (∀ r, r ∈ recs → is_Some (fold_map !! r)) →
  ∃ cr, main_combined_records fold_map recs = Ok cr
        ∧ ∀ i, cr !! i
               = if decide (i < N_FOLDS)
                 then Some (filter (λ r, fold_map !! r ≠ Some i) recs)
                 else None.
Proof.
  intros Hkeys. unfold main_combined_records.
  destruct (combined_records_loop fold_map recs (seq 0 N_FOLDS) empty_folds
              Hkeys) as (cr & -> & Hcr).
  exists cr. split; [done|]. intros i. rewrite Hcr, empty_folds_lookup.
  destruct (decide (i < N_FOLDS)) as [Hi|Hi].
  - rewrite decide_True; [done|]. apply elem_of_seq. lia.
  - rewrite decide_False; [done|]. rewrite elem_of_seq. lia.
Qed.

(** What a plan that [main] has computed is made of. *)
Lemma main_plan_inv (w : world) (p : plan) :
  main_plan w = Ok p →
  load_reference w = Ok (plan_ref p)
  ∧ plan_recs p = record <$> plan_ref p
  ∧ (∀ r, r ∈ plan_recs p →
       ∃ i, i < N_FOLDS ∧ plan_fold_map p !! r = Some i)
  ∧ (∀ i, plan_fold_records p !! i
          = if decide (i < N_FOLDS)
            then Some (filter (λ r, plan_fold_map p !! r = Some i)
                         (plan_recs p))
            else None)
  ∧ (∀ i, plan_combined_records p !! i
          = if decide (i < N_FOLDS)
            then Some (filter (λ r, plan_fold_map p !! r ≠ Some i)
                         (plan_recs p))
            else None).
Proof.
  unfold main_plan. destruct (load_reference w) as [ref|]; [|done].
  cbn [mbind result_bind].
  destruct (main_fold_map w (record <$> ref)) as [fm|]; [|done].
  cbn [mbind result_bind].
  destruct (main_fold_records fm (record <$> ref)) as [fr|] eqn:Hfr; [|done].
  cbn [mbind result_bind].
  destruct (main_combined_records fm (record <$> ref)) as [cr|] eqn:Hcr;
    [|done].
  cbn [mbind result_bind]. intros [= <-]. simpl.
  pose proof (λ r, main_fold_records_keys _ _ _ r Hfr) as Hkeys.
  split; [done|]. split; [done|]. split; [by intros r Hr; apply Hkeys|].
  split.
  - destruct (main_fold_records_total fm (record <$> ref))
      as (fr' & Hfr' & Hlook); [by intros r Hr; apply Hkeys|].
    rewrite Hfr in Hfr'. by injection Hfr' as <-.
  - destruct (main_combined_records_total fm (record <$> ref))
      as (cr' & Hcr' & Hlook).
    { intros r Hr. destruct (Hkeys r Hr) as (i & _ & Hi). by eexists. }
    rewrite Hcr in Hcr'. by injection Hcr' as <-.
Qed.

(** The plan exists when the table has as many records as there are folds. *)
Lemma main_plan_total (w : world) (ref : list ref_row) :
  shuffle_permutes → load_reference w = Ok ref → N_FOLDS ≤ length ref →
  ∃ p, main_plan w = Ok p.
Proof.
  intros Hperm Href Hn. unfold main_plan. rewrite Href.
  cbn [mbind result_bind].
  destruct (main_fold_map_total w (record <$> ref) Hperm)
    as (fm & -> & Hkeys); [by rewrite length_fmap|].
  cbn [mbind result_bind].
  destruct (main_fold_records_total fm (record <$> ref) Hkeys)
    as (fr & -> & _).
  cbn [mbind result_bind].
  destruct (main_combined_records_total fm (record <$> ref))
    as (cr & -> & _).
  { intros r Hr. destruct (Hkeys r Hr) as (i & _ & Hi). by eexists. }
  by eexists.
Qed.

End FoldAssignment.

Section Partition.

Context `{!Externals}.

Lemma other_folds_count (k : nat) :
  k < N_FOLDS → length (filter (λ i, i ≠ k) (seq 0 N_FOLDS)) = N_FOLDS - 1.
Proof.
  unfold N_FOLDS. intros Hk.
  destruct k as [|[|[|[|k]]]]; [reflexivity..|lia].
Qed.

(** C1. The fold assignment of [main] is a partition.  With at least
    [N_FOLDS] records in the filtered table, steps 1 to 3 return; every
    record is in exactly one test fold, whose index is below [N_FOLDS]; two
    different test folds share no record; the records of the test folds are
    the records of the table; and every record is in exactly [N_FOLDS - 1]
    combined folds. *)
Theorem fold_assignment_partition (w : world) (ref : list ref_row) :
  shuffle_permutes → load_reference w = Ok ref → N_FOLDS ≤ length ref →
  ∃ p, main_plan w = Ok p ∧ plan_recs p = record <$> ref
    ∧ let test i := default [] (plan_fold_records p !! i) in
      let train i := default [] (plan_combined_records p !! i) in
      (∀ r, r ∈ plan_recs p →
         ∃ i, i < N_FOLDS ∧ r ∈ test i ∧ ∀ j, r ∈ test j → j = i)
      ∧ (∀ i j r, i ≠ j → r ∈ test i → r ∉ test j)
      ∧ (∀ r, r ∈ plan_recs p ↔ ∃ i, i < N_FOLDS ∧ r ∈ test i)
      ∧ (∀ r, r ∈ plan_recs p →
           length (filter (λ i, r ∈ train i) (seq 0 N_FOLDS)) = N_FOLDS - 1).
Proof.
  intros Hperm Href Hn.
  destruct (main_plan_total w ref Hperm Href Hn) as [p Hp].
  exists p. split; [done|].
  destruct (main_plan_inv w p Hp) as (Href' & Hrecs & Hkeys & Hfr & Hcr).
  rewrite Href in Href'. injection Href' as Href'.
  split; [by rewrite Hrecs, Href'|].
  intros test train.
  assert (∀ i r, r ∈ test i ↔
            i < N_FOLDS ∧ r ∈ plan_recs p ∧ plan_fold_map p !! r = Some i)
    as Htest.
  { intros i r. unfold test. rewrite Hfr.
    destruct (decide (i < N_FOLDS)); simpl.
    - rewrite list_elem_of_filter. tauto.
    - rewrite elem_of_nil. tauto. }
  assert (∀ i r, r ∈ train i ↔
            i < N_FOLDS ∧ r ∈ plan_recs p ∧ plan_fold_map p !! r ≠ Some i)
    as Htrain.
  { intros i r. unfold train. rewrite Hcr.
    destruct (decide (i < N_FOLDS)); simpl.
    - rewrite list_elem_of_filter. tauto.
    - rewrite elem_of_nil. tauto. }
  split; [|split; [|split]].
  - intros r Hr. destruct (Hkeys r Hr) as (i & Hi & Hri).
    exists i. split; [done|]. split; [by apply Htest|].
    intros j (_ & _ & Hrj)%Htest. congruence.
  - intros i j r Hne (_ & _ & Hri)%Htest (_ & _ & Hrj)%Htest. congruence.
  - intros r. split.
    + intros Hr. destruct (Hkeys r Hr) as (i & Hi & Hri).
      exists i. split; [done|]. by apply Htest.
    + by intros (i & _ & (_ & Hr & _)%Htest).
  - intros r Hr. destruct (Hkeys r Hr) as (k & Hk & Hrk).
    rewrite <- (other_folds_count k Hk). f_equal.
    apply filter_ext_in. intros i Hi. rewrite Htrain.
    apply elem_of_seq in Hi. rewrite Hrk. split.
    + intros (_ & _ & Hne) ->. by apply Hne.
    + intros Hne. split; [lia|]. split; [done|]. congruence.
Qed.

(** C2. The fold assignment is a function of the seed and of the rows of the
    table: two runs that read the same rows compute the same fold map, test
    folds and combined folds, whatever the state of numpy's global generator
    and whatever else differs between them. *)
Theorem fold_assignment_deterministic (w1 w2 : world) :
  read_csv w1 REF_CSV = read_csv w2 REF_CSV → main_plan w1 = main_plan w2.
Proof.
  intros Hcsv. unfold main_plan, load_reference. rewrite Hcsv.
  destruct (read_csv w2 REF_CSV) as [rows|]; [|done].
  cbn [mbind result_bind]. reflexivity.
Qed.

End Partition.

Lemma example_shuffle_permutes : shuffle_permutes (H := Example.ext).
Proof.
  intros g l. simpl. destruct (Z.even g); [apply reverse_Permutation|done].
Qed.

Lemma fold_assignment_partition_witness :
  ∃ p, main_plan Example.study = Ok p
    ∧ plan_recs p = ["A1"; "A2"; "A4"; "A5"]
    ∧ let test i := default [] (plan_fold_records p !! i) in
      let train i := default [] (plan_combined_records p !! i) in
      (∀ r, r ∈ plan_recs p →
         ∃ i, i < N_FOLDS ∧ r ∈ test i ∧ ∀ j, r ∈ test j → j = i)
      ∧ (∀ i j r, i ≠ j → r ∈ test i → r ∉ test j)
      ∧ (∀ r, r ∈ plan_recs p ↔ ∃ i, i < N_FOLDS ∧ r ∈ test i)
      ∧ (∀ r, r ∈ plan_recs p →
           length (filter (λ i, r ∈ train i) (seq 0 N_FOLDS)) = N_FOLDS - 1).
Proof.
  exact (fold_assignment_partition Example.study _
           example_shuffle_permutes eq_refl (le_n 4)).
Defined.

(** Without a seed the split follows the state of the global generator: the
    two example worlds, which differ in that state, are split differently. *)
Lemma example_unseeded_split_differs :
  kfold_split Example.study (MkKFold N_FOLDS true None) 4
  ≠ kfold_split Example.study_elsewhere (MkKFold N_FOLDS true None) 4.
Proof. vm_compute. discriminate. Qed.

Lemma fold_assignment_deterministic_witness :
  main_plan Example.study = main_plan Example.study_elsewhere.
Proof.
  exact (fold_assignment_deterministic Example.study Example.study_elsewhere
           eq_refl).
Defined.

Section Paths.

Lemma path_prefixes_snoc (p : path) (c : string) :
  path_prefixes (p ++ [c]) = path_prefixes p ++ [p ++ [c]].
Proof.
  induction p as [|d p IH]; [done|].
  simpl. rewrite IH, fmap_app. done.
Qed.

Lemma elem_of_path_prefixes (p q : path) :
  q ∈ path_prefixes p ↔ q ≠ [] ∧ q `prefix_of` p.
Proof.
  revert q. induction p as [|c p IH]; intros q; simpl.
  - rewrite elem_of_nil. split; [done|].
    intros [Hq Hpre]. by apply prefix_nil_inv in Hpre.
  - rewrite elem_of_cons, list_elem_of_fmap. split.
    + intros [->|(q' & -> & [_ Hq']%IH)].
      * split; [done|]. by apply (prefix_cons c []), prefix_nil.
      * split; [done|]. by apply prefix_cons.
    + intros [Hq Hpre]. destruct q as [|d q]; [done|].
      apply prefix_cons_inv_1 in Hpre as Hd. subst d.
      apply prefix_cons_inv_2 in Hpre.
      destruct q as [|e q]; [by left|]. right.
      exists (e :: q). split; [done|]. by apply IH.
Qed.

Lemma parent_snoc (p : path) (c : string) : parent (p ++ [c]) = p.
Proof.
  unfold parent. rewrite length_app. simpl.
  replace (length p + 1 - 1) with (length p) by lia.
  by rewrite take_app_length.
Qed.

Lemma path_snoc (p : path) : p ≠ [] → ∃ c, p = parent p ++ [c].
Proof.
  destruct p as [|c p _] using rev_ind; [done|].
  intros _. exists c. by rewrite parent_snoc.
Qed.

Lemma prefix_parent (r p : path) : r `prefix_of` parent p → r `prefix_of` p.
Proof.
  intros Hr. etrans; [exact Hr|]. unfold parent. apply prefix_take.
Qed.

End Paths.

Section FileSystem.

Context `{!Externals}.

Lemma isdir_true (fs : filesystem) (p : path) :
  isdir fs p = true ↔ p ∈ dirs fs.
Proof. apply bool_decide_eq_true. Qed.

Lemma isdir_false (fs : filesystem) (p : path) :
  isdir fs p = false ↔ p ∉ dirs fs.
Proof. apply bool_decide_eq_false. Qed.

Lemma isfile_true (fs : filesystem) (p : path) :
  isfile fs p = true ↔ is_Some (files fs !! p).
Proof. apply bool_decide_eq_true. Qed.

Lemma isfile_false (fs : filesystem) (p : path) :
  isfile fs p = false ↔ files fs !! p = None.
Proof.
  unfold isfile. rewrite bool_decide_eq_false. symmetry.
  apply eq_None_not_Some.
Qed.

Lemma fs_wf_dir_parent (fs : filesystem) (p : path) :
  fs_wf fs → p ∈ dirs fs → parent p ∈ dirs fs ∨ parent p = [].
Proof.
  intros (Hd & _ & _) Hp. destruct (Hd p Hp) as [H1|H1]; [left|by right].
  by apply isdir_true.
Qed.

Lemma fs_wf_file_parent (fs : filesystem) (p : path) (c : content) :
  fs_wf fs → files fs !! p = Some c → parent p ∈ dirs fs ∨ parent p = [].
Proof.
  intros (_ & Hf & _) Hp. destruct (Hf p c Hp) as [H1|H1]; [left|by right].
  by apply isdir_true.
Qed.

(** In a well-formed file system the directories above a directory are
    directories. *)
Lemma fs_wf_dir_prefix (fs : filesystem) (q r : path) :
  fs_wf fs → q ∈ dirs fs → r ≠ [] → r `prefix_of` q → r ∈ dirs fs.
Proof.
  intros Hwf Hq Hr [k ->]. revert Hq.
  induction k as [|x k IH] using rev_ind; intros Hq.
  - by rewrite app_nil_r in Hq.
  - apply IH. rewrite app_assoc in Hq.
    destruct (fs_wf_dir_parent fs _ Hwf Hq) as [Hp|Hp];
      rewrite parent_snoc in Hp; [done|].
    by apply app_eq_nil in Hp as [-> _].
Qed.

Lemma fs_wf_file_prefix (fs : filesystem) (q r : path) (c : content) :
  fs_wf fs → files fs !! q = Some c → r ≠ [] → r `prefix_of` q → r ≠ q →
  r ∈ dirs fs.
Proof.
  intros Hwf Hq Hr [k ->] Hne.
  destruct k as [|x k _] using rev_ind; [by rewrite app_nil_r in Hne|].
  rewrite app_assoc in Hq.
  destruct (fs_wf_file_parent fs _ c Hwf Hq) as [Hp|Hp];
    rewrite parent_snoc in Hp.
  - eapply fs_wf_dir_prefix; [done..|]. by apply prefix_app_r.
  - by apply app_eq_nil in Hp as [-> _].
Qed.

(** Without the root of the tree a well-formed file system has no tree. *)
Lemma fs_wf_no_tree (fs : filesystem) :
  fs_wf fs → fs_exists fs [FOLDS_DIR] = false → no_tree fs.
Proof.
  intros Hwf Hex p Hp. unfold fs_exists in Hex.
  apply orb_false_iff in Hex as [[_ Hd]%orb_false_iff Hf].
  apply isdir_false in Hd. apply isfile_false in Hf.
  assert ([FOLDS_DIR] ≠ []) as Hne by done. split.
  - intros Hin. apply Hd. by eapply fs_wf_dir_prefix.
  - destruct (files fs !! p) as [c|] eqn:Hc; [|done]. exfalso.
    destruct (decide ([FOLDS_DIR] = p)) as [<-|Hnp]; [congruence|].
    apply Hd. by eapply fs_wf_file_prefix.
Qed.

(** Step 0 of [main] leaves a well-formed file system without the tree;
    outside the tree nothing changes. *)
Lemma main_reset_ok (fs fs0 : filesystem) :
  fs_wf fs → main_reset fs = Ok fs0 →
  fs_wf fs0 ∧ no_tree fs0
  ∧ (∀ p, ¬ under_folds p → (p ∈ dirs fs0 ↔ p ∈ dirs fs)
                           ∧ files fs0 !! p = files fs !! p).
Proof.
  intros Hwf. unfold main_reset.
  destruct (fs_exists fs [FOLDS_DIR]) eqn:Hex.
  - unfold rmtree. destruct (isdir fs [FOLDS_DIR]) eqn:Hd;
      [|by destruct (isfile fs [FOLDS_DIR])].
    intros [= <-]. split; [|split].
    + destruct Hwf as (Hwd & Hwfl & Hnil). split; [|split]; simpl.
      * intros p [Hnp Hp]%elem_of_filter.
        destruct (Hwd p Hp) as [Hpar|Hpar]; [left|by right].
        apply isdir_true. simpl. apply elem_of_filter. split.
        -- intros Hpre. apply Hnp. by apply prefix_parent.
        -- by apply isdir_true.
      * intros p c [Hp Hnp]%map_lookup_filter_Some. simpl in Hnp.
        destruct (Hwfl p c Hp) as [Hpar|Hpar]; [left|by right].
        apply isdir_true. simpl. apply elem_of_filter. split.
        -- intros Hpre. apply Hnp. by apply prefix_parent.
        -- by apply isdir_true.
      * apply map_lookup_filter_None. left. done.
    + intros p Hp. simpl. split.
      * by intros [Hnp _]%elem_of_filter.
      * apply map_lookup_filter_None. right. intros c _ Hnp. by apply Hnp.
    + intros p Hp. simpl. split.
      * rewrite elem_of_filter. tauto.
      * destruct (files fs !! p) as [c|] eqn:Hc.
        -- by apply map_lookup_filter_Some.
        -- apply map_lookup_filter_None. by left.
  - intros [= <-]. split; [done|]. split; [by apply fs_wf_no_tree|done].
Qed.

Lemma filesystem_eq (fs1 fs2 : filesystem) :
  dirs fs1 = dirs fs2 → files fs1 = files fs2 → fs1 = fs2.
Proof. destruct fs1, fs2. simpl. by intros -> ->. Qed.

Lemma add_dirs_present (ps : list path) (fs : filesystem) :
  (∀ q, q ∈ ps → q ∈ dirs fs) → add_dirs ps fs = fs.
Proof.
  intros Hps. apply filesystem_eq; [|done]. simpl.
  apply set_eq. intros q. rewrite elem_of_union, elem_of_list_to_set.
  split; [intros [?|?]; auto | auto].
Qed.

Lemma add_dirs_wf (p : path) (fs : filesystem) :
  fs_wf fs → fs_wf (add_dirs (path_prefixes p) fs).
Proof.
  intros Hwf. pose proof Hwf as (Hwd & Hwfl & Hnil).
  split; [|split]; simpl; [| |done].
  - intros q [Hq|Hq]%elem_of_union.
    + destruct (fs_wf_dir_parent fs q Hwf Hq) as [Hpar|Hpar]; [left|by right].
      apply isdir_true. simpl. apply elem_of_union. by left.
    + apply elem_of_list_to_set, elem_of_path_prefixes in Hq as [Hne Hpre].
      destruct (decide (parent q = [])) as [Hnil'|Hnn]; [by right|left].
      apply isdir_true. simpl. apply elem_of_union. right.
      apply elem_of_list_to_set, elem_of_path_prefixes. split; [done|].
      etrans; [|exact Hpre]. unfold parent. apply prefix_take.
  - intros q c Hq.
    destruct (fs_wf_file_parent fs q c Hwf Hq) as [Hpar|Hpar];
      [left|by right].
    apply isdir_true. simpl. apply elem_of_union. by left.
Qed.

(** [os.makedirs(name, exist_ok=True)] on a well-formed file system, when no
    file is in the way: the directory and those above it are there
    afterwards, and nothing else changes. *)
Lemma makedirs_rev_exact (rname : list string) (fs : filesystem) :
  rname ≠ [] → fs_wf fs →
  (∀ q, q ∈ path_prefixes (reverse rname) → files fs !! q = None) →
  makedirs_rev true rname fs
  = Ok (add_dirs (path_prefixes (reverse rname)) fs).
Proof.
  revert fs. induction rname as [|tail rhead IH]; intros fs Hne Hwf Hnofile;
    [done|].
  cbn [makedirs_rev]. rewrite reverse_cons, path_prefixes_snoc.
  rewrite reverse_cons, path_prefixes_snoc in Hnofile.
  set (head := reverse rhead) in *. set (name := head ++ [tail]) in *.
  assert (name ≠ []) as Hname by (unfold name; by destruct head).
  assert (files fs !! name = None) as Hnamefile.
  { apply Hnofile. apply elem_of_app. right. by left. }
  assert (∀ q, q ∈ path_prefixes head → files fs !! q = None) as Hheadfile.
  { intros q Hq. apply Hnofile. apply elem_of_app. by left. }
  assert (∃ fs1,
    (if bool_decide (head ≠ []) && negb (fs_exists fs head)
     then match makedirs_rev true rhead fs with
          | Raise (FileExistsError _) => Ok fs
          | r => r
          end
     else Ok fs) = Ok fs1
    ∧ fs1 = add_dirs (path_prefixes head) fs
    ∧ (head = [] ∨ head ∈ dirs fs1)) as (fs1 & -> & Hfs1 & Hhead).
  { destruct (decide (head = [])) as [Hnil|Hnn].
    - rewrite bool_decide_eq_false_2 by (by intros ?). simpl.
      exists fs. split; [done|]. split; [|by left].
      rewrite Hnil. symmetry. apply add_dirs_present.
      by intros q ?%elem_of_nil.
    - rewrite bool_decide_eq_true_2 by done. simpl.
      destruct (fs_exists fs head) eqn:Hex; simpl.
      + assert (head ∈ dirs fs) as Hd.
        { unfold fs_exists in Hex.
          apply orb_true_iff in Hex as [[Hex|Hex]%orb_true_iff|Hex].
          - by apply bool_decide_eq_true in Hex.
          - by apply isdir_true.
          - apply isfile_true in Hex as [c Hc].
            rewrite Hheadfile in Hc; [done|].
            by apply elem_of_path_prefixes. }
        exists fs. split; [done|]. split; [|by right].
        symmetry. apply add_dirs_present.
        intros q [Hq Hpre]%elem_of_path_prefixes.
        by eapply fs_wf_dir_prefix.
      + assert (rhead ≠ []) as Hrhead.
        { intros ->. by apply Hnn. }
        rewrite (IH fs Hrhead Hwf Hheadfile).
        eexists. split; [done|]. split; [done|]. right. simpl.
        apply elem_of_union. right.
        apply elem_of_list_to_set, elem_of_path_prefixes. done. }
  cbn [mbind result_bind].
  assert (files fs1 = files fs) as Hfiles by (by rewrite Hfs1).
  assert (add_dirs (path_prefixes head ++ [name]) fs
          = FileSystem ({[name]} ∪ dirs fs1) (files fs1)) as Htarget.
  { rewrite Hfs1. apply filesystem_eq; [|done]. simpl.
    rewrite list_to_set_app_L. simpl. apply set_eq. intros q.
    rewrite !elem_of_union, elem_of_empty. tauto. }
  rewrite Htarget. unfold mkdir.
  destruct (decide (name ∈ dirs fs1)) as [Hin|Hnin].
  - assert (fs_exists fs1 name = true) as ->.
    { unfold fs_exists. apply orb_true_iff. left. apply orb_true_iff. right.
      by apply isdir_true. }
    simpl. rewrite (proj2 (isdir_true fs1 name) Hin). simpl. f_equal.
    apply filesystem_eq; [|done]. simpl. apply set_eq. intros q.
    rewrite elem_of_union, elem_of_singleton. split; [auto|].
    by intros [->|?].
  - assert (fs_exists fs1 name = false) as ->.
    { unfold fs_exists. apply orb_false_iff. split.
      - apply orb_false_iff. split; [by apply bool_decide_eq_false|].
        by apply isdir_false.
      - apply isfile_false. by rewrite Hfiles. }
    assert (parent name = head) as -> by apply parent_snoc.
    assert (isfile fs1 head = false) as ->.
    { apply isfile_false. rewrite Hfiles.
      destruct (decide (head = [])) as [->|Hnn]; [by destruct Hwf as (_&_&?)|].
      apply Hheadfile. by apply elem_of_path_prefixes. }
    assert (fs_exists fs1 head = true) as ->; [|done].
    unfold fs_exists. destruct Hhead as [->|Hd]; [done|].
    apply orb_true_iff. left. apply orb_true_iff. right. by apply isdir_true.
Qed.

Lemma makedirs_exact (name : path) (fs : filesystem) :
  name ≠ [] → fs_wf fs →
  (∀ q, q ∈ path_prefixes name → files fs !! q = None) →
  makedirs name true fs = Ok (add_dirs (path_prefixes name) fs).
Proof.
  intros Hne Hwf Hnofile. unfold makedirs.
  rewrite makedirs_rev_exact; rewrite ?reverse_involutive; [done| |done..].
  intros Hrev. apply Hne. by rewrite <- (reverse_involutive name), Hrev.
Qed.

(** Creating a directory that is there, under a parent that is there, returns
    and changes nothing, and raises without [exist_ok]. *)
Lemma makedirs_exists (name : path) (exist_ok : bool) (fs : filesystem) :
  name ≠ [] → name ∈ dirs fs → fs_exists fs (parent name) = true →
  makedirs name exist_ok fs
  = if exist_ok then Ok fs
    else Raise (FileExistsError (path_str os_sep name)).
Proof.
  intros Hne Hin Hpar. unfold makedirs.
  destruct (path_snoc name Hne) as [c Hname].
  rewrite Hname at 1. rewrite reverse_snoc. cbn [makedirs_rev].
  rewrite <- reverse_snoc, <- Hname, !reverse_involutive.
  rewrite Hpar. rewrite andb_false_r. cbn [mbind result_bind].
  unfold mkdir.
  assert (fs_exists fs name = true) as ->.
  { unfold fs_exists. apply orb_true_iff. left. apply orb_true_iff. right.
    by apply isdir_true. }
  rewrite (proj2 (isdir_true fs name) Hin). by destruct exist_ok.
Qed.

Lemma add_dirs_add_dirs (ps qs : list path) (fs : filesystem) :
  add_dirs qs (add_dirs ps fs) = add_dirs (ps ++ qs) fs.
Proof.
  apply filesystem_eq; [|done]. simpl.
  by rewrite list_to_set_app_L, (assoc_L (∪)).
Qed.

(** A sequence of [os.makedirs] calls on a well-formed file system with no
    file in the way. *)
Lemma makedirs_all_exact (ps : list path) (fs : filesystem) :
  fs_wf fs →
  (∀ p, p ∈ ps → p ≠ [] ∧ ∀ q, q ∈ path_prefixes p → files fs !! q = None) →
  for_each (λ p, makedirs p true) ps fs
  = Ok (add_dirs (ps ≫= path_prefixes) fs).
Proof.
  revert fs. induction ps as [|p ps IH]; intros fs Hwf Hps; cbn [for_each].
  - f_equal. symmetry. apply add_dirs_present. by intros q ?%elem_of_nil.
  - destruct (Hps p) as [Hp Hnofile]; [by left|].
    rewrite makedirs_exact by done. cbn [mbind result_bind].
    rewrite IH.
    + by rewrite add_dirs_add_dirs.
    + by apply add_dirs_wf.
    + intros p' Hp'. apply Hps. by right.
Qed.

Lemma for_each_bind {A B S} (body : B → S → result S) (g : A → list B)
    (l : list A) (s : S) :
  for_each (λ x, for_each body (g x)) l s = for_each body (l ≫= g) s.
Proof.
  revert s. induction l as [|x l IH]; intros s; [done|].
  cbn [for_each]. rewrite bind_cons, for_each_app.
  destruct (for_each body (g x) s); cbn [mbind result_bind]; [apply IH|done].
Qed.

Lemma for_each_fmap {A B S} (body : B → S → result S) (f : A → B)
    (l : list A) (s : S) :
  for_each (λ x, body (f x)) l s = for_each body (f <$> l) s.
Proof.
  revert s. induction l as [|x l IH]; intros s; [done|].
  cbn [for_each]. rewrite fmap_cons. cbn [for_each].
  destruct (body (f x) s); cbn [mbind result_bind]; [apply IH|done].
Qed.

Lemma for_each_ext {A S} (f g : A → S → result S) (l : list A) (s : S) :
  (∀ x s, f x s = g x s) → for_each f l s = for_each g l s.
Proof.
  intros Hfg. revert s. induction l as [|x l IH]; intros s; [done|].
  cbn [for_each]. rewrite Hfg.
  destruct (g x s); cbn [mbind result_bind]; [apply IH|done].
Qed.

(** [make_dirs] is the sequence of its [os.makedirs] calls. *)
Lemma make_dirs_flat (fs : filesystem) :
  make_dirs fs = for_each (λ p, makedirs p true) make_dirs_paths fs.
Proof.
  unfold make_dirs, make_dirs_paths, os_path_join. cbv zeta.
  rewrite (for_each_app (λ p, makedirs p true)).
  rewrite <- (for_each_bind (λ p, makedirs p true)).
  erewrite (for_each_ext _ _ (_ ++ _)); [|intros fd s; reflexivity].
  destruct (for_each _ (_ ++ _) fs) as [fs1|]; [|done].
  cbn [mbind result_bind].
  rewrite <- (for_each_bind (λ p, makedirs p true)).
  apply for_each_ext. intros fd s.
  rewrite <- (for_each_bind (λ p, makedirs p true)).
  apply for_each_ext. intros cls s'. reflexivity.
Qed.

Lemma make_dirs_paths_spec : make_dirs_paths = spec_dirs.
Proof. reflexivity. Qed.

Lemma spec_tree_prefixes (q : path) :
  q ∈ spec_dirs ≫= path_prefixes ↔ q ∈ spec_tree.
Proof.
  split; intros Hq.
  - assert (Forall (λ q, q ∈ spec_tree) (spec_dirs ≫= path_prefixes)) as Hall
      by (apply (bool_decide_unpack _); vm_compute; exact I).
    by eapply Forall_forall in Hall.
  - assert (Forall (λ q, q ∈ spec_dirs ≫= path_prefixes) spec_tree) as Hall
      by (apply (bool_decide_unpack _); vm_compute; exact I).
    by eapply Forall_forall in Hall.
Qed.

Lemma spec_tree_under_folds (q : path) : q ∈ spec_tree → under_folds q.
Proof.
  intros Hq.
  assert (Forall under_folds spec_tree) as Hall
    by (apply (bool_decide_unpack _); vm_compute; exact I).
  by eapply Forall_forall in Hall.
Qed.

(** On a well-formed file system without the tree, [make_dirs] returns and
    adds exactly the directories of the tree. *)
Lemma make_dirs_exact (fs : filesystem) :
  fs_wf fs → no_tree fs → make_dirs fs = Ok (add_dirs spec_tree fs).
Proof.
  intros Hwf Hno. rewrite make_dirs_flat, make_dirs_paths_spec.
  rewrite makedirs_all_exact; [|exact Hwf|].
  - unfold add_dirs. apply (f_equal (λ X, Ok (FileSystem (dirs fs ∪ X) _))).
    apply set_eq. intros q. rewrite !elem_of_list_to_set.
    apply spec_tree_prefixes.
  - intros p Hp. split.
    + intros ->. revert Hp. by apply (bool_decide_unpack _).
    + intros q Hq. apply Hno. apply spec_tree_under_folds.
      apply spec_tree_prefixes. apply list_elem_of_bind. by exists p.
Qed.

End FileSystem.

Section Writer.

Context `{!Externals}.

Lemma np_save_ok (file : path) (value : content) (fs fs' : filesystem) :
  np_save file value fs = Ok fs' →
  dirs fs' = dirs fs ∧ files fs' = <[file := value]> (files fs)
  ∧ file ∉ dirs fs.
Proof.
  unfold np_save. destruct (isdir fs file) eqn:Hd; [done|].
  destruct (_ || _); [|done]. intros [= <-].
  split; [done|]. split; [done|]. by apply isdir_false.
Qed.

(** What one iteration of the loop over a test fold has done when it
    returns. *)
Lemma save_test_record_ok (w : world) (ref : list ref_row) (sf : string)
    (idx : nat) (rec : string) (fs fs' : filesystem) :
  save_test_record w ref sf (idx, rec) fs = Ok fs' →
  ∃ raw lbl cls,
    load_ecg w rec = Ok raw ∧ lookup_label ref rec = Ok lbl
    ∧ class_names !! lbl = Some cls
    ∧ dirs fs' = dirs fs
    ∧ files fs'
      = <[[FOLDS_DIR; sf; cls; "label"; pretty idx +:+ ".npy"]
            := NpyInt lbl]>
          (<[[FOLDS_DIR; sf; cls; "data"; pretty idx +:+ ".npy"]
               := NpyArray (process raw)]>
             (<[[FOLDS_DIR; sf; "label"; pretty idx +:+ ".npy"]
                  := NpyInt lbl]>
                (<[[FOLDS_DIR; sf; "data"; pretty idx +:+ ".npy"]
                     := NpyArray (process raw)]> (files fs)))).
Proof.
  unfold save_test_record, os_path_join.
  destruct (load_ecg w rec) as [raw|]; [|done]. cbn [mbind result_bind].
  destruct (lookup_label ref rec) as [lbl|]; [|done].
  cbn [mbind result_bind].
  destruct (np_save _ _ fs) as [fs1|] eqn:H1; [|done].
  cbn [mbind result_bind].
  destruct (np_save _ _ fs1) as [fs2|] eqn:H2; [|done].
  cbn [mbind result_bind].
  destruct (getitem class_names lbl (pretty lbl)) as [cls|] eqn:Hcls; [|done].
  cbn [mbind result_bind].
  destruct (np_save _ _ fs2) as [fs3|] eqn:H3; [|done].
  cbn [mbind result_bind]. intros H4.
  apply np_save_ok in H1 as (Hd1 & Hf1 & _), H2 as (Hd2 & Hf2 & _),
    H3 as (Hd3 & Hf3 & _), H4 as (Hd4 & Hf4 & _).
  apply getitem_ok in Hcls.
  exists raw, lbl, cls. do 3 (split; [done|]). split; [congruence|].
  by rewrite Hf4, Hf3, Hf2, Hf1.
Qed.

Lemma save_train_record_ok (w : world) (ref : list ref_row) (cf : string)
    (idx : nat) (rec : string) (fs fs' : filesystem) :
  save_train_record w ref cf (idx, rec) fs = Ok fs' →
  ∃ raw lbl,
    load_ecg w rec = Ok raw ∧ lookup_label ref rec = Ok lbl
    ∧ dirs fs' = dirs fs
    ∧ files fs'
      = <[[FOLDS_DIR; cf; "label"; pretty idx +:+ ".npy"] := NpyInt lbl]>
          (<[[FOLDS_DIR; cf; "data"; pretty idx +:+ ".npy"]
               := NpyArray (process raw)]> (files fs)).
Proof.
  unfold save_train_record, os_path_join.
  destruct (load_ecg w rec) as [raw|]; [|done]. cbn [mbind result_bind].
  destruct (lookup_label ref rec) as [lbl|]; [|done].
  cbn [mbind result_bind].
  destruct (np_save _ _ fs) as [fs1|] eqn:H1; [|done].
  cbn [mbind result_bind]. intros H2.
  apply np_save_ok in H1 as (Hd1 & Hf1 & _), H2 as (Hd2 & Hf2 & _).
  exists raw, lbl. do 2 (split; [done|]). split; [congruence|].
  by rewrite Hf2, Hf1.
Qed.

(** One iteration of the test loop touches only files of its directory that
    carry its index. *)
Lemma save_test_record_frame (w : world) (ref : list ref_row) (sf : string)
    (idx : nat) (rec : string) (fs fs' : filesystem) (p : path) :
  save_test_record w ref sf (idx, rec) fs = Ok fs' →
  ¬ [FOLDS_DIR; sf] `prefix_of` p ∨ last p ≠ Some (pretty idx +:+ ".npy") →
  files fs' !! p = files fs !! p.
Proof.
  intros (raw & lbl & cls & _ & _ & _ & _ & ->)%save_test_record_ok Hp.
  rewrite !lookup_insert_ne; [done|..];
    intros <-; (destruct Hp as [Hp|Hp]; apply Hp; [by eexists|done]).
Qed.

Lemma save_train_record_frame (w : world) (ref : list ref_row) (cf : string)
    (idx : nat) (rec : string) (fs fs' : filesystem) (p : path) :
  save_train_record w ref cf (idx, rec) fs = Ok fs' →
  ¬ [FOLDS_DIR; cf] `prefix_of` p ∨ last p ≠ Some (pretty idx +:+ ".npy") →
  files fs' !! p = files fs !! p.
Proof.
  intros (raw & lbl & _ & _ & _ & ->)%save_train_record_ok Hp.
  rewrite !lookup_insert_ne; [done|..];
    intros <-; (destruct Hp as [Hp|Hp]; apply Hp; [by eexists|done]).
Qed.

Lemma save_test_record_stored (w : world) (ref : list ref_row) (sf : string)
    (idx : nat) (rec : string) (fs fs' : filesystem) :
  save_test_record w ref sf (idx, rec) fs = Ok fs' →
  stored_test w ref fs' sf idx rec.
Proof.
  intros (raw & lbl & cls & Hraw & Hlbl & Hcls & _ & Hf)%save_test_record_ok.
  exists raw, lbl, cls. do 3 (split; [done|]). rewrite Hf.
  split; [|split; [|split]].
  - rewrite !lookup_insert_ne by (intros [=]). apply lookup_insert_eq.
  - rewrite !lookup_insert_ne by (intros [=]).
    rewrite lookup_insert_eq. done.
  - rewrite lookup_insert_ne by (intros [=]). apply lookup_insert_eq.
  - apply lookup_insert_eq.
Qed.

Lemma save_train_record_stored (w : world) (ref : list ref_row)
    (cf : string) (idx : nat) (rec : string) (fs fs' : filesystem) :
  save_train_record w ref cf (idx, rec) fs = Ok fs' →
  stored_train w ref fs' cf idx rec.
Proof.
  intros (raw & lbl & Hraw & Hlbl & _ & Hf)%save_train_record_ok.
  exists raw, lbl. do 2 (split; [done|]). rewrite Hf. split.
  - rewrite lookup_insert_ne by (intros [=]). apply lookup_insert_eq.
  - apply lookup_insert_eq.
Qed.

(** Every file that an iteration leaves was there before or holds a value
    saved for a record. *)
Lemma save_test_record_saved (w : world) (ref : list ref_row) (sf : string)
    (idx : nat) (rec : string) (fs fs' : filesystem) (p : path)
    (c : content) :
  save_test_record w ref sf (idx, rec) fs = Ok fs' →
  files fs' !! p = Some c → files fs !! p = Some c ∨ saved_by w ref c.
Proof.
  intros (raw & lbl & cls & Hraw & Hlbl & _ & _ & ->)%save_test_record_ok.
  rewrite !lookup_insert_Some.
  intros [[_ <-]|[_ [[_ <-]|[_ [[_ <-]|[_ [[_ <-]|[_ Hc]]]]]]]];
    [right..|by left]; exists rec, raw, lbl; auto.
Qed.

Lemma save_train_record_saved (w : world) (ref : list ref_row) (cf : string)
    (idx : nat) (rec : string) (fs fs' : filesystem) (p : path)
    (c : content) :
  save_train_record w ref cf (idx, rec) fs = Ok fs' →
  files fs' !! p = Some c → files fs !! p = Some c ∨ saved_by w ref c.
Proof.
  intros (raw & lbl & Hraw & Hlbl & _ & ->)%save_train_record_ok.
  rewrite !lookup_insert_Some.
  intros [[_ <-]|[_ [[_ <-]|[_ Hc]]]];
    [right..|by left]; exists rec, raw, lbl; auto.
Qed.

(** The loop over a test fold whose records are numbered from [k]. *)
Lemma test_loop_ok (w : world) (ref : list ref_row) (sf : string)
    (l : list string) (k : nat) (fs fs' : filesystem) :
  for_each (save_test_record w ref sf) (enumerate_from k l) fs = Ok fs' →
  dirs fs' = dirs fs
  ∧ (∀ p, ¬ [FOLDS_DIR; sf] `prefix_of` p
          ∨ (∀ j, k ≤ j → last p ≠ Some (pretty j +:+ ".npy")) →
          files fs' !! p = files fs !! p)
  ∧ (∀ j rec, l !! j = Some rec → stored_test w ref fs' sf (k + j) rec)
  ∧ (∀ p c, files fs' !! p = Some c →
            files fs !! p = Some c ∨ saved_by w ref c).
Proof.
  revert k fs. induction l as [|rec0 l IH]; intros k fs; cbn [enumerate_from
    for_each].
  - intros [= <-]. split; [done|]. split; [done|].
    split; [by intros j rec ?|by left].
  - destruct (save_test_record w ref sf (k, rec0) fs) as [fs1|] eqn:H1;
      [|done].
    cbn [mbind result_bind]. intros (Hd & Hframe & Hstored & Hsaved)%IH.
    split; [|split; [|split]].
    + rewrite Hd.
      by apply save_test_record_ok in H1 as (?&?&?&_&_&_&?&_).
    + intros p Hp. rewrite Hframe.
      * eapply save_test_record_frame; [done|].
        destruct Hp as [Hp|Hp]; [by left|right]. by apply Hp.
      * destruct Hp as [Hp|Hp]; [by left|right].
        intros j Hj. apply Hp. lia.
    + intros [|j] rec Hrec.
      * injection Hrec as ->. rewrite Nat.add_0_r.
        destruct (save_test_record_stored _ _ _ _ _ _ _ H1)
          as (raw & lbl & cls & ? & ? & ? & F1 & F2 & F3 & F4).
        exists raw, lbl, cls. do 3 (split; [done|]).
        rewrite !Hframe; [done|..]; right; intros j Hj [= Heq];
          apply npy_name_inj in Heq; lia.
      * replace (k + S j) with (S k + j) by lia. by apply Hstored.
    + intros p c Hc. destruct (Hsaved p c Hc) as [Hc1|?]; [|by right].
      by eapply save_test_record_saved.
Qed.

(** The loop over a combined fold whose records are numbered from [k]. *)
Lemma train_loop_ok (w : world) (ref : list ref_row) (cf : string)
    (l : list string) (k : nat) (fs fs' : filesystem) :
  for_each (save_train_record w ref cf) (enumerate_from k l) fs = Ok fs' →
  dirs fs' = dirs fs
  ∧ (∀ p, ¬ [FOLDS_DIR; cf] `prefix_of` p
          ∨ (∀ j, k ≤ j → last p ≠ Some (pretty j +:+ ".npy")) →
          files fs' !! p = files fs !! p)
  ∧ (∀ j rec, l !! j = Some rec → stored_train w ref fs' cf (k + j) rec)
  ∧ (∀ p c, files fs' !! p = Some c →
            files fs !! p = Some c ∨ saved_by w ref c).
Proof.
  revert k fs. induction l as [|rec0 l IH]; intros k fs; cbn [enumerate_from
    for_each].
  - intros [= <-]. split; [done|]. split; [done|].
    split; [by intros j rec ?|by left].
  - destruct (save_train_record w ref cf (k, rec0) fs) as [fs1|] eqn:H1;
      [|done].
    cbn [mbind result_bind]. intros (Hd & Hframe & Hstored & Hsaved)%IH.
    split; [|split; [|split]].
    + rewrite Hd.
      by apply save_train_record_ok in H1 as (?&?&_&_&?&_).
    + intros p Hp. rewrite Hframe.
      * eapply save_train_record_frame; [done|].
        destruct Hp as [Hp|Hp]; [by left|right]. by apply Hp.
      * destruct Hp as [Hp|Hp]; [by left|right].
        intros j Hj. apply Hp. lia.
    + intros [|j] rec Hrec.
      * injection Hrec as ->. rewrite Nat.add_0_r.
        destruct (save_train_record_stored _ _ _ _ _ _ _ H1)
          as (raw & lbl & ? & ? & F1 & F2).
        exists raw, lbl. do 2 (split; [done|]).
        rewrite !Hframe; [done|..]; right; intros j Hj [= Heq];
          apply npy_name_inj in Heq; lia.
      * replace (k + S j) with (S k + j) by lia. by apply Hstored.
    + intros p c Hc. destruct (Hsaved p c Hc) as [Hc1|?]; [|by right].
      by eapply save_train_record_saved.
Qed.

(** The eight directory names of the folds are pairwise different. *)
Lemma fold_names_distinct (i j : nat) :
  i < N_FOLDS → j < N_FOLDS →
  (single_name i = single_name j → i = j)
  ∧ (combined_name i = combined_name j → i = j)
  ∧ single_name i ≠ combined_name j.
Proof.
  unfold N_FOLDS. intros Hi Hj.
  destruct i as [|[|[|[|i]]]]; [| | |  |lia];
    (destruct j as [|[|[|[|j]]]]; [| | |  |lia]);
    (split; [|split]); vm_compute; congruence.
Qed.

Lemma fold_dir_prefix (d d' : string) (rest : path) :
  [FOLDS_DIR; d] `prefix_of` FOLDS_DIR :: d' :: rest → d = d'.
Proof. intros [k Hk]. by injection Hk as ->. Qed.

Lemma stored_test_frame (w : world) (ref : list ref_row)
    (fs fs' : filesystem) (sf : string) (idx : nat) (rec : string) :
  (∀ p, [FOLDS_DIR; sf] `prefix_of` p → files fs' !! p = files fs !! p) →
  stored_test w ref fs sf idx rec → stored_test w ref fs' sf idx rec.
Proof.
  intros Hframe (raw & lbl & cls & ? & ? & ? & F1 & F2 & F3 & F4).
  exists raw, lbl, cls. do 3 (split; [done|]).
  rewrite !Hframe by (by eexists). done.
Qed.

Lemma stored_train_frame (w : world) (ref : list ref_row)
    (fs fs' : filesystem) (cf : string) (idx : nat) (rec : string) :
  (∀ p, [FOLDS_DIR; cf] `prefix_of` p → files fs' !! p = files fs !! p) →
  stored_train w ref fs cf idx rec → stored_train w ref fs' cf idx rec.
Proof.
  intros Hframe (raw & lbl & ? & ? & F1 & F2).
  exists raw, lbl. do 2 (split; [done|]).
  rewrite !Hframe by (by eexists). done.
Qed.

Lemma prefix_fold_dir (d d' : string) (p : path) :
  [FOLDS_DIR; d] `prefix_of` p → [FOLDS_DIR; d'] `prefix_of` p → d = d'.
Proof. intros [k ->] Hp. symmetry. exact (fold_dir_prefix d' d k Hp). Qed.

(** One iteration of the loop over the folds. *)
Lemma save_fold_ok (w : world) (ref : list ref_row)
    (fold_records combined_records : gmap nat (list string))
    (i : nat) (fs fs' : filesystem) :
  i < N_FOLDS →
  save_fold w ref fold_records combined_records i fs = Ok fs' →
  dirs fs' = dirs fs
  ∧ (∀ p, ¬ [FOLDS_DIR; single_name i] `prefix_of` p →
          ¬ [FOLDS_DIR; combined_name i] `prefix_of` p →
          files fs' !! p = files fs !! p)
  ∧ (∀ l idx rec, fold_records !! i = Some l → l !! idx = Some rec →
       stored_test w ref fs' (single_name i) idx rec)
  ∧ (∀ l idx rec, combined_records !! i = Some l → l !! idx = Some rec →
       stored_train w ref fs' (combined_name i) idx rec)
  ∧ (∀ p c, files fs' !! p = Some c →
            files fs !! p = Some c ∨ saved_by w ref c).
Proof.
  intros Hi. unfold save_fold.
  destruct (getitem fold_records i (pretty i)) as [tl|] eqn:Htl; [|done].
  cbn [mbind result_bind].
  destruct (for_each _ (enumerate tl) fs) as [fs1|] eqn:H1; [|done].
  cbn [mbind result_bind].
  destruct (getitem combined_records i (pretty i)) as [trl|] eqn:Htrl;
    [|done].
  cbn [mbind result_bind]. intros H2.
  apply getitem_ok in Htl, Htrl.
  apply test_loop_ok in H1 as (Hd1 & Hframe1 & Hstored1 & Hsaved1).
  apply train_loop_ok in H2 as (Hd2 & Hframe2 & Hstored2 & Hsaved2).
  destruct (fold_names_distinct i i Hi Hi) as (_ & _ & Hne).
  split; [congruence|]. split; [|split; [|split]].
  - intros p Hp1 Hp2. rewrite Hframe2 by (by left). apply Hframe1. by left.
  - intros l idx rec Hl Hrec. rewrite Htl in Hl. injection Hl as <-.
    eapply stored_test_frame; [|by apply (Hstored1 idx rec)].
    intros p Hp. apply Hframe2. left. intros Hp'. apply Hne.
    by eapply prefix_fold_dir.
  - intros l idx rec Hl Hrec. rewrite Htrl in Hl. injection Hl as <-.
    by apply (Hstored2 idx rec).
  - intros p c Hc. destruct (Hsaved2 p c Hc) as [Hc1|?]; [|by right].
    by apply Hsaved1.
Qed.

(** The loop over a list of different folds. *)
Lemma save_folds_ok (w : world) (ref : list ref_row)
    (fold_records combined_records : gmap nat (list string))
    (folds : list nat) (fs fs' : filesystem) :
  NoDup folds → (∀ i, i ∈ folds → i < N_FOLDS) →
  for_each (save_fold w ref fold_records combined_records) folds fs = Ok fs' →
  dirs fs' = dirs fs
  ∧ (∀ p, (∀ i, i ∈ folds →
             ¬ [FOLDS_DIR; single_name i] `prefix_of` p
             ∧ ¬ [FOLDS_DIR; combined_name i] `prefix_of` p) →
          files fs' !! p = files fs !! p)
  ∧ (∀ i l idx rec, i ∈ folds → fold_records !! i = Some l →
       l !! idx = Some rec → stored_test w ref fs' (single_name i) idx rec)
  ∧ (∀ i l idx rec, i ∈ folds → combined_records !! i = Some l →
       l !! idx = Some rec → stored_train w ref fs' (combined_name i) idx rec)
  ∧ (∀ p c, files fs' !! p = Some c →
            files fs !! p = Some c ∨ saved_by w ref c).
Proof.
  revert fs. induction folds as [|i0 folds IH]; intros fs Hnd Hlt;
    cbn [for_each].
  - intros [= <-]. split; [done|]. split; [done|].
    split; [by intros i l idx rec ?%elem_of_nil|].
    split; [by intros i l idx rec ?%elem_of_nil|by left].
  - apply NoDup_cons in Hnd as [Hi0 Hnd].
    destruct (save_fold _ _ _ _ i0 fs) as [fs1|] eqn:H1; [|done].
    cbn [mbind result_bind]. intros H2.
    apply save_fold_ok in H1
      as (Hd1 & Hframe1 & Htest1 & Htrain1 & Hsaved1); [|apply Hlt; by left].
    apply IH in H2 as (Hd2 & Hframe2 & Htest2 & Htrain2 & Hsaved2);
      [|done|intros i Hin; apply Hlt; by right].
    assert (∀ i, i ∈ folds → i ≠ i0) as Hother by (by intros i Hin ->).
    split; [congruence|]. split; [|split; [|split]].
    + intros p Hp. rewrite Hframe2 by (intros i Hin; apply Hp; by right).
      apply Hframe1; apply Hp; by left.
    + intros i l idx rec [->|Hin]%elem_of_cons Hl Hrec;
        [|by eapply Htest2].
      eapply stored_test_frame; [|by eapply Htest1].
      intros p Hp. apply Hframe2. intros i Hin.
      destruct (fold_names_distinct i i0) as (Hs & _ & Hsc);
        [apply Hlt; by right|apply Hlt; by left|].
      destruct (fold_names_distinct i0 i) as (_ & _ & Hsc');
        [apply Hlt; by left|apply Hlt; by right|].
      split; intros Hp'.
      * apply (Hother i Hin), Hs. by eapply prefix_fold_dir.
      * apply Hsc'. by eapply prefix_fold_dir.
    + intros i l idx rec [->|Hin]%elem_of_cons Hl Hrec;
        [|by eapply Htrain2].
      eapply stored_train_frame; [|by eapply Htrain1].
      intros p Hp. apply Hframe2. intros i Hin.
      destruct (fold_names_distinct i i0) as (_ & Hc & Hsc);
        [apply Hlt; by right|apply Hlt; by left|].
      split; intros Hp'.
      * apply Hsc. by eapply prefix_fold_dir.
      * apply (Hother i Hin), Hc. by eapply prefix_fold_dir.
    + intros p c Hc. destruct (Hsaved2 p c Hc) as [Hc1|?]; [|by right].
      by apply Hsaved1.
Qed.

End Writer.

Section Main.

Context `{!Externals}.

(** The steps of a run of [main] that returns. *)
Lemma main_inv (w : world) (fs fs' : filesystem) :
  main w fs = Ok fs' →
  ∃ fs0 p fs1,
    main_reset fs = Ok fs0 ∧ main_plan w = Ok p ∧ make_dirs fs0 = Ok fs1
    ∧ for_each
        (save_fold w (plan_ref p) (plan_fold_records p)
           (plan_combined_records p))
        (seq 0 N_FOLDS) fs1 = Ok fs'.
Proof.
  unfold main. destruct (main_reset fs) as [fs0|] eqn:H0; [|done].
  cbn [mbind result_bind]. destruct (main_plan w) as [p|] eqn:Hp; [|done].
  cbn [mbind result_bind].
  destruct (make_dirs fs0) as [fs1|] eqn:H1; [|done].
  cbn [mbind result_bind]. intros Hrun. by exists fs0, p, fs1.
Qed.

Lemma plan_fold_records_key (w : world) (p : plan) (i : nat)
    (l : list string) :
  main_plan w = Ok p → plan_fold_records p !! i = Some l →
  i ∈ seq 0 N_FOLDS
  ∧ l = filter (λ r, plan_fold_map p !! r = Some i) (plan_recs p).
Proof.
  intros (_ & _ & _ & Hfr & _)%main_plan_inv Hl. rewrite Hfr in Hl.
  destruct (decide (i < N_FOLDS)); [|done]. injection Hl as <-.
  split; [|done]. apply elem_of_seq. lia.
Qed.

Lemma plan_combined_records_key (w : world) (p : plan) (i : nat)
    (l : list string) :
  main_plan w = Ok p → plan_combined_records p !! i = Some l →
  i ∈ seq 0 N_FOLDS
  ∧ l = filter (λ r, plan_fold_map p !! r ≠ Some i) (plan_recs p).
Proof.
  intros (_ & _ & _ & _ & Hcr)%main_plan_inv Hl. rewrite Hcr in Hl.
  destruct (decide (i < N_FOLDS)); [|done]. injection Hl as <-.
  split; [|done]. apply elem_of_seq. lia.
Qed.

(** When [main] returns, every record of every fold list is stored under its
    index in the list. *)
Lemma main_stored (w : world) (fs fs' : filesystem) :
  main w fs = Ok fs' →
  ∃ p, main_plan w = Ok p
    ∧ (∀ i l idx rec, plan_fold_records p !! i = Some l →
         l !! idx = Some rec →
         stored_test w (plan_ref p) fs' (single_name i) idx rec)
    ∧ (∀ i l idx rec, plan_combined_records p !! i = Some l →
         l !! idx = Some rec →
         stored_train w (plan_ref p) fs' (combined_name i) idx rec).
Proof.
  intros (fs0 & p & fs1 & _ & Hp & _ & Hrun)%main_inv.
  exists p. split; [done|].
  apply save_folds_ok in Hrun as (_ & _ & Htest & Htrain & _);
    [|apply NoDup_seq|intros i Hi%elem_of_seq; lia].
  split.
  - intros i l idx rec Hl Hrec. eapply Htest; [|done..].
    by destruct (plan_fold_records_key w p i l Hp Hl).
  - intros i l idx rec Hl Hrec. eapply Htrain; [|done..].
    by destruct (plan_combined_records_key w p i l Hp Hl).
Qed.

(** When [main] returns from a well-formed file system, the directories of
    the tree are those of [spec_tree], and every file of the tree holds a
    value saved by this run. *)
Lemma main_tree (w : world) (fs fs' : filesystem) :
  fs_wf fs → main w fs = Ok fs' →
  ∃ fs0 p,
    main_reset fs = Ok fs0 ∧ main_plan w = Ok p
    ∧ dirs fs' = dirs fs0 ∪ list_to_set spec_tree
    ∧ (∀ q, under_folds q → q ∉ dirs fs0)
    ∧ (∀ q c, under_folds q → files fs' !! q = Some c →
              saved_by w (plan_ref p) c).
Proof.
  intros Hwf (fs0 & p & fs1 & Hreset & Hp & Hdirs & Hrun)%main_inv.
  destruct (main_reset_ok fs fs0 Hwf Hreset) as (Hwf0 & Hno & _).
  rewrite (make_dirs_exact fs0 Hwf0 Hno) in Hdirs. injection Hdirs as <-.
  apply save_folds_ok in Hrun as (Hd & _ & _ & _ & Hsaved);
    [|apply NoDup_seq|intros i Hi%elem_of_seq; lia].
  exists fs0, p. do 2 (split; [done|]). split; [done|].
  split; [by intros q Hq; apply Hno|].
  intros q c Hq Hc. destruct (Hsaved q c Hc) as [Hold|?]; [|done].
  simpl in Hold. destruct (Hno q Hq) as [_ Hnone]. congruence.
Qed.

Lemma for_each_fixed {A S} (body : A → S → result S) (l : list A) (s : S) :
  (∀ x, x ∈ l → body x s = Ok s) → for_each body l s = Ok s.
Proof.
  induction l as [|x l IH]; intros Hbody; [done|].
  cbn [for_each]. rewrite Hbody by (by left). cbn [mbind result_bind].
  apply IH. intros y Hy. apply Hbody. by right.
Qed.

(** Every directory of the tree lies in the root or in a directory of the
    tree. *)
Lemma spec_tree_parent (q : path) :
  q ∈ spec_tree → q ≠ [] ∧ (parent q = [] ∨ parent q ∈ spec_tree).
Proof.
  intros Hq.
  assert (Forall (λ q, q ≠ [] ∧ (parent q = [] ∨ parent q ∈ spec_tree))
            spec_tree) as Hall
    by (apply (bool_decide_unpack _); vm_compute; exact I).
  by eapply Forall_forall in Hall.
Qed.

Lemma spec_dirs_tree (q : path) : q ∈ spec_dirs → q ∈ spec_tree.
Proof.
  intros Hq. unfold spec_tree. rewrite !elem_of_app. by right; right; right.
Qed.

(** C6. A run that returns has destroyed the earlier output tree and built
    a new one: the directories inside [folds] are exactly those of the
    specification ([fold0] to [fold3] and [fold123], [fold023], [fold013],
    [fold012], each with [data] and [label], and [AF], [normal] and [other]
    with [data] and [label] inside each test fold), and the files inside it
    are files of this run.  Asking again for any of these directories, or
    for all of them, returns without an error and changes nothing. *)
Theorem output_tree_rebuilt (w : world) (fs fs' : filesystem) :
  fs_wf fs → main w fs = Ok fs' →
  (∀ q, under_folds q → q ∈ dirs fs' ↔ q ∈ spec_tree)
  ∧ (∀ q, q ∈ spec_dirs → q ∈ dirs fs')
  ∧ (∀ q c, under_folds q → files fs' !! q = Some c →
       ∃ p, main_plan w = Ok p ∧ saved_by w (plan_ref p) c)
  ∧ make_dirs_paths = spec_dirs
  ∧ single_name <$> seq 0 N_FOLDS = spec_singles
  ∧ combined_name <$> seq 0 N_FOLDS = spec_combined
  ∧ (∀ q, q ∈ make_dirs_paths → makedirs q true fs' = Ok fs')
  ∧ make_dirs fs' = Ok fs'.
Proof.
  intros Hwf Hrun.
  destruct (main_tree w fs fs' Hwf Hrun)
    as (fs0 & p & Hreset & Hp & Hdirs & Hno & Hsaved).
  assert (∀ q, q ∈ spec_tree → q ∈ dirs fs') as Htree.
  { intros q Hq. rewrite Hdirs. apply elem_of_union. right.
    by apply elem_of_list_to_set. }
  assert (∀ q, q ∈ make_dirs_paths → makedirs q true fs' = Ok fs') as Hidem.
  { intros q Hq%spec_dirs_tree.
    destruct (spec_tree_parent q Hq) as [Hne Hpar].
    rewrite (makedirs_exists q true fs' Hne); [done|by apply Htree|].
    unfold fs_exists. destruct Hpar as [->|Hpar]; [done|].
    apply orb_true_iff. left. apply orb_true_iff. right.
    apply isdir_true. by apply Htree. }
  split; [|split; [|split; [|split; [|split; [|split; [|split]]]]]].
  - intros q Hq. rewrite Hdirs, elem_of_union, elem_of_list_to_set.
    split; [|by right]. intros [Hin|Hin]; [|done]. by destruct (Hno q Hq).
  - intros q Hq. by apply Htree, spec_dirs_tree.
  - intros q c Hq Hc. exists p. split; [done|]. by eapply Hsaved.
  - reflexivity.
  - reflexivity.
  - reflexivity.
  - exact Hidem.
  - rewrite make_dirs_flat. by apply for_each_fixed.
Qed.

(** C5. When [main] returns, every record of every fold list is stored under
    its position in the list, counted from 0: in a test fold [i] the
    processed waveform is in [fold{i}/data/{idx}.npy], the label in
    [fold{i}/label/{idx}.npy], and the directory of the record's class holds
    the same two values under the same file name; in a combined fold the two
    files are in its [data] and [label] directories. *)
Theorem writer_layout (w : world) (fs fs' : filesystem) :
  main w fs = Ok fs' →
  ∃ p, main_plan w = Ok p
    ∧ (∀ i l idx rec, plan_fold_records p !! i = Some l →
         l !! idx = Some rec →
         stored_test w (plan_ref p) fs' (single_name i) idx rec
         ∧ ∃ cls,
             (lbl ← lookup_label (plan_ref p) rec;
              getitem class_names lbl (pretty lbl)) = Ok cls
             ∧ files fs' !! [FOLDS_DIR; single_name i; cls; "data";
                             pretty idx +:+ ".npy"]
               = files fs' !! [FOLDS_DIR; single_name i; "data";
                               pretty idx +:+ ".npy"]
             ∧ files fs' !! [FOLDS_DIR; single_name i; cls; "label";
                             pretty idx +:+ ".npy"]
               = files fs' !! [FOLDS_DIR; single_name i; "label";
                               pretty idx +:+ ".npy"])
    ∧ (∀ i l idx rec, plan_combined_records p !! i = Some l →
         l !! idx = Some rec →
         stored_train w (plan_ref p) fs' (combined_name i) idx rec).
Proof.
  intros (p & Hp & Htest & Htrain)%main_stored.
  exists p. split; [done|]. split; [|done].
  intros i l idx rec Hl Hrec. pose proof (Htest i l idx rec Hl Hrec) as Hst.
  split; [done|].
  destruct Hst as (raw & lbl & cls & _ & Hlbl & Hcls & F1 & F2 & F3 & F4).
  exists cls. rewrite Hlbl. cbn [mbind result_bind].
  split; [by apply getitem_Some|]. split; congruence.
Qed.

(** C8. When [main] returns, the waveform stored for a record, in its test
    fold and in every combined fold that holds it, is
    [normalization_processing] of [signal_processing] of the array that
    [load_ecg] returns for the record; and no other array is stored in the
    tree. *)
Theorem stored_waveform_pipeline (w : world) (fs fs' : filesystem) :
  fs_wf fs → main w fs = Ok fs' →
  ∃ p, main_plan w = Ok p
    ∧ (∀ rec, rec ∈ plan_recs p →
         ∃ raw, load_ecg w rec = Ok raw
           ∧ (∃ (i idx : nat), plan_fold_map p !! rec = Some i
                ∧ files fs' !! [FOLDS_DIR; single_name i; "data";
                                pretty idx +:+ ".npy"]
                  = Some (NpyArray
                            (normalization_processing
                               (signal_processing raw))))
           ∧ (∀ j, j < N_FOLDS → plan_fold_map p !! rec ≠ Some j →
                ∃ idx : nat,
                  files fs' !! [FOLDS_DIR; combined_name j; "data";
                                pretty idx +:+ ".npy"]
                  = Some (NpyArray
                            (normalization_processing
                               (signal_processing raw)))))
    ∧ (∀ q a, under_folds q → files fs' !! q = Some (NpyArray a) →
         ∃ rec raw, load_ecg w rec = Ok raw
           ∧ a = normalization_processing (signal_processing raw)).
Proof.
  intros Hwf Hrun.
  destruct (main_stored w fs fs' Hrun) as (p & Hp & Htest & Htrain).
  destruct (main_tree w fs fs' Hwf Hrun)
    as (fs0 & p' & _ & Hp' & _ & _ & Hsaved).
  rewrite Hp in Hp'. injection Hp' as <-.
  destruct (main_plan_inv w p Hp) as (_ & _ & Hkeys & Hfr & Hcr).
  exists p. split; [done|]. split.
  - intros rec Hrec. destruct (Hkeys rec Hrec) as (i & Hi & Hfm).
    assert (rec ∈ filter (λ r, plan_fold_map p !! r = Some i) (plan_recs p))
      as [idx Hidx]%list_elem_of_lookup by (by apply list_elem_of_filter).
    edestruct (Htest i) as (raw & lbl & cls & Hraw & _ & _ & F1 & _);
      [by rewrite Hfr, decide_True|exact Hidx|].
    exists raw. split; [done|]. split; [by exists i, idx|].
    intros j Hj Hne.
    assert (rec ∈ filter (λ r, plan_fold_map p !! r ≠ Some j) (plan_recs p))
      as [idx' Hidx']%list_elem_of_lookup by (by apply list_elem_of_filter).
    edestruct (Htrain j) as (raw' & lbl' & Hraw' & _ & F1' & _);
      [by rewrite Hcr, decide_True|exact Hidx'|].
    exists idx'. rewrite Hraw in Hraw'. by injection Hraw' as <-.
  - intros q a Hq Ha.
    destruct (Hsaved q _ Hq Ha) as (rec & raw & lbl & Hraw & _ & [Hc|Hc]);
      [|done].
    injection Hc as ->. by exists rec, raw.
Qed.

(** C10. The label lookup of the writer returns a label exactly when the
    record identifier selects one row of the filtered table, and then it is
    the integer label of that row; so [main] returns only if no record
    identifier is repeated in the filtered table. *)
Theorem label_lookup_needs_unique_records (w : world) (fs fs' : filesystem) :
  main w fs = Ok fs' →
  (∀ ref rec lbl,
     lookup_label ref rec = Ok lbl ↔
     ∃ r, filter (λ row, record row = rec) ref = [r] ∧ int_label r = Some lbl)
  ∧ ∃ p, main_plan w = Ok p
      ∧ plan_recs p = record <$> plan_ref p
      ∧ NoDup (plan_recs p)
      ∧ ∀ rec, rec ∈ plan_recs p →
          ∃ r lbl, filter (λ row, record row = rec) (plan_ref p) = [r]
                   ∧ int_label r = Some lbl
                   ∧ lookup_label (plan_ref p) rec = Ok lbl.
Proof.
  intros (p & Hp & Htest & _)%main_stored.
  split; [apply lookup_label_ok|].
  destruct (main_plan_inv w p Hp) as (_ & Hrecs & Hkeys & Hfr & _).
  exists p. split; [done|]. split; [done|].
  assert (∀ rec, rec ∈ plan_recs p →
            ∃ r lbl, filter (λ row, record row = rec) (plan_ref p) = [r]
                     ∧ int_label r = Some lbl
                     ∧ lookup_label (plan_ref p) rec = Ok lbl) as Hone.
  { intros rec Hrec. destruct (Hkeys rec Hrec) as (i & Hi & Hfm).
    assert (rec ∈ filter (λ r, plan_fold_map p !! r = Some i) (plan_recs p))
      as [idx Hidx]%list_elem_of_lookup by (by apply list_elem_of_filter).
    edestruct (Htest i) as (raw & lbl & cls & _ & Hlbl & _);
      [by rewrite Hfr, decide_True|exact Hidx|].
    pose proof Hlbl as (r & Hf & Hr)%lookup_label_ok. by exists r, lbl. }
  split; [|exact Hone].
  rewrite Hrecs. apply unique_rows_NoDup. intros rec Hrec.
  rewrite <- Hrecs in Hrec.
  destruct (Hone rec Hrec) as (r & lbl & -> & _). done.
Qed.

End Main.

Lemma example_wf : fs_wf Example.stale.
Proof.
  unfold fs_wf. apply (bool_decide_unpack _). vm_compute. exact I.
Qed.

Lemma example_run_ok : is_ok (main Example.study Example.stale) = true.
Proof. vm_compute. reflexivity. Qed.

Lemma example_run : main Example.study Example.stale = Ok Example.rebuilt.
Proof. exact (is_ok_value _ _ example_run_ok). Qed.

(** A table in which a record identifier is repeated stops the run at the
    first label lookup for that record. *)
Lemma example_repeated_record_raises :
  main Example.study_repeated Example.stale
  = Raise (TypeError "cannot convert the series to <class 'int'>").
Proof. vm_compute. reflexivity. Qed.

Lemma output_tree_rebuilt_witness :
  (∀ q, under_folds q → q ∈ dirs Example.rebuilt ↔ q ∈ spec_tree)
  ∧ (∀ q, q ∈ spec_dirs → q ∈ dirs Example.rebuilt)
  ∧ (∀ q c, under_folds q → files Example.rebuilt !! q = Some c →
       ∃ p, main_plan Example.study = Ok p
            ∧ saved_by Example.study (plan_ref p) c)
  ∧ make_dirs_paths = spec_dirs
  ∧ single_name <$> seq 0 N_FOLDS = spec_singles
  ∧ combined_name <$> seq 0 N_FOLDS = spec_combined
  ∧ (∀ q, q ∈ make_dirs_paths →
       makedirs q true Example.rebuilt = Ok Example.rebuilt)
  ∧ make_dirs Example.rebuilt = Ok Example.rebuilt.
Proof.
  exact (output_tree_rebuilt Example.study Example.stale Example.rebuilt
           example_wf example_run).
Defined.

Lemma writer_layout_witness :
  ∃ p, main_plan Example.study = Ok p
    ∧ (∀ i l idx rec, plan_fold_records p !! i = Some l →
         l !! idx = Some rec →
         stored_test Example.study (plan_ref p) Example.rebuilt
           (single_name i) idx rec
         ∧ ∃ cls,
             (lbl ← lookup_label (plan_ref p) rec;
              getitem class_names lbl (pretty lbl)) = Ok cls
             ∧ files Example.rebuilt !! [FOLDS_DIR; single_name i; cls;
                                         "data"; pretty idx +:+ ".npy"]
               = files Example.rebuilt !! [FOLDS_DIR; single_name i; "data";
                                           pretty idx +:+ ".npy"]
             ∧ files Example.rebuilt !! [FOLDS_DIR; single_name i; cls;
                                         "label"; pretty idx +:+ ".npy"]
               = files Example.rebuilt !! [FOLDS_DIR; single_name i; "label";
                                           pretty idx +:+ ".npy"])
    ∧ (∀ i l idx rec, plan_combined_records p !! i = Some l →
         l !! idx = Some rec →
         stored_train Example.study (plan_ref p) Example.rebuilt
           (combined_name i) idx rec).
Proof.
  exact (writer_layout Example.study Example.stale Example.rebuilt
           example_run).
Defined.

Lemma stored_waveform_pipeline_witness :
  ∃ p, main_plan Example.study = Ok p
    ∧ (∀ rec, rec ∈ plan_recs p →
         ∃ raw, load_ecg Example.study rec = Ok raw
           ∧ (∃ (i idx : nat), plan_fold_map p !! rec = Some i
                ∧ files Example.rebuilt !! [FOLDS_DIR; single_name i; "data";
                                            pretty idx +:+ ".npy"]
                  = Some (NpyArray
                            (normalization_processing
                               (signal_processing raw))))
           ∧ (∀ j, j < N_FOLDS → plan_fold_map p !! rec ≠ Some j →
                ∃ idx : nat,
                  files Example.rebuilt !! [FOLDS_DIR; combined_name j;
                                            "data"; pretty idx +:+ ".npy"]
                  = Some (NpyArray
                            (normalization_processing
                               (signal_processing raw)))))
    ∧ (∀ q a, under_folds q →
         files Example.rebuilt !! q = Some (NpyArray a) →
         ∃ rec raw, load_ecg Example.study rec = Ok raw
           ∧ a = normalization_processing (signal_processing raw)).
Proof.
  exact (stored_waveform_pipeline Example.study Example.stale Example.rebuilt
           example_wf example_run).
Defined.

Lemma label_lookup_needs_unique_records_witness :
  (∀ (ref : list ref_row) rec lbl,
     lookup_label ref rec = Ok lbl ↔
     ∃ r, filter (λ row, record row = rec) ref = [r] ∧ int_label r = Some lbl)
  ∧ ∃ p, main_plan Example.study = Ok p
      ∧ plan_recs p = record <$> plan_ref p
      ∧ NoDup (plan_recs p)
      ∧ ∀ rec, rec ∈ plan_recs p →
          ∃ r lbl, filter (λ row, record row = rec) (plan_ref p) = [r]
                   ∧ int_label r = Some lbl
                   ∧ lookup_label (plan_ref p) rec = Ok lbl.
Proof.
  exact (label_lookup_needs_unique_records Example.study Example.stale
           Example.rebuilt example_run).
Defined.

(** * Further properties of the code *)

Lemma cases_study_plan : main_plan Example.study = Ok Cases.study_plan.
Proof. apply is_ok_value. vm_compute. reflexivity. Qed.

Section FoldLists.

Context `{!Externals}.

(** X1. For every fold index the test list and the combined list split the
    records of the table: both keep the order of the table, no record is
    in both, and together they are a rearrangement of all records, so
    their lengths add up to the number of records. *)
Theorem fold_lists_complement (w : world) (p : plan) (i : nat) :
  main_plan w = Ok p → i < N_FOLDS →
  ∃ test train,
    plan_fold_records p !! i = Some test
    ∧ plan_combined_records p !! i = Some train
    ∧ test `sublist_of` plan_recs p
    ∧ train `sublist_of` plan_recs p
    ∧ (∀ r, r ∈ test → r ∉ train)
    ∧ test ++ train ≡ₚ plan_recs p
    ∧ length test + length train = length (plan_recs p).
Proof.
  intros (_ & _ & _ & Hfr & Hcr)%main_plan_inv Hi.
  eexists _, _. split; [by rewrite Hfr, decide_True|].
  split; [by rewrite Hcr, decide_True|].
  split; [apply sublist_filter|]. split; [apply sublist_filter|].
  split.
  { intros r [Hr _]%list_elem_of_filter [Hr' _]%list_elem_of_filter. done. }
  assert (filter (λ r, plan_fold_map p !! r = Some i) (plan_recs p)
          ++ filter (λ r, plan_fold_map p !! r ≠ Some i) (plan_recs p)
          ≡ₚ plan_recs p) as Hperm.
  { apply (filter_app_complement (λ r, plan_fold_map p !! r = Some i)). }
  split; [done|]. by rewrite <- length_app, Hperm.
Qed.

End FoldLists.

Lemma fold_lists_complement_witness :
  ∃ test train,
    plan_fold_records Cases.study_plan !! 2 = Some test
    ∧ plan_combined_records Cases.study_plan !! 2 = Some train
    ∧ test `sublist_of` plan_recs Cases.study_plan
    ∧ train `sublist_of` plan_recs Cases.study_plan
    ∧ (∀ r, r ∈ test → r ∉ train)
    ∧ test ++ train ≡ₚ plan_recs Cases.study_plan
    ∧ length test + length train = length (plan_recs Cases.study_plan).
Proof.
  apply (fold_lists_complement Example.study Cases.study_plan 2
           cases_study_plan).
  unfold N_FOLDS. lia.
Defined.

Section Edges.

Context `{!Externals}.

Lemma not_under_folds_dir (p : path) (d : string) :
  ¬ under_folds p → ¬ [FOLDS_DIR; d] `prefix_of` p.
Proof. intros Hn [k ->]. apply Hn. by exists (d :: k). Qed.

(** X2. A run that returns has changed nothing outside the output tree:
    every path that does not start with [folds] is a directory afterwards
    exactly if it was one before, and holds the file it held before. *)
Theorem main_outside_untouched (w : world) (fs fs' : filesystem) (q : path) :
  fs_wf fs → main w fs = Ok fs' → ¬ under_folds q →
  (q ∈ dirs fs' ↔ q ∈ dirs fs) ∧ files fs' !! q = files fs !! q.
Proof.
  intros Hwf (fs0 & p & fs1 & Hreset & Hp & Hdirs & Hrun)%main_inv Hq.
  destruct (main_reset_ok fs fs0 Hwf Hreset) as (Hwf0 & Hno & Hout).
  rewrite (make_dirs_exact fs0 Hwf0 Hno) in Hdirs. injection Hdirs as <-.
  apply save_folds_ok in Hrun as (Hd & Hframe & _);
    [|apply NoDup_seq|intros i Hi%elem_of_seq; lia].
  destruct (Hout q Hq) as [Hqd Hqf]. split.
  - rewrite Hd. cbn [dirs add_dirs]. rewrite elem_of_union, Hqd.
    rewrite elem_of_list_to_set. split; [|by left].
    intros [?|Hin]; [done|]. by apply spec_tree_under_folds in Hin.
  - rewrite Hframe; [done|]. intros i _. split; by apply not_under_folds_dir.
Qed.


(** X4. A regular file named [folds] is not replaced: the run stops at once
    with a [NotADirectoryError] for it. *)
Theorem main_blocked_by_file (w : world) (fs : filesystem) :
  isfile fs [FOLDS_DIR] = true → isdir fs [FOLDS_DIR] = false →
  main w fs = Raise (NotADirectoryError FOLDS_DIR).
Proof.
  intros Hf Hd. unfold main, main_reset, fs_exists, rmtree.
  rewrite Hf, Hd. by rewrite orb_true_r.
Qed.

(** X5. For a MATLAB variable [val] stored as one row of [n] samples,
    [load_ecg] returns the samples, converted, as a one-dimensional array of
    length [n]; a single sample comes back as an array without axes. *)
Theorem load_ecg_row_vector (w : world) (rec : string)
    (m : gmap string (ndarray sample)) (v : ndarray sample) (n : nat) :
  path_exists w [MAT_DIR; rec +:+ ".mat"] = true →
  loadmat w [MAT_DIR; rec +:+ ".mat"] = Ok m →
  m !! "val" = Some v → shape v = [1; n] →
  load_ecg w rec
  = Ok (NdArray (if decide (n = 1) then [] else [n]) (to_float32 <$> data v)).
Proof.
  intros Hex Hm Hv Hshape. unfold load_ecg, os_path_join.
  rewrite Hex, Hm. cbn [mbind result_bind]. rewrite Hv.
  cbn [mbind result_bind]. unfold astype, squeeze. cbn [shape data].
  rewrite Hshape. rewrite filter_cons_False by (by intros ?).
  destruct (decide (n = 1)) as [->|Hn].
  - by rewrite filter_cons_False by (by intros ?).
  - by rewrite filter_cons_True.
Qed.

End Edges.

Lemma cases_home_wf : fs_wf Cases.home.
Proof. unfold fs_wf. apply (bool_decide_unpack _). vm_compute. exact I. Qed.

Lemma cases_home_run_ok : is_ok (main Example.study Cases.home) = true.
Proof. vm_compute. reflexivity. Qed.

Lemma cases_home_run : main Example.study Cases.home = Ok Cases.rebuilt_home.
Proof. exact (is_ok_value _ _ cases_home_run_ok). Qed.

Lemma main_outside_untouched_witness :
  (["home"; "notes.txt"] ∈ dirs Cases.rebuilt_home
   ↔ ["home"; "notes.txt"] ∈ dirs Cases.home)
  ∧ files Cases.rebuilt_home !! ["home"; "notes.txt"]
    = files Cases.home !! ["home"; "notes.txt"].
Proof.
  apply (main_outside_untouched Example.study Cases.home Cases.rebuilt_home
           ["home"; "notes.txt"] cases_home_wf cases_home_run).
  intros [k Hk]. discriminate Hk.
Defined.


Lemma main_blocked_by_file_witness :
  main Example.study Cases.blocked = Raise (NotADirectoryError FOLDS_DIR).
Proof.
  apply (main_blocked_by_file Example.study Cases.blocked);
    vm_compute; reflexivity.
Defined.

Lemma load_ecg_row_vector_witness :
  load_ecg (H := Example.ext)
    (Example.one_record true false
       (Example.mat_of "val" Example.row_vector) Example.two_channels) "A1"
  = Ok (NdArray (if decide (3 = 1) then [] else [3])
          (to_float32 (Externals := Example.ext) <$> data Example.row_vector)).
Proof.
  exact (load_ecg_row_vector (H := Example.ext)
           (Example.one_record true false
              (Example.mat_of "val" Example.row_vector) Example.two_channels)
           "A1" _ Example.row_vector 3 eq_refl eq_refl eq_refl eq_refl).
Defined.

Section DirectoryBuilder.

Context `{!Externals}.

(** X6. On a well-formed file system where no path of the tree is a regular
    file, [make_dirs] returns: afterwards the directories are those that
    were there and those of the tree, and no file has changed; what the
    tree already held is kept. *)
Theorem make_dirs_completes_tree (fs : filesystem) :
  fs_wf fs → (∀ q, q ∈ spec_tree → files fs !! q = None) →
  ∃ fs', make_dirs fs = Ok fs' ∧ files fs' = files fs
         ∧ ∀ q, q ∈ dirs fs' ↔ q ∈ dirs fs ∨ q ∈ spec_tree.
Proof.
  intros Hwf Hfree. rewrite make_dirs_flat, make_dirs_paths_spec.
  rewrite makedirs_all_exact; [|exact Hwf|].
  - eexists. split; [done|]. split; [done|]. intros q.
    cbn [dirs add_dirs]. rewrite elem_of_union, elem_of_list_to_set.
    by rewrite spec_tree_prefixes.
  - intros p Hp. split.
    + intros ->. revert Hp. by apply (bool_decide_unpack _).
    + intros q Hq. apply Hfree, spec_tree_prefixes.
      apply list_elem_of_bind. by exists p.
Qed.

Lemma makedirs_rev_cons (exist_ok : bool) (tail : string)
    (rhead : list string) (fs : filesystem) :
  makedirs_rev exist_ok (tail :: rhead) fs
  = fs1 ← (if bool_decide (reverse rhead ≠ [])
              && negb (fs_exists fs (reverse rhead))
           then match makedirs_rev exist_ok rhead fs with
                | Raise (FileExistsError _) => Ok fs
                | r => r
                end
           else Ok fs);
    match mkdir (reverse (tail :: rhead)) fs1 with
    | Ok fs' => Ok fs'
    | Raise e =>
        if negb exist_ok || negb (isdir fs1 (reverse (tail :: rhead)))
        then Raise e else Ok fs1
    end.
Proof. reflexivity. Qed.

(** X7. When [folds] is a regular file, [make_dirs] raises at its first
    directory: [fold0] cannot be created inside a file. *)
Theorem make_dirs_blocked_by_file (fs : filesystem) :
  fs_wf fs → isfile fs [FOLDS_DIR] = true → isdir fs [FOLDS_DIR] = false →
  make_dirs fs
  = Raise (NotADirectoryError (path_str os_sep [FOLDS_DIR; "fold0"])).
Proof.
  intros Hwf Hfile Hdir. rewrite make_dirs_flat, make_dirs_paths_spec.
  assert (spec_dirs = [FOLDS_DIR; "fold0"; "data"] :: tail spec_dirs) as ->
    by reflexivity.
  cbn [for_each].
  assert (makedirs [FOLDS_DIR; "fold0"; "data"] true fs
          = Raise (NotADirectoryError (path_str os_sep [FOLDS_DIR; "fold0"])))
    as ->; [|done].
  apply isdir_false in Hdir.
  assert ([FOLDS_DIR; "fold0"] ∉ dirs fs) as Hd0.
  { intros Hin. destruct (fs_wf_dir_parent fs _ Hwf Hin) as [Hp|Hp]; [|done].
    by apply Hdir. }
  assert (files fs !! [FOLDS_DIR; "fold0"] = None) as Hf0.
  { destruct (files fs !! [FOLDS_DIR; "fold0"]) as [c|] eqn:Hc; [|done].
    destruct (fs_wf_file_parent fs _ c Hwf Hc) as [Hp|Hp]; [|done].
    by destruct Hdir. }
  assert (fs_exists fs [FOLDS_DIR; "fold0"] = false) as Hex0.
  { unfold fs_exists. rewrite (proj2 (isdir_false _ _) Hd0).
    by rewrite (proj2 (isfile_false _ _) Hf0). }
  assert (fs_exists fs [FOLDS_DIR] = true) as Hex.
  { unfold fs_exists. rewrite Hfile. by rewrite orb_true_r. }
  assert (makedirs_rev true ["fold0"; FOLDS_DIR] fs
          = Raise (NotADirectoryError (path_str os_sep [FOLDS_DIR; "fold0"])))
    as Hrec.
  { rewrite makedirs_rev_cons.
    change (reverse [FOLDS_DIR]) with [FOLDS_DIR].
    change (reverse ["fold0"; FOLDS_DIR]) with [FOLDS_DIR; "fold0"].
    rewrite Hex. rewrite andb_false_r. cbn [mbind result_bind].
    unfold mkdir. rewrite Hex0.
    change (parent [FOLDS_DIR; "fold0"]) with [FOLDS_DIR]. rewrite Hfile.
    by rewrite (proj2 (isdir_false _ _) Hd0). }
  unfold makedirs.
  change (reverse [FOLDS_DIR; "fold0"; "data"])
    with ["data"; "fold0"; FOLDS_DIR].
  rewrite makedirs_rev_cons.
  change (reverse ["fold0"; FOLDS_DIR]) with [FOLDS_DIR; "fold0"].
  rewrite Hex0, Hrec. by rewrite bool_decide_eq_true_2.
Qed.

End DirectoryBuilder.

Lemma cases_partial_wf : fs_wf Cases.partial.
Proof. unfold fs_wf. apply (bool_decide_unpack _). vm_compute. exact I. Qed.

Lemma make_dirs_completes_tree_witness :
  ∃ fs', make_dirs Cases.partial = Ok fs' ∧ files fs' = files Cases.partial
         ∧ ∀ q, q ∈ dirs fs' ↔ q ∈ dirs Cases.partial ∨ q ∈ spec_tree.
Proof.
  apply (make_dirs_completes_tree Cases.partial cases_partial_wf).
  intros q Hq.
  assert (Forall (λ q, files Cases.partial !! q = None) spec_tree) as Hall
    by (apply (bool_decide_unpack _); vm_compute; exact I).
  by eapply Forall_forall in Hall.
Defined.

Lemma cases_blocked_wf : fs_wf Cases.blocked.
Proof. unfold fs_wf. apply (bool_decide_unpack _). vm_compute. exact I. Qed.

Lemma make_dirs_blocked_by_file_witness :
  make_dirs Cases.blocked
  = Raise (NotADirectoryError
             (path_str (os_sep (Externals := Example.ext))
                [FOLDS_DIR; "fold0"])).
Proof.
  apply (make_dirs_blocked_by_file Cases.blocked cases_blocked_wf);
    vm_compute; reflexivity.
Defined.

Section WellFormed.

Context `{!Externals}.

Lemma add_dirs_spec_tree_wf (fs : filesystem) :
  fs_wf fs → fs_wf (add_dirs spec_tree fs).
Proof.
  intros Hwf. pose proof Hwf as (Hwd & Hwfl & Hnil).
  split; [|split]; cbn [dirs files add_dirs]; [| |done].
  - intros q [Hq|Hq]%elem_of_union.
    + destruct (fs_wf_dir_parent fs q Hwf Hq) as [Hpar|Hpar]; [left|by right].
      apply isdir_true. cbn [dirs add_dirs]. apply elem_of_union. by left.
    + apply elem_of_list_to_set in Hq.
      destruct (spec_tree_parent q Hq) as [_ [Hpar|Hpar]]; [by right|left].
      apply isdir_true. cbn [dirs add_dirs]. apply elem_of_union. right.
      by apply elem_of_list_to_set.
  - intros q c Hq.
    destruct (fs_wf_file_parent fs q c Hwf Hq) as [Hpar|Hpar];
      [left|by right].
    apply isdir_true. cbn [dirs add_dirs]. apply elem_of_union. by left.
Qed.

(** [np.save] keeps a file system well formed: it only writes into a
    directory that is there. *)
Lemma np_save_wf (file : path) (value : content) (fs fs' : filesystem) :
  file ≠ [] → fs_wf fs → np_save file value fs = Ok fs' → fs_wf fs'.
Proof.
  intros Hne (Hwd & Hwfl & Hnil). unfold np_save.
  destruct (isdir fs file); [done|].
  destruct (isdir fs (parent file) || bool_decide (parent file = []))
    eqn:Hpar; [|done].
  intros [= <-]. split; [|split]; cbn [dirs files].
  - exact Hwd.
  - apply map_Forall_insert_2; [|exact Hwfl].
    apply orb_true_iff in Hpar as [Hpar|Hpar]; [by left|right].
    by apply bool_decide_eq_true in Hpar.
  - by rewrite lookup_insert_ne.
Qed.

Lemma save_test_record_wf (w : world) (ref : list ref_row) (sf : string)
    (item : nat * string) (fs fs' : filesystem) :
  fs_wf fs → save_test_record w ref sf item fs = Ok fs' → fs_wf fs'.
Proof.
  intros Hwf. destruct item as [idx rec].
  unfold save_test_record, os_path_join.
  destruct (load_ecg w rec) as [raw|]; [|done]. cbn [mbind result_bind].
  destruct (lookup_label ref rec) as [lbl|]; [|done].
  cbn [mbind result_bind].
  destruct (np_save _ _ fs) as [fs1|] eqn:H1; [|done].
  cbn [mbind result_bind].
  destruct (np_save _ _ fs1) as [fs2|] eqn:H2; [|done].
  cbn [mbind result_bind].
  destruct (getitem class_names lbl (pretty lbl)) as [cls|]; [|done].
  cbn [mbind result_bind].
  destruct (np_save _ _ fs2) as [fs3|] eqn:H3; [|done].
  cbn [mbind result_bind]. intros H4.
  apply np_save_wf in H1; [|done..]. apply np_save_wf in H2; [|done..].
  apply np_save_wf in H3; [|done..]. by apply np_save_wf in H4.
Qed.

Lemma save_train_record_wf (w : world) (ref : list ref_row) (cf : string)
    (item : nat * string) (fs fs' : filesystem) :
  fs_wf fs → save_train_record w ref cf item fs = Ok fs' → fs_wf fs'.
Proof.
  intros Hwf. destruct item as [idx rec].
  unfold save_train_record, os_path_join.
  destruct (load_ecg w rec) as [raw|]; [|done]. cbn [mbind result_bind].
  destruct (lookup_label ref rec) as [lbl|]; [|done].
  cbn [mbind result_bind].
  destruct (np_save _ _ fs) as [fs1|] eqn:H1; [|done].
  cbn [mbind result_bind]. intros H2.
  apply np_save_wf in H1; [|done..]. by apply np_save_wf in H2.
Qed.

Lemma save_fold_wf (w : world) (ref : list ref_row)
    (fold_records combined_records : gmap nat (list string))
    (i : nat) (fs fs' : filesystem) :
  fs_wf fs → save_fold w ref fold_records combined_records i fs = Ok fs' →
  fs_wf fs'.
Proof.
  intros Hwf. unfold save_fold.
  destruct (getitem fold_records i (pretty i)) as [tl|]; [|done].
  cbn [mbind result_bind].
  destruct (for_each _ (enumerate tl) fs) as [fs1|] eqn:H1; [|done].
  cbn [mbind result_bind].
  destruct (getitem combined_records i (pretty i)) as [trl|]; [|done].
  cbn [mbind result_bind]. intros H2.
  eapply (for_each_invariant fs_wf) in H1; [| |exact Hwf].
  - eapply (for_each_invariant fs_wf) in H2; [done| |exact H1].
    intros x s1 s2 _. apply save_train_record_wf.
  - intros x s1 s2 _. apply save_test_record_wf.
Qed.


End WellFormed.


Section Independence.

Context `{!Externals}.

(** Two runs of a loop from related states end in related states. *)
Lemma for_each_rel {A S} (R : S → S → Prop) (body : A → S → result S)
    (l : list A) (s1 s2 s1' s2' : S) :
  (∀ x a b a' b', R a b → body x a = Ok a' → body x b = Ok b' → R a' b') →
  R s1 s2 → for_each body l s1 = Ok s1' → for_each body l s2 = Ok s2' →
  R s1' s2'.
Proof.
  intros Hbody. revert s1 s2.
  induction l as [|x l IH]; intros s1 s2 HR H1 H2; cbn [for_each] in *.
  - injection H1 as <-. by injection H2 as <-.
  - destruct (body x s1) as [a|] eqn:Ha; [|done].
    destruct (body x s2) as [b|] eqn:Hb; [|done].
    cbn [mbind result_bind] in *. eapply IH; [|done..]. by eapply Hbody.
Qed.

Lemma save_test_record_rel (w : world) (ref : list ref_row) (sf : string)
    (item : nat * string) (a b a' b' : filesystem) :
  (∀ q, under_folds q → files a !! q = files b !! q) →
  save_test_record w ref sf item a = Ok a' →
  save_test_record w ref sf item b = Ok b' →
  ∀ q, under_folds q → files a' !! q = files b' !! q.
Proof.
  destruct item as [idx rec].
  intros HR (raw & lbl & cls & Hraw & Hlbl & Hcls & _ & ->)%save_test_record_ok
    (raw' & lbl' & cls' & Hraw' & Hlbl' & Hcls' & _ & ->)%save_test_record_ok
    q Hq.
  rewrite Hraw in Hraw'. injection Hraw' as <-.
  rewrite Hlbl in Hlbl'. injection Hlbl' as <-.
  rewrite Hcls in Hcls'. injection Hcls' as <-.
  rewrite !lookup_insert. repeat case_decide; try done. by apply HR.
Qed.

Lemma save_train_record_rel (w : world) (ref : list ref_row) (cf : string)
    (item : nat * string) (a b a' b' : filesystem) :
  (∀ q, under_folds q → files a !! q = files b !! q) →
  save_train_record w ref cf item a = Ok a' →
  save_train_record w ref cf item b = Ok b' →
  ∀ q, under_folds q → files a' !! q = files b' !! q.
Proof.
  destruct item as [idx rec].
  intros HR (raw & lbl & Hraw & Hlbl & _ & ->)%save_train_record_ok
    (raw' & lbl' & Hraw' & Hlbl' & _ & ->)%save_train_record_ok q Hq.
  rewrite Hraw in Hraw'. injection Hraw' as <-.
  rewrite Hlbl in Hlbl'. injection Hlbl' as <-.
  rewrite !lookup_insert. repeat case_decide; try done. by apply HR.
Qed.

Lemma save_fold_rel (w : world) (ref : list ref_row)
    (fold_records combined_records : gmap nat (list string))
    (i : nat) (a b a' b' : filesystem) :
  (∀ q, under_folds q → files a !! q = files b !! q) →
  save_fold w ref fold_records combined_records i a = Ok a' →
  save_fold w ref fold_records combined_records i b = Ok b' →
  ∀ q, under_folds q → files a' !! q = files b' !! q.
Proof.
  intros HR. unfold save_fold.
  destruct (getitem fold_records i (pretty i)) as [tl|]; [|done].
  cbn [mbind result_bind].
  destruct (for_each _ (enumerate tl) a) as [a1|] eqn:Ha1; [|done].
  destruct (for_each _ (enumerate tl) b) as [b1|] eqn:Hb1; [|done].
  cbn [mbind result_bind].
  destruct (getitem combined_records i (pretty i)) as [trl|]; [|done].
  cbn [mbind result_bind]. intros Ha2 Hb2.
  eapply (for_each_rel
            (λ a b : filesystem,
               ∀ q, under_folds q → files a !! q = files b !! q));
    [| |exact Ha2|exact Hb2].
  - intros x s1 s2 s1' s2'. apply save_train_record_rel.
  - eapply (for_each_rel
              (λ a b : filesystem,
                 ∀ q, under_folds q → files a !! q = files b !! q));
      [|exact HR|exact Ha1|exact Hb1].
    intros x s1 s2 s1' s2'. apply save_test_record_rel.
Qed.

(** X9. The output tree is a function of the inputs alone: two runs on the
    same table and signals that start from different well-formed file
    systems leave the same directories and the same files inside [folds];
    nothing of an earlier tree shows in the new one. *)
Theorem main_tree_independent (w : world) (fs1 fs2 fs1' fs2' : filesystem) :
  fs_wf fs1 → fs_wf fs2 → main w fs1 = Ok fs1' → main w fs2 = Ok fs2' →
  same_tree fs1' fs2'.
Proof.
  intros Hwf1 Hwf2
    (a0 & p & a1 & Hreset1 & Hp & Hdirs1 & Hrun1)%main_inv
    (b0 & p' & b1 & Hreset2 & Hp' & Hdirs2 & Hrun2)%main_inv.
  rewrite Hp in Hp'. injection Hp' as <-.
  destruct (main_reset_ok fs1 a0 Hwf1 Hreset1) as (Hwfa & Hnoa & _).
  destruct (main_reset_ok fs2 b0 Hwf2 Hreset2) as (Hwfb & Hnob & _).
  rewrite (make_dirs_exact a0 Hwfa Hnoa) in Hdirs1. injection Hdirs1 as <-.
  rewrite (make_dirs_exact b0 Hwfb Hnob) in Hdirs2. injection Hdirs2 as <-.
  intros q Hq. split.
  - apply save_folds_ok in Hrun1 as (-> & _);
      [|apply NoDup_seq|intros i Hi%elem_of_seq; lia].
    apply save_folds_ok in Hrun2 as (-> & _);
      [|apply NoDup_seq|intros i Hi%elem_of_seq; lia].
    cbn [dirs add_dirs]. rewrite !elem_of_union.
    destruct (Hnoa q Hq) as [Ha _]. destruct (Hnob q Hq) as [Hb _].
    split; (intros [Hin|Hin]; [done|by right]).
  - revert q Hq.
    eapply (for_each_rel
              (λ a b : filesystem,
                 ∀ q, under_folds q → files a !! q = files b !! q));
      [| |exact Hrun1|exact Hrun2].
    + intros i s1 s2 s1' s2'. apply save_fold_rel.
    + intros q Hq. cbn [files add_dirs].
      destruct (Hnoa q Hq) as [_ ->]. by destruct (Hnob q Hq) as [_ ->].
Qed.

End Independence.

Lemma main_tree_independent_witness :
  same_tree Example.rebuilt Cases.rebuilt_home.
Proof.
  exact (main_tree_independent Example.study Example.stale Cases.home
           Example.rebuilt Cases.rebuilt_home example_wf cases_home_wf
           example_run cases_home_run).
Defined.

Section Returns.

Context `{!Externals}.

(** A file name of the writer is not the name of a directory of the tree. *)
Lemma npy_name_not_dir (idx : nat) :
  pretty idx +:+ ".npy" ≠ "data" ∧ pretty idx +:+ ".npy" ≠ "label".
Proof.
  split; intros Heq; pose proof (f_equal String.length Heq) as Hlen;
    rewrite string_app_length in Hlen; simpl in Hlen.
  - destruct (pretty idx) as [|a s]; [discriminate Heq|simpl in Hlen; lia].
  - destruct (pretty idx) as [|a [|b s]]; [discriminate Heq| |simpl in Hlen; lia].
    rewrite string_app_cons in Heq. by injection Heq.
Qed.

Lemma spec_tree_shape (q : path) :
  q ∈ spec_tree →
  length q ≤ 4 ∧ q !! 3 ∈ [None; Some "data"; Some "label"].
Proof.
  intros Hq.
  assert (Forall (λ q, length q ≤ 4
                       ∧ q !! 3 ∈ [None; Some "data"; Some "label"])
            spec_tree) as Hall
    by (apply (bool_decide_unpack _); vm_compute; exact I).
  by eapply Forall_forall in Hall.
Qed.

Lemma npy_file_not_in_tree (d sub : string) (idx : nat) :
  [FOLDS_DIR; d; sub; pretty idx +:+ ".npy"] ∉ spec_tree.
Proof.
  intros [_ Hsub]%spec_tree_shape. simpl in Hsub.
  destruct (npy_name_not_dir idx) as [H1 H2].
  rewrite !elem_of_cons, elem_of_nil in Hsub.
  destruct Hsub as [[=]|[[= ?]|[[= ?]|[]]]]; done.
Qed.

Lemma npy_class_file_not_in_tree (d c sub x : string) :
  [FOLDS_DIR; d; c; sub; x] ∉ spec_tree.
Proof. intros [Hlen _]%spec_tree_shape. simpl in Hlen. lia. Qed.

Lemma fold_dirs_in_tree (i : nat) (sub : string) :
  i < N_FOLDS → sub ∈ ["data"; "label"] →
  [FOLDS_DIR; single_name i; sub] ∈ spec_tree
  ∧ [FOLDS_DIR; combined_name i; sub] ∈ spec_tree
  ∧ ∀ cls, cls ∈ ["normal"; "AF"; "other"] →
           [FOLDS_DIR; single_name i; cls; sub] ∈ spec_tree.
Proof.
  unfold N_FOLDS. intros Hi Hsub.
  assert (Forall (λ i, Forall (λ sub,
            [FOLDS_DIR; single_name i; sub] ∈ spec_tree
            ∧ [FOLDS_DIR; combined_name i; sub] ∈ spec_tree
            ∧ Forall (λ cls, [FOLDS_DIR; single_name i; cls; sub] ∈ spec_tree)
                ["normal"; "AF"; "other"]) ["data"; "label"]) (seq 0 4))
    as Hall by (apply (bool_decide_unpack _); vm_compute; exact I).
  pose proof (proj1 (Forall_forall _ _) Hall i) as Hsubs.
  specialize (Hsubs ltac:(apply elem_of_seq; lia)).
  pose proof (proj1 (Forall_forall _ _) Hsubs sub Hsub) as (H1 & H2 & H3).
  split; [done|]. split; [done|]. intros cls Hcls.
  by apply (proj1 (Forall_forall _ _) H3 cls).
Qed.

Lemma np_save_total (file : path) (value : content) (fs : filesystem) :
  file ∉ dirs fs → parent file ∈ dirs fs →
  np_save file value fs
  = Ok (FileSystem (dirs fs) (<[file := value]> (files fs))).
Proof.
  intros Hfile Hpar. unfold np_save.
  by rewrite (proj2 (isdir_false _ _) Hfile), (proj2 (isdir_true _ _) Hpar).
Qed.

Lemma filter_none {A} (P : A → Prop) `{!∀ x, Decision (P x)} (l : list A) :
  (∀ x, x ∈ l → ¬ P x) → filter P l = [].
Proof.
  induction l as [|x l IH]; intros Hl; [done|].
  rewrite filter_cons_False by (apply Hl; by left).
  apply IH. intros y Hy. apply Hl. by right.
Qed.

(** In a table without repeated identifiers a record selects its row. *)
Lemma NoDup_filter_record (ref : list ref_row) (r : ref_row) :
  NoDup (record <$> ref) → r ∈ ref →
  filter (λ row, record row = record r) ref = [r].
Proof.
  induction ref as [|a ref IH]; intros Hnd Hr; [by apply elem_of_nil in Hr|].
  rewrite fmap_cons in Hnd. apply NoDup_cons in Hnd as [Ha Hnd].
  apply elem_of_cons in Hr as [->|Hr].
  - rewrite filter_cons_True by done. f_equal.
    apply filter_none. intros x Hx Heq. apply Ha. rewrite <- Heq.
    apply list_elem_of_fmap. by exists x.
  - rewrite filter_cons_False; [by apply IH|].
    intros Heq. apply Ha. rewrite Heq. apply list_elem_of_fmap. by exists r.
Qed.

(** With distinct identifiers the label lookup returns for every record of
    the table, and the class of the label is known. *)
Lemma lookup_label_total (w : world) (ref : list ref_row) (rec : string) :
  load_reference w = Ok ref → NoDup (record <$> ref) →
  rec ∈ record <$> ref →
  ∃ lbl cls, lookup_label ref rec = Ok lbl ∧ class_names !! lbl = Some cls
             ∧ cls ∈ ["normal"; "AF"; "other"].
Proof.
  intros Href Hnd (r & -> & Hr)%list_elem_of_fmap.
  destruct (load_reference_row w ref r Href Hr) as [Hl Hi].
  assert (∃ lbl cls, int_label r = Some lbl ∧ class_names !! lbl = Some cls
                     ∧ cls ∈ ["normal"; "AF"; "other"])
    as (lbl & cls & Hlbl & Hcls & Hin).
  { rewrite Hi. rewrite !elem_of_cons, elem_of_nil in Hl.
    destruct Hl as [->|[->|[->|[]]]].
    - exists 0, "normal". do 2 (split; [reflexivity|]). by left.
    - exists 1, "AF". do 2 (split; [reflexivity|]). by right; left.
    - exists 2, "other". do 2 (split; [reflexivity|]). by right; right; left. }
  exists lbl, cls. split; [|done]. apply lookup_label_ok. exists r.
  split; [by apply NoDup_filter_record|done].
Qed.

(** The directories inside [folds] are those of the tree. *)
Lemma save_test_record_total (w : world) (ref : list ref_row) (i idx : nat)
    (rec : string) (fs : filesystem) (lbl : nat) (cls : string) :
  i < N_FOLDS →
  (∀ q, under_folds q → q ∈ dirs fs ↔ q ∈ spec_tree) →
  is_ok (load_ecg w rec) = true → lookup_label ref rec = Ok lbl →
  class_names !! lbl = Some cls → cls ∈ ["normal"; "AF"; "other"] →
  ∃ fs', save_test_record w ref (single_name i) (idx, rec) fs = Ok fs'
         ∧ dirs fs' = dirs fs.
Proof.
  intros Hi Htree Hload Hlbl Hcls Hin.
  assert (∀ q, under_folds q → q ∉ spec_tree → q ∉ dirs fs) as Hout.
  { intros q Hq Hn Hd. by apply Hn, Htree. }
  assert (∀ q, q ∈ spec_tree → q ∈ dirs fs) as Hdir.
  { intros q Hq. apply Htree; [|done]. by apply spec_tree_under_folds. }
  destruct (fold_dirs_in_tree i "data" Hi) as (Hd & _ & Hcd); [by left|].
  destruct (fold_dirs_in_tree i "label" Hi) as (Hl & _ & Hcl);
    [by right; left|].
  unfold save_test_record, os_path_join.
  destruct (load_ecg w rec) as [raw|]; [|done]. cbn [mbind result_bind].
  rewrite Hlbl. cbn [mbind result_bind].
  rewrite np_save_total;
    [|apply Hout; [by eexists|apply npy_file_not_in_tree]|by apply Hdir].
  cbn [mbind result_bind].
  rewrite np_save_total;
    [|apply Hout; [by eexists|apply npy_file_not_in_tree]|by apply Hdir].
  cbn [mbind result_bind]. rewrite (getitem_Some _ _ _ _ Hcls).
  cbn [mbind result_bind].
  rewrite np_save_total;
    [|apply Hout; [by eexists|apply npy_class_file_not_in_tree]
     |by apply Hdir, Hcd].
  cbn [mbind result_bind].
  rewrite np_save_total;
    [|apply Hout; [by eexists|apply npy_class_file_not_in_tree]
     |by apply Hdir, Hcl].
  by eexists.
Qed.

Lemma save_train_record_total (w : world) (ref : list ref_row) (i idx : nat)
    (rec : string) (fs : filesystem) (lbl : nat) :
  i < N_FOLDS →
  (∀ q, under_folds q → q ∈ dirs fs ↔ q ∈ spec_tree) →
  is_ok (load_ecg w rec) = true → lookup_label ref rec = Ok lbl →
  ∃ fs', save_train_record w ref (combined_name i) (idx, rec) fs = Ok fs'
         ∧ dirs fs' = dirs fs.
Proof.
  intros Hi Htree Hload Hlbl.
  assert (∀ q, under_folds q → q ∉ spec_tree → q ∉ dirs fs) as Hout.
  { intros q Hq Hn Hd. by apply Hn, Htree. }
  assert (∀ q, q ∈ spec_tree → q ∈ dirs fs) as Hdir.
  { intros q Hq. apply Htree; [|done]. by apply spec_tree_under_folds. }
  destruct (fold_dirs_in_tree i "data" Hi) as (_ & Hd & _); [by left|].
  destruct (fold_dirs_in_tree i "label" Hi) as (_ & Hl & _);
    [by right; left|].
  unfold save_train_record, os_path_join.
  destruct (load_ecg w rec) as [raw|]; [|done]. cbn [mbind result_bind].
  rewrite Hlbl. cbn [mbind result_bind].
  rewrite np_save_total;
    [|apply Hout; [by eexists|apply npy_file_not_in_tree]|by apply Hdir].
  cbn [mbind result_bind].
  rewrite np_save_total;
    [|apply Hout; [by eexists|apply npy_file_not_in_tree]|by apply Hdir].
  by eexists.
Qed.

(** One iteration of the loop over the folds returns when every record
    loads and no identifier is repeated. *)
Lemma save_fold_total (w : world) (p : plan) (i : nat) (fs : filesystem) :
  main_plan w = Ok p → NoDup (plan_recs p) →
  (∀ rec, rec ∈ plan_recs p → is_ok (load_ecg w rec) = true) →
  i < N_FOLDS →
  (∀ q, under_folds q → q ∈ dirs fs ↔ q ∈ spec_tree) →
  ∃ fs', save_fold w (plan_ref p) (plan_fold_records p)
           (plan_combined_records p) i fs = Ok fs'
         ∧ dirs fs' = dirs fs.
Proof.
  intros Hp Hnd Hload Hi Htree.
  destruct (main_plan_inv w p Hp) as (Href & Hrecs & _ & Hfr & Hcr).
  rewrite Hrecs in Hnd.
  assert (∀ rec, rec ∈ plan_recs p →
            ∃ lbl cls, lookup_label (plan_ref p) rec = Ok lbl
                       ∧ class_names !! lbl = Some cls
                       ∧ cls ∈ ["normal"; "AF"; "other"]) as Hlookup.
  { intros rec Hrec. rewrite Hrecs in Hrec.
    by apply (lookup_label_total w). }
  unfold save_fold.
  rewrite (getitem_Some _ _ _ _ (eq_trans (Hfr i) (decide_True _ _ Hi))).
  cbn [mbind result_bind].
  destruct (for_each_total (λ s : filesystem, dirs s = dirs fs)
              (save_test_record w (plan_ref p) (single_name i))
              (enumerate (filter (λ r, plan_fold_map p !! r = Some i)
                            (plan_recs p))) fs) as (fs1 & -> & Hd1);
    [|done|].
  { intros [idx rec] s1 Hitem%enumerate_lookup Hs1.
    apply list_elem_of_lookup_2, list_elem_of_filter in Hitem as [_ Hrec].
    destruct (Hlookup rec Hrec) as (lbl & cls & Hlbl & Hcls & Hin).
    destruct (save_test_record_total w (plan_ref p) i idx rec s1 lbl cls)
      as (s2 & Hs2 & Hd2); try done.
    - intros q Hq. rewrite Hs1. by apply Htree.
    - by apply Hload.
    - exists s2. split; [done|]. congruence. }
  cbn [mbind result_bind].
  rewrite (getitem_Some _ _ _ _ (eq_trans (Hcr i) (decide_True _ _ Hi))).
  cbn [mbind result_bind].
  destruct (for_each_total (λ s : filesystem, dirs s = dirs fs)
              (save_train_record w (plan_ref p) (combined_name i))
              (enumerate (filter (λ r, plan_fold_map p !! r ≠ Some i)
                            (plan_recs p))) fs1) as (fs2 & -> & Hd2);
    [|done|by exists fs2].
  intros [idx rec] s1 Hitem%enumerate_lookup Hs1.
  apply list_elem_of_lookup_2, list_elem_of_filter in Hitem as [_ Hrec].
  destruct (Hlookup rec Hrec) as (lbl & cls & Hlbl & _).
  destruct (save_train_record_total w (plan_ref p) i idx rec s1 lbl)
    as (s2 & Hs2 & Hd2'); try done.
  - intros q Hq. rewrite Hs1. by apply Htree.
  - by apply Hload.
  - exists s2. split; [done|]. congruence.
Qed.

Lemma main_reset_total (fs : filesystem) :
  (isfile fs [FOLDS_DIR] = true → isdir fs [FOLDS_DIR] = true) →
  ∃ fs0, main_reset fs = Ok fs0.
Proof.
  intros Hfile. unfold main_reset, rmtree.
  destruct (fs_exists fs [FOLDS_DIR]) eqn:Hex; [|by eexists].
  destruct (isdir fs [FOLDS_DIR]) eqn:Hd; [by eexists|].
  destruct (isfile fs [FOLDS_DIR]) eqn:Hf; [by specialize (Hfile eq_refl)|].
  unfold fs_exists in Hex. by rewrite Hd, Hf in Hex.
Qed.

(** A run returns when nothing is in the way of the tree, the plan exists,
    no identifier is repeated and every record loads. *)
Lemma main_total (w : world) (p : plan) (fs : filesystem) :
  fs_wf fs →
  (isfile fs [FOLDS_DIR] = true → isdir fs [FOLDS_DIR] = true) →
  main_plan w = Ok p → NoDup (plan_recs p) →
  (∀ rec, rec ∈ plan_recs p → is_ok (load_ecg w rec) = true) →
  ∃ fs', main w fs = Ok fs'.
Proof.
  intros Hwf Hfile Hp Hnd Hload. unfold main.
  destruct (main_reset_total fs Hfile) as [fs0 Hreset]. rewrite Hreset.
  cbn [mbind result_bind]. rewrite Hp. cbn [mbind result_bind].
  destruct (main_reset_ok fs fs0 Hwf Hreset) as (Hwf0 & Hno & _).
  rewrite (make_dirs_exact fs0 Hwf0 Hno). cbn [mbind result_bind].
  destruct (for_each_total
              (λ s : filesystem, dirs s = dirs (add_dirs spec_tree fs0))
              (save_fold w (plan_ref p) (plan_fold_records p)
                 (plan_combined_records p))
              (seq 0 N_FOLDS) (add_dirs spec_tree fs0)) as (fs' & -> & _);
    [|done|by exists fs'].
  intros i s1 Hi%elem_of_seq Hs1.
  destruct (save_fold_total w p i s1 Hp Hnd Hload) as (s2 & Hs2 & Hd2);
    [lia| |].
  - intros q Hq. rewrite Hs1. cbn [dirs add_dirs].
    rewrite elem_of_union, elem_of_list_to_set.
    split; [|by right]. intros [Hin|Hin]; [|done]. by destruct (Hno q Hq).
  - exists s2. split; [done|]. congruence.
Qed.


(** What a run that returns has found in its inputs. *)
Lemma main_ok_inputs (w : world) (fs fs' : filesystem) :
  main w fs = Ok fs' →
  ∃ p, main_plan w = Ok p ∧ NoDup (plan_recs p)
       ∧ ∀ rec, rec ∈ plan_recs p → is_ok (load_ecg w rec) = true.
Proof.
  intros (p & Hp & Htest & _)%main_stored.
  destruct (main_plan_inv w p Hp) as (_ & Hrecs & Hkeys & Hfr & _).
  exists p. split; [done|].
  assert (∀ rec, rec ∈ plan_recs p →
            is_ok (load_ecg w rec) = true
            ∧ length (filter (λ row, record row = rec) (plan_ref p)) = 1)
    as Hone.
  { intros rec Hrec. destruct (Hkeys rec Hrec) as (i & Hi & Hfm).
    assert (rec ∈ filter (λ r, plan_fold_map p !! r = Some i) (plan_recs p))
      as [idx Hidx]%list_elem_of_lookup by (by apply list_elem_of_filter).
    edestruct (Htest i) as (raw & lbl & cls & Hraw & Hlbl & _);
      [by rewrite Hfr, decide_True|exact Hidx|].
    split; [by rewrite Hraw|].
    by apply lookup_label_ok in Hlbl as (r & -> & _). }
  split; [|by intros rec Hrec; apply Hone].
  rewrite Hrecs. apply unique_rows_NoDup. intros rec Hrec.
  rewrite <- Hrecs in Hrec. by apply Hone.
Qed.


(** X11. Running again changes nothing: a run on the file system that a
    run has left returns that same file system. *)
Theorem main_rerun (w : world) (fs fs' : filesystem) :
  fs_wf fs → main w fs = Ok fs' → main w fs' = Ok fs'.
Proof.
  intros Hwf Hrun.
  destruct (main_ok_inputs w fs fs' Hrun) as (p & Hp & Hnd & Hload).
  destruct (main_tree w fs fs' Hwf Hrun)
    as (fs0 & p' & _ & Hp' & Hdirs & Hno0 & _).
  rewrite Hp in Hp'. injection Hp' as <-.
  pose proof Hrun as (a0 & p' & a1 & Hreset1 & Hp' & Hmk1 & Hrun1)%main_inv.
  rewrite Hp in Hp'. injection Hp' as <-.
  destruct (main_reset_ok fs a0 Hwf Hreset1) as (Hwfa & Hnoa & _).
  rewrite (make_dirs_exact a0 Hwfa Hnoa) in Hmk1. injection Hmk1 as <-.
  assert (fs_wf fs') as Hwf'.
  { eapply (for_each_invariant fs_wf) in Hrun1; [done| |].
    - intros i s1 s2 _. apply save_fold_wf.
    - by apply add_dirs_spec_tree_wf. }
  assert ([FOLDS_DIR] ∈ dirs fs') as Hroot.
  { rewrite Hdirs. apply elem_of_union. right. apply elem_of_list_to_set.
    by left. }
  destruct (main_total w p fs' Hwf') as [fs'' Hrun']; [|done..|].
  { intros _. by apply isdir_true. }
  rewrite Hrun'. f_equal.
  pose proof Hrun' as (b0 & p' & b1 & Hreset2 & Hp' & Hmk2 & Hrun2)%main_inv.
  rewrite Hp in Hp'. injection Hp' as <-.
  destruct (main_reset_ok fs' b0 Hwf' Hreset2) as (Hwfb & Hnob & Hout).
  rewrite (make_dirs_exact b0 Hwfb Hnob) in Hmk2. injection Hmk2 as <-.
  pose proof (save_folds_ok _ _ _ _ _ _ _ (NoDup_seq 0 N_FOLDS)
                (λ i Hi, proj2 (proj1 (elem_of_seq _ _ _) Hi)) Hrun2)
    as (Hd2 & Hframe2 & _).
  apply filesystem_eq.
  - apply set_eq. intros q. rewrite Hd2. cbn [dirs add_dirs].
    rewrite elem_of_union, elem_of_list_to_set.
    destruct (decide (under_folds q)) as [Hq|Hq].
    + destruct (Hnob q Hq) as [Hb _]. rewrite Hdirs.
      rewrite elem_of_union, elem_of_list_to_set.
      split; (intros [Hin|Hin]; [|by right]); [done|].
      by apply Hno0 in Hin.
    + destruct (Hout q Hq) as [-> _]. split; [|by left].
      intros [Hin|Hin]; [done|]. by apply spec_tree_under_folds in Hin.
  - apply map_eq. intros q.
    destruct (decide (under_folds q)) as [Hq|Hq].
    + revert q Hq.
      eapply (for_each_rel
                (λ a b : filesystem,
                   ∀ q, under_folds q → files a !! q = files b !! q));
        [| |exact Hrun2|exact Hrun1].
      * intros i s1 s2 s1' s2'. apply save_fold_rel.
      * intros q Hq. cbn [files add_dirs].
        destruct (Hnoa q Hq) as [_ ->]. by destruct (Hnob q Hq) as [_ ->].
    + rewrite Hframe2.
      * cbn [files add_dirs]. by apply Hout.
      * intros i _. split; by apply not_under_folds_dir.
Qed.

End Returns.


Lemma main_rerun_witness :
  main Example.study Example.rebuilt = Ok Example.rebuilt.
Proof.
  exact (main_rerun Example.study Example.stale Example.rebuilt
           example_wf example_run).
Defined.

Section Balance.

Context `{!Externals}.

Lemma take_items_ok (recs : list string) (idx : list nat)
    (rs : list string) :
  take_items recs idx = Ok rs → Forall2 (λ j r, recs !! j = Some r) idx rs.
Proof.
  unfold take_items. intros Hrs%comprehension_ok.
  eapply Forall2_impl; [exact Hrs|]. intros j r. simpl.
  destruct (recs !! j); [by intros [= ->] | done].
Qed.

(** The items taken at a list of indices are the records at these
    indices. *)
Lemma take_items_elem (recs : list string) (idx : list nat)
    (rs : list string) (r : string) :
  take_items recs idx = Ok rs →
  r ∈ rs ↔ ∃ j, j ∈ idx ∧ recs !! j = Some r.
Proof.
  intros Hall%take_items_ok. split.
  - intros [n Hn]%list_elem_of_lookup.
    destruct (Forall2_lookup_r _ _ _ _ _ Hall Hn) as (j & Hj & Hr).
    exists j. split; [|done]. by eapply list_elem_of_lookup_2.
  - intros (j & [n Hn]%list_elem_of_lookup & Hr).
    destruct (Forall2_lookup_l _ _ _ _ _ Hall Hn) as (r' & Hr' & Hjr).
    rewrite Hr in Hjr. injection Hjr as <-.
    by eapply list_elem_of_lookup_2.
Qed.

(** Lists whose concatenation has no repetition have none, and two of them
    at different positions share no element. *)
Lemma NoDup_join_lookup {A} (ls : list (list A)) (m : nat) (l : list A) :
  NoDup (mjoin ls) → ls !! m = Some l → NoDup l.
Proof.
  revert m. induction ls as [|l0 ls IH]; intros m Hnd Hm; [done|].
  simpl in Hnd. apply NoDup_app in Hnd as (Hl0 & _ & Hls).
  destruct m as [|m]; [by injection Hm as <- | by eapply IH].
Qed.

Lemma NoDup_join_disjoint {A} (ls : list (list A)) (m1 m2 : nat)
    (l1 l2 : list A) (x : A) :
  NoDup (mjoin ls) → ls !! m1 = Some l1 → ls !! m2 = Some l2 →
  x ∈ l1 → x ∈ l2 → m1 = m2.
Proof.
  revert m1 m2. induction ls as [|l0 ls IH]; intros m1 m2 Hnd H1 H2 Hx1 Hx2;
    [done|].
  simpl in Hnd. apply NoDup_app in Hnd as (_ & Hdisj & Hls).
  assert (∀ m l, ls !! m = Some l → x ∈ l → x ∈ mjoin ls) as Hin.
  { intros m l Hm Hx. apply list_elem_of_join. exists l. split; [done|].
    by eapply list_elem_of_lookup_2. }
  destruct m1 as [|m1], m2 as [|m2]; simpl in H1, H2.
  - done.
  - injection H1 as <-. destruct (Hdisj x Hx1). by eapply Hin.
  - injection H2 as <-. destruct (Hdisj x Hx2). by eapply Hin.
  - f_equal. by eapply IH.
Qed.

(** Slices that fit into the indices have the sizes asked for. *)
Lemma iter_slices_lengths (c : nat) (sizes indices : list nat) :
  c + sum_list sizes ≤ length indices →
  length <$> iter_slices c sizes indices = sizes.
Proof.
  revert c. induction sizes as [|s sizes IH]; intros c Hc; simpl in *;
    [done|].
  rewrite length_take, length_drop, IH by lia. f_equal. lia.
Qed.

Lemma fold_sizes_lookup (n k i : nat) :
  i < k →
  fold_sizes n k !! i
  = Some (n / k + (if decide (i < n mod k) then 1 else 0)).
Proof.
  intros Hi. unfold fold_sizes. rewrite list_lookup_fmap.
  by rewrite lookup_seq_lt.
Qed.

(** The loop of lines 84-86 when no record is a test record of two splits:
    every test record of a split gets the number of the split, and the other
    keys of the dict are left as they were. *)
Lemma fold_map_loop_exact (recs : list string)
    (body : nat * (list nat * list nat) → gmap string nat
            → result (gmap string nat))
    (splits : list (list nat * list nat)) (k : nat)
    (fold_map fm : gmap string nat) :
  (∀ i tr te fm,
     body (i, (tr, te)) fm
     = rs ← take_items recs te;
       for_each (λ r fold_map, Ok (<[r := i]> fold_map)) rs fm) →
  (∀ m1 m2 tr1 te1 tr2 te2 j1 j2 r,
     splits !! m1 = Some (tr1, te1) → splits !! m2 = Some (tr2, te2) →
     j1 ∈ te1 → j2 ∈ te2 → recs !! j1 = Some r → recs !! j2 = Some r →
     m1 = m2) →
  for_each body (enumerate_from k splits) fold_map = Ok fm →
  (∀ m tr te j r, splits !! m = Some (tr, te) → j ∈ te →
     recs !! j = Some r → fm !! r = Some (k + m))
  ∧ (∀ r, (∀ m tr te j, splits !! m = Some (tr, te) → j ∈ te →
             recs !! j ≠ Some r) →
          fm !! r = fold_map !! r).
Proof.
  intros Hbody. revert k fold_map.
  induction splits as [|[tr0 te0] splits IH]; intros k fold_map Hdisj Hrun;
    simpl in Hrun.
  - injection Hrun as <-. split; [by intros m tr te j r ?|done].
  - rewrite Hbody in Hrun.
    destruct (take_items recs te0) as [rs|] eqn:Hrs; [|done].
    cbn [mbind result_bind] in Hrun.
    destruct (assign_fold_lookup k rs fold_map) as (fm1 & Hfm1 & Hlook).
    rewrite Hfm1 in Hrun. cbn [mbind result_bind] in Hrun.
    apply IH in Hrun as [Hhit Hkeep].
    2:{ intros m1 m2 tr1 te1 tr2 te2 j1 j2 r H1 H2 Hj1 Hj2 Hr1 Hr2.
        assert (S m1 = S m2) as [= ->]; [|done].
        by eapply (Hdisj (S m1) (S m2)). }
    split.
    + intros [|m] tr te j r Hm Hj Hr.
      * injection Hm as -> ->. rewrite Hkeep, Hlook.
        -- rewrite decide_True; [f_equal; lia|].
           apply (take_items_elem _ _ _ _ Hrs). by exists j.
        -- intros m' tr' te' j' Hm' Hj' Hr'.
           by pose proof (Hdisj 0 (S m') _ _ _ _ _ _ _ eq_refl Hm' Hj Hj' Hr
                            Hr').
      * rewrite (Hhit m tr te j r Hm Hj Hr). f_equal. lia.
    + intros r Hnone. rewrite Hkeep, Hlook.
      * rewrite decide_False; [done|].
        intros (j & Hj & Hr)%(take_items_elem _ _ _ _ Hrs).
        by apply (Hnone 0 tr0 te0 j).
      * intros m tr te j Hm. by apply (Hnone (S m) tr te j).
Qed.

(** Lines 82-86 for records without repetition: a record gets the number of
    the slice of the shuffled indices that holds its position. *)
Lemma main_fold_map_exact (w : world) (recs : list string)
    (fm : gmap string nat) :
  shuffle_permutes → NoDup recs → main_fold_map w recs = Ok fm →
  ∃ slices,
    length <$> slices = fold_sizes (length recs) N_FOLDS
    ∧ NoDup (mjoin slices)
    ∧ (∀ j, j ∈ mjoin slices ↔ j < length recs)
    ∧ ∀ i slice j r, slices !! i = Some slice → recs !! j = Some r →
        fm !! r = Some i ↔ j ∈ slice.
Proof.
  intros Hperm Hnd. unfold main_fold_map.
  set (kf := MkKFold N_FOLDS true (Some SEED)).
  set (n := length recs).
  destruct (kfold_split w kf n) as [splits|] eqn:Hsplit; [|done].
  cbn [mbind result_bind]. unfold enumerate. intros Hrun.
  pose proof (kfold_split_tests _ _ _ _ Hsplit) as Htests.
  set (indices := rng_shuffle (check_random_state w (Some SEED)) (seq 0 n)).
  assert (indices ≡ₚ seq 0 n) as Hind by apply Hperm.
  assert (length indices = n) as Hlen by (by rewrite Hind, length_seq).
  set (slices := iter_test_indices w kf n) in *.
  assert (mjoin slices = indices) as Hjoin.
  { unfold slices, iter_test_indices, kf.
    cbn [shuffle n_splits random_state]. fold indices.
    rewrite iter_slices_join, fold_sizes_sum by (unfold N_FOLDS; lia).
    rewrite drop_0. apply take_ge. lia. }
  assert (∀ m tr te, splits !! m = Some (tr, te) →
            ∃ slice, slices !! m = Some slice
                     ∧ ∀ j, j ∈ te ↔ j ∈ slice) as Hte.
  { intros m tr te Hm.
    assert (splits.*2 !! m = Some te) as Hm2
      by (by rewrite list_lookup_fmap, Hm).
    rewrite Htests, list_lookup_fmap in Hm2.
    destruct (slices !! m) as [slice|] eqn:Hslice; [|done].
    injection Hm2 as <-. exists slice. split; [done|]. intros j.
    rewrite list_elem_of_filter, elem_of_seq. split; [by intros [? _]|].
    intros Hj. split; [done|].
    assert (j ∈ seq 0 n) as Hjn%elem_of_seq; [|lia].
    rewrite <- Hind, <- Hjoin. apply list_elem_of_join. exists slice.
    split; [done|]. by eapply list_elem_of_lookup_2. }
  assert (NoDup (mjoin slices)) as Hndj.
  { rewrite Hjoin, Hind. apply NoDup_seq. }
  apply (fold_map_loop_exact recs) in Hrun as [Hhit _].
  2:{ intros i tr te fm'. reflexivity. }
  2:{ intros m1 m2 tr1 te1 tr2 te2 j1 j2 r H1 H2 Hj1 Hj2 Hr1 Hr2.
      destruct (Hte _ _ _ H1) as (s1 & Hs1 & He1).
      destruct (Hte _ _ _ H2) as (s2 & Hs2 & He2).
      assert (j1 = j2) as <- by apply (NoDup_lookup recs j1 j2 r Hnd Hr1 Hr2).
      apply (NoDup_join_disjoint slices m1 m2 s1 s2 j1); [done..| |].
      - by apply He1.
      - by apply He2. }
  exists slices. split; [|split; [done|split]].
  - unfold slices, iter_test_indices, kf.
    cbn [shuffle n_splits random_state]. fold indices.
    apply iter_slices_lengths.
    rewrite fold_sizes_sum by (unfold N_FOLDS; lia). lia.
  - intros j. rewrite Hjoin, Hind, elem_of_seq. unfold n. lia.
  - intros i slice j r Hslice Hr.
    assert (length splits = length slices) as Hls.
    { rewrite <- (length_fmap snd splits), Htests. apply length_fmap. }
    assert (j ∈ mjoin slices) as (s0 & Hj0 & [m Hm]%list_elem_of_lookup)
      %list_elem_of_join.
    { rewrite Hjoin, Hind. apply elem_of_seq.
      apply lookup_lt_Some in Hr. unfold n. lia. }
    destruct (lookup_lt_is_Some_2 splits m) as [[tr te] Hsp].
    { rewrite Hls. by eapply lookup_lt_Some. }
    destruct (Hte _ _ _ Hsp) as (s0' & Hs0' & He).
    rewrite Hm in Hs0'. injection Hs0' as <-.
    rewrite (Hhit m tr te j r Hsp (proj2 (He j) Hj0) Hr). simpl. split.
    + intros [= <-]. rewrite Hm in Hslice. by injection Hslice as <-.
    + intros Hj. f_equal.
      by apply (NoDup_join_disjoint slices m i s0 slice j).
Qed.

(** The records that a dict without repeated keys in [recs] sends to [i]
    are as many as the positions of the slice. *)
Lemma fold_count (recs : list string) (fm : gmap string nat) (i : nat)
    (slice : list nat) :
  NoDup recs → NoDup slice → (∀ j, j ∈ slice → j < length recs) →
  (∀ j r, recs !! j = Some r → fm !! r = Some i ↔ j ∈ slice) →
  length (filter (λ r, fm !! r = Some i) recs) = length slice.
Proof.
  intros Hnd Hnds Hrange Hfm.
  destruct (take_items_total recs slice Hrange) as (rs & Hrs & _).
  pose proof (take_items_ok _ _ _ Hrs) as Hall.
  rewrite (Forall2_length _ _ _ Hall). apply Permutation_length.
  apply NoDup_Permutation.
  - by apply NoDup_filter.
  - apply NoDup_alt. intros a b x Ha Hb.
    destruct (Forall2_lookup_r _ _ _ _ _ Hall Ha) as (ja & Hja & Hra).
    destruct (Forall2_lookup_r _ _ _ _ _ Hall Hb) as (jb & Hjb & Hrb).
    assert (ja = jb) as <- by apply (NoDup_lookup recs ja jb x Hnd Hra Hrb).
    apply (NoDup_lookup slice a b ja Hnds Hja Hjb).
  - intros x. rewrite list_elem_of_filter, (take_items_elem _ _ _ _ Hrs).
    split.
    + intros [Hx [j Hj]%list_elem_of_lookup]. exists j. split; [|done].
      by apply (Hfm j x).
    + intros (j & Hj & Hr). split; [by apply (Hfm j x)|].
      by eapply list_elem_of_lookup_2.
Qed.

(** X12. With record identifiers that are all different, the folds are
    balanced: test fold [i] holds [n / 4] records, and one more if
    [i < n mod 4], where [n] is the number of records; so no test fold is
    empty, two test folds differ by one record at most, and the combined
    fold holds the [n] records less those of the test fold. *)
Theorem test_folds_balanced (w : world) (p : plan) (i : nat) :
  shuffle_permutes → main_plan w = Ok p → NoDup (plan_recs p) →
  i < N_FOLDS →
  ∃ test train,
    plan_fold_records p !! i = Some test
    ∧ plan_combined_records p !! i = Some train
    ∧ length test
      = length (plan_recs p) / N_FOLDS
        + (if decide (i < length (plan_recs p) mod N_FOLDS) then 1 else 0)
    ∧ 0 < length test
    ∧ length train = length (plan_recs p) - length test.
Proof.
  intros Hperm Hp Hnd Hi.
  destruct (main_plan_inv w p Hp) as (_ & _ & _ & Hfr & Hcr).
  assert (main_fold_map w (plan_recs p) = Ok (plan_fold_map p)) as Hfm.
  { revert Hp. unfold main_plan.
    destruct (load_reference w) as [ref|]; [|done]. cbn [mbind result_bind].
    destruct (main_fold_map w (record <$> ref)) as [fm|] eqn:Hfm; [|done].
    cbn [mbind result_bind].
    destruct (main_fold_records fm (record <$> ref)) as [fr|]; [|done].
    cbn [mbind result_bind].
    destruct (main_combined_records fm (record <$> ref)) as [cr|]; [|done].
    cbn [mbind result_bind]. by intros [= <-]. }
  assert (N_FOLDS ≤ length (plan_recs p)) as Hn.
  { destruct (decide (length (plan_recs p) < N_FOLDS)) as [Hlt|]; [|lia].
    revert Hfm. unfold main_fold_map, kfold_split. cbn [n_splits].
    by rewrite decide_True. }
  destruct (main_fold_map_exact w _ _ Hperm Hnd Hfm)
    as (slices & Hsizes & Hndj & Hrange & Hexact).
  assert (is_Some (slices !! i)) as [slice Hslice].
  { apply lookup_lt_is_Some. rewrite <- (length_fmap length), Hsizes.
    by rewrite length_fold_sizes. }
  assert (length slice
          = length (plan_recs p) / N_FOLDS
            + (if decide (i < length (plan_recs p) mod N_FOLDS)
               then 1 else 0)) as Hlen.
  { assert ((length <$> slices) !! i = Some (length slice)) as Hl
      by (by rewrite list_lookup_fmap, Hslice).
    rewrite Hsizes, fold_sizes_lookup in Hl by done. by injection Hl. }
  assert (length (filter (λ r, plan_fold_map p !! r = Some i) (plan_recs p))
          = length slice) as Hcount.
  { apply fold_count; [done|by eapply NoDup_join_lookup| |].
    - intros j Hj. apply Hrange. apply list_elem_of_join. exists slice.
      split; [done|]. by eapply list_elem_of_lookup_2.
    - intros j r. by apply Hexact. }
  eexists _, _. split; [by rewrite Hfr, decide_True|].
  split; [by rewrite Hcr, decide_True|].
  rewrite Hcount. split; [done|]. split.
  - rewrite Hlen.
    assert (1 ≤ length (plan_recs p) / N_FOLDS); [|lia].
    apply Nat.div_le_lower_bound; unfold N_FOLDS in *; lia.
  - pose proof (filter_app_complement
                  (λ r, plan_fold_map p !! r = Some i) (plan_recs p)) as Hc.
    apply Permutation_length in Hc. rewrite length_app, Hcount in Hc.
    transitivity
      (length (filter (λ r, ¬ plan_fold_map p !! r = Some i) (plan_recs p)));
      [done|lia].
Qed.

End Balance.

Lemma cases_wide_plan : main_plan Cases.wide = Ok Cases.wide_plan.
Proof. apply is_ok_value. vm_compute. reflexivity. Qed.

Lemma test_folds_balanced_witness :
  ∃ test train,
    plan_fold_records Cases.wide_plan !! 1 = Some test
    ∧ plan_combined_records Cases.wide_plan !! 1 = Some train
    ∧ length test
      = length (plan_recs Cases.wide_plan) / N_FOLDS
        + (if decide (1 < length (plan_recs Cases.wide_plan) mod N_FOLDS)
           then 1 else 0)
    ∧ 0 < length test
    ∧ length train = length (plan_recs Cases.wide_plan) - length test.
Proof.
  apply (test_folds_balanced Cases.wide Cases.wide_plan 1
           example_shuffle_permutes cases_wide_plan).
  - apply (bool_decide_unpack _). vm_compute. exact I.
  - unfold N_FOLDS. lia.
Defined.

Section Census.

Context `{!Externals}.

Lemma save_test_record_new (w : world) (ref : list ref_row) (sf : string)
    (idx : nat) (rec : string) (fs fs' : filesystem) (q : path) :
  save_test_record w ref sf (idx, rec) fs = Ok fs' →
  is_Some (files fs' !! q) →
  is_Some (files fs !! q)
  ∨ ∃ lbl cls, lookup_label ref rec = Ok lbl ∧ class_names !! lbl = Some cls
               ∧ q ∈ test_files sf cls idx.
Proof.
  intros (raw & lbl & cls & _ & Hlbl & Hcls & _ & ->)%save_test_record_ok.
  rewrite !lookup_insert_is_Some.
  intros [<-|[_ [<-|[_ [<-|[_ [<-|[_ Hq]]]]]]]]; [right..|by left];
    exists lbl, cls; (split; [done|]); (split; [done|]); unfold test_files.
  - by right; right; right; left.
  - by right; right; left.
  - by right; left.
  - by left.
Qed.

Lemma save_train_record_new (w : world) (ref : list ref_row) (cf : string)
    (idx : nat) (rec : string) (fs fs' : filesystem) (q : path) :
  save_train_record w ref cf (idx, rec) fs = Ok fs' →
  is_Some (files fs' !! q) →
  is_Some (files fs !! q) ∨ q ∈ train_files cf idx.
Proof.
  intros (raw & lbl & _ & _ & _ & ->)%save_train_record_ok.
  rewrite !lookup_insert_is_Some.
  intros [<-|[_ [<-|[_ Hq]]]]; [right..|by left]; unfold train_files.
  - by right; left.
  - by left.
Qed.

(** A file that the iteration for fold [i] leaves was there before or is a
    file of a record of the two lists of the fold. *)
Lemma save_fold_new (w : world) (ref : list ref_row)
    (fold_records combined_records : gmap nat (list string))
    (i : nat) (fs fs' : filesystem) (q : path) :
  save_fold w ref fold_records combined_records i fs = Ok fs' →
  is_Some (files fs' !! q) →
  is_Some (files fs !! q) ∨ listed ref fold_records combined_records i q.
Proof.
  unfold save_fold.
  destruct (getitem fold_records i (pretty i)) as [tl|] eqn:Htl; [|done].
  cbn [mbind result_bind].
  destruct (for_each _ (enumerate tl) fs) as [fs1|] eqn:H1; [|done].
  cbn [mbind result_bind].
  destruct (getitem combined_records i (pretty i)) as [trl|] eqn:Htrl;
    [|done].
  cbn [mbind result_bind]. intros H2.
  apply getitem_ok in Htl, Htrl.
  assert (is_Some (files fs1 !! q) →
          is_Some (files fs !! q)
          ∨ listed ref fold_records combined_records i q) as Htest.
  { revert H1.
    apply (for_each_invariant
             (λ s : filesystem,
                is_Some (files s !! q) →
                is_Some (files fs !! q)
                ∨ listed ref fold_records combined_records i q));
      [|by left].
    intros [idx rec] s1 s2 Hin%enumerate_lookup IH Hbody Hq.
    destruct (save_test_record_new _ _ _ _ _ _ _ _ Hbody Hq)
      as [Hold|(lbl & cls & Hlbl & Hcls & Hin')]; [by apply IH|].
    right. exists idx, rec. left. by exists tl, lbl, cls. }
  revert H2.
  apply (for_each_invariant
           (λ s : filesystem,
              is_Some (files s !! q) →
              is_Some (files fs !! q)
              ∨ listed ref fold_records combined_records i q)); [|done].
  intros [idx rec] s1 s2 Hin%enumerate_lookup IH Hbody Hq.
  destruct (save_train_record_new _ _ _ _ _ _ _ _ Hbody Hq) as [Hold|Hin'];
    [by apply IH|].
  right. exists idx, rec. right. by exists trl.
Qed.

(** The files of a stored record are there. *)
Lemma listed_stored (w : world) (ref : list ref_row)
    (fold_records combined_records : gmap nat (list string))
    (fs : filesystem) (i : nat) (q : path) :
  (∀ l idx rec, fold_records !! i = Some l → l !! idx = Some rec →
     stored_test w ref fs (single_name i) idx rec) →
  (∀ l idx rec, combined_records !! i = Some l → l !! idx = Some rec →
     stored_train w ref fs (combined_name i) idx rec) →
  listed ref fold_records combined_records i q → is_Some (files fs !! q).
Proof.
  intros Htest Htrain
    (idx & rec & [(test & lbl & cls & Hl & Hrec & Hlbl & Hcls & Hq)
                 |(train & Hl & Hrec & Hq)]).
  - destruct (Htest test idx rec Hl Hrec)
      as (raw & lbl' & cls' & _ & Hlbl' & Hcls' & F1 & F2 & F3 & F4).
    rewrite Hlbl in Hlbl'. injection Hlbl' as <-.
    rewrite Hcls in Hcls'. injection Hcls' as <-.
    unfold test_files in Hq.
    apply elem_of_cons in Hq as [->|Hq]; [by eexists|].
    apply elem_of_cons in Hq as [->|Hq]; [by eexists|].
    apply elem_of_cons in Hq as [->|Hq]; [by eexists|].
    apply list_elem_of_singleton in Hq as ->. by eexists.
  - destruct (Htrain train idx rec Hl Hrec) as (raw & lbl & _ & _ & F1 & F2).
    unfold train_files in Hq.
    apply elem_of_cons in Hq as [->|Hq]; [by eexists|].
    apply list_elem_of_singleton in Hq as ->. by eexists.
Qed.

(** X13. When [main] returns, the files inside [folds] are those of the
    records of the fold lists and no others: four files for the record at
    every position of a test list, two of them in the directory of the
    class of the record and in no other class directory, and two files for
    the record at every position of a combined list. *)
Theorem main_files_exact (w : world) (fs fs' : filesystem) :
  fs_wf fs → main w fs = Ok fs' →
  ∃ p, main_plan w = Ok p
    ∧ ∀ q, under_folds q →
        is_Some (files fs' !! q)
        ↔ ∃ i, i < N_FOLDS
               ∧ listed (plan_ref p) (plan_fold_records p)
                   (plan_combined_records p) i q.
Proof.
  intros Hwf Hrun.
  destruct (main_stored w fs fs' Hrun) as (p & Hp & Htest & Htrain).
  destruct (main_inv w fs fs' Hrun)
    as (fs0 & p' & fs1 & Hreset & Hp' & Hdirs & Hloop).
  rewrite Hp in Hp'. injection Hp' as <-.
  destruct (main_reset_ok fs fs0 Hwf Hreset) as (Hwf0 & Hno & _).
  rewrite (make_dirs_exact fs0 Hwf0 Hno) in Hdirs. injection Hdirs as <-.
  exists p. split; [done|]. intros q Hq. split.
  - revert Hloop.
    apply (for_each_invariant
             (λ s : filesystem,
                is_Some (files s !! q) →
                ∃ i, i < N_FOLDS
                     ∧ listed (plan_ref p) (plan_fold_records p)
                         (plan_combined_records p) i q)).
    + intros i s1 s2 Hi%elem_of_seq IH Hbody Hsome.
      destruct (save_fold_new _ _ _ _ _ _ _ _ Hbody Hsome) as [Hold|Hnew];
        [by apply IH|].
      exists i. split; [lia|done].
    + cbn [files add_dirs]. destruct (Hno q Hq) as [_ ->]. by intros [? ?].
  - intros (i & _ & Hl). eapply listed_stored; [| |exact Hl].
    + intros l idx rec. apply Htest.
    + intros l idx rec. apply Htrain.
Qed.

End Census.

Lemma main_files_exact_witness :
  ∃ p, main_plan Example.study = Ok p
    ∧ ∀ q, under_folds q →
        is_Some (files Example.rebuilt !! q)
        ↔ ∃ i, i < N_FOLDS
               ∧ listed (plan_ref p) (plan_fold_records p)
                   (plan_combined_records p) i q.
Proof.
  exact (main_files_exact Example.study Example.stale Example.rebuilt
           example_wf example_run).
Defined.
